(** * BuildingMOTIF: library loading, dependency resolution and the
      dependency table

    A shallow embedding of [buildingmotif/dataclasses/library.py] and of
    the migration [542bfbdef624] (uniqueness of dependency rows), with the
    persistence collaborator and [Template] modelled from the
    specification where their code is not part of the sources at hand. *)

From stdpp Require Import base option list strings gmap sets relations pretty.
From Stdlib Require Import ZArith Lia.

Local Open Scope Z_scope.
Local Open Scope string_scope.
Local Open Scope list_scope.

(** ** RDF terms and graphs (rdflib) *)

Module RDF.

(** [rdflib.term]: the three kinds of node. [URIRef] and [BNode] are
    subclasses of [str]; [str(node)] is the text they carry. *)
Inductive Node : Type :=
| URIRef (s : string)
| BNode (s : string)
| Literal (s : string).

#[global] Instance Node_eq_dec : EqDecision Node.
Proof. solve_decision. Defined.

Definition Node_to_sum (n : Node) : string + (string + string) :=
  match n with
  | URIRef s => inl s
  | BNode s => inr (inl s)
  | Literal s => inr (inr s)
  end.

Definition Node_of_sum (x : string + (string + string)) : Node :=
  match x with
  | inl s => URIRef s
  | inr (inl s) => BNode s
  | inr (inr s) => Literal s
  end.

#[global] Instance Node_countable : Countable Node.
Proof.
  refine (inj_countable' Node_to_sum Node_of_sum _).
  intros []; reflexivity.
Defined.

Definition str (n : Node) : string :=
  match n with URIRef s | BNode s | Literal s => s end.

Definition isinstance_URIRef (n : Node) : bool :=
  match n with URIRef _ => true | _ => false end.

Definition Triple : Type := Node * Node * Node.

(** [rdflib.Graph]: a set of triples. *)
Abbreviation Graph := (gset Triple).

Definition type : Node :=
  URIRef "http://www.w3.org/1999/02/22-rdf-syntax-ns#type".
Definition OWL_Ontology : Node := URIRef "http://www.w3.org/2002/07/owl#Ontology".
Definition OWL_Class : Node := URIRef "http://www.w3.org/2002/07/owl#Class".
Definition SH_NodeShape : Node := URIRef "http://www.w3.org/ns/shacl#NodeShape".

(** [Graph.subjects(predicate, object)], collected into a set. *)
Definition subjects (g : Graph) (p o : Node) : gset Node :=
  set_map (fun t : Triple => t.1.1)
          (filter (fun t : Triple => t.1.2 = p ∧ t.2 = o) g).

(** The nodes occurring in a graph, in any position. *)
Definition all_nodes (g : Graph) : gset Node :=
  set_map (fun t : Triple => t.1.1) g ∪
  set_map (fun t : Triple => t.1.2) g ∪
  set_map (fun t : Triple => t.2) g.

End RDF.

Import RDF.

(** ** Exceptions, logging and the effect monad *)

(** The exceptions that can cross the functions modelled here.
    [UniquenessError] is rdflib's error for a non-unique [Graph.value]
    (the specification calls it AmbiguousOntologyError); [NoResultFound],
    [MultipleResultsFound] and [IntegrityError] come from the persistence
    layer; [OperationalError] from schema changes. *)
Inductive Exception : Type :=
| UniquenessError
| AssertionError
| KeyError (key : string)
| TypeError (msg : string)
| ValueError (msg : string)
| AttributeError (msg : string)
| NoResultFound
| MultipleResultsFound
| IntegrityError (constraint : string)
| OperationalError (msg : string)
| CyclicDependencyError
| OtherException (msg : string).

#[global] Instance Exception_eq_dec : EqDecision Exception.
Proof. solve_decision. Defined.

Definition Exception_str (e : Exception) : string :=
  match e with
  | UniquenessError => "UniquenessError"
  | AssertionError => "AssertionError"
  | KeyError k => "KeyError: " +:+ k
  | TypeError m | ValueError m | AttributeError m
  | OperationalError m | OtherException m => m
  | NoResultFound => "NoResultFound"
  | MultipleResultsFound => "MultipleResultsFound"
  | IntegrityError c => "IntegrityError: " +:+ c
  | CyclicDependencyError => "CyclicDependencyError"
  end.

Inductive Result (A : Type) : Type :=
| Ok (a : A)
| Raise (e : Exception).
Arguments Ok {A} a.
Arguments Raise {A} e.

Inductive Level : Type := WARNING | ERROR.

Record LogRecord : Type := { level : Level; message : string }.

#[global] Instance Level_eq_dec : EqDecision Level.
Proof. solve_decision. Defined.
#[global] Instance LogRecord_eq_dec : EqDecision LogRecord.
Proof. solve_decision. Defined.

(** ** The dependency table and its migration [542bfbdef624]

    The table [deps_association_table] is modelled as a schema (columns
    and named constraints) with its rows; the schema operations are those
    of Alembic's batch mode that [upgrade] uses, and insertion follows SQL:
    a NOT NULL column refuses NULL, and a primary-key or unique constraint
    refuses a row that agrees with an existing one on all of the
    constraint's columns, NULLs never being equal to anything. *)

Module Migration.

Inductive SqlType : Type := INTEGER | JSON.

Record Column : Type := {
  col_name : string;
  col_type : SqlType;
  col_nullable : bool;
  col_primary_key : bool
}.

Inductive ConstraintType : Type := primary | unique.

#[global] Instance ConstraintType_eq_dec : EqDecision ConstraintType.
Proof. solve_decision. Defined.

Record Constraint : Type := {
  con_name : string;
  con_type : ConstraintType;
  con_columns : list string
}.

Record Table : Type := {
  tbl_columns : list Column;
  tbl_constraints : list Constraint
}.

(** A binding map as it is stored: the items of the dictionary, in order
    (after the migration, literally the list of pairs). *)
Abbreviation Bindings := (list (string * string)).

Inductive Value : Type :=
| VInt (z : Z)
| VJson (kvs : Bindings).

#[global] Instance Value_eq_dec : EqDecision Value.
Proof. solve_decision. Defined.

(** A row of [DepsAssociation]; [None] is SQL NULL. *)
Record DepsAssociation : Type := {
  id : option Z;
  dependant_id : option Z;
  dependee_id : option Z;
  args : option Bindings
}.

#[global] Instance DepsAssociation_eq_dec : EqDecision DepsAssociation.
Proof. solve_decision. Defined.

Definition cell (c : string) (r : DepsAssociation) : option Value :=
  if decide (c = "id") then VInt <$> id r
  else if decide (c = "dependant_id") then VInt <$> dependant_id r
  else if decide (c = "dependee_id") then VInt <$> dependee_id r
  else if decide (c = "args") then VJson <$> args r
  else None.

Record DepsTable : Type := {
  schema : Table;
  rows : list DepsAssociation
}.

Definition has_column (c : string) (t : Table) : bool :=
  bool_decide (c ∈ col_name <$> tbl_columns t).

(** The column sets on which rows must differ: every primary-key or unique
    constraint, and the columns flagged [primary_key] when there are any. *)
Definition pk_columns (t : Table) : list string :=
  col_name <$> filter (fun c => col_primary_key c = true) (tbl_columns t).

Definition keys (t : Table) : list (string * list string) :=
  ((fun c => (con_name c, con_columns c)) <$> tbl_constraints t) ++
  match pk_columns t with
  | [] => []
  | pk => [("PRIMARY KEY", pk)]
  end.

(** Two rows collide on a key when, on each of its columns, both hold the
    same non-NULL value. *)
Definition collide (key : list string) (r1 r2 : DepsAssociation) : bool :=
  forallb (fun c => match cell c r1, cell c r2 with
                    | Some v1, Some v2 => bool_decide (v1 = v2)
                    | _, _ => false
                    end) key.

Definition violated_key (t : Table) (existing : list DepsAssociation)
    (r : DepsAssociation) : option string :=
  fst <$> List.find (fun k => existsb (collide k.2 r) existing) (keys t).

Definition not_null_columns (t : Table) : list string :=
  col_name <$> filter (fun c => negb (col_nullable c) || col_primary_key c)
                      (tbl_columns t).

Definition null_violation (t : Table) (r : DepsAssociation) : option string :=
  List.find (fun c => bool_decide (cell c r = None)) (not_null_columns t).

(** The integer primary key [id], when the table has one, is assigned by
    the database to a row that comes without it. *)
Definition next_row_id (rs : list DepsAssociation) : Z :=
  1 + foldr Z.max 0 (omap id rs).

Definition assign_id (t : Table) (existing : list DepsAssociation)
    (r : DepsAssociation) : DepsAssociation :=
  if bool_decide (pk_columns t = ["id"] ∧ id r = None)
  then {| id := Some (next_row_id existing);
          dependant_id := dependant_id r;
          dependee_id := dependee_id r;
          args := args r |}
  else r.

(** INSERT of one row. *)
Definition insert (d : DepsTable) (r : DepsAssociation) : Result DepsTable :=
  let r := assign_id (schema d) (rows d) r in
  match null_violation (schema d) r with
  | Some c => Raise (IntegrityError ("NOT NULL constraint failed: " +:+ c))
  | None =>
      match violated_key (schema d) (rows d) r with
      | Some k => Raise (IntegrityError k)
      | None => Ok {| schema := schema d; rows := rows d ++ [r] |}
      end
  end.

(** Whether the rows already stored satisfy a key. *)
Fixpoint key_holds (key : list string) (rs : list DepsAssociation) : bool :=
  match rs with
  | [] => true
  | r :: rs' => negb (existsb (collide key r) rs') && key_holds key rs'
  end.

(** *** Batch operations *)

(** [batch_op.drop_constraint(name, type_=...)] *)
Definition drop_constraint (name : string) (type_ : ConstraintType)
    (d : DepsTable) : Result DepsTable :=
  let t := schema d in
  if existsb (fun c => bool_decide (con_name c = name ∧ con_type c = type_))
             (tbl_constraints t)
  then Ok {| schema := {| tbl_columns := tbl_columns t;
                          tbl_constraints :=
                            filter (fun c => con_name c ≠ name) (tbl_constraints t) |};
             rows := rows d |}
  else Raise (OperationalError ("no such constraint: " +:+ name)).

(** [batch_op.add_column(sa.Column(name, type, primary_key=...))]: the
    rows already stored get the new integer key filled in, counting
    from 1. *)
Definition add_column (c : Column) (d : DepsTable) : Result DepsTable :=
  let t := schema d in
  if has_column (col_name c) t
  then Raise (OperationalError ("duplicate column name: " +:+ col_name c))
  else Ok {| schema := {| tbl_columns := tbl_columns t ++ [c];
                          tbl_constraints := tbl_constraints t |};
             rows := if decide (col_name c = "id" ∧ col_primary_key c = true)
                     then imap (fun i r =>
                                 {| id := Some (Z.of_nat (S i));
                                    dependant_id := dependant_id r;
                                    dependee_id := dependee_id r;
                                    args := args r |}) (rows d)
                     else rows d |}.

(** [batch_op.alter_column(name, existing_type=..., nullable=...)] *)
Definition alter_column (name : string) (nullable : bool)
    (d : DepsTable) : Result DepsTable :=
  let t := schema d in
  if negb (has_column name t)
  then Raise (OperationalError ("no such column: " +:+ name))
  else if negb nullable &&
          existsb (fun r => bool_decide (cell name r = None)) (rows d)
  then Raise (IntegrityError ("NOT NULL constraint failed: " +:+ name))
  else Ok {| schema :=
               {| tbl_columns :=
                    (fun c => if decide (col_name c = name)
                              then {| col_name := col_name c;
                                      col_type := col_type c;
                                      col_nullable := nullable;
                                      col_primary_key := col_primary_key c |}
                              else c) <$> tbl_columns t;
                  tbl_constraints := tbl_constraints t |};
             rows := rows d |}.

(** [batch_op.create_unique_constraint(name, columns)] *)
Definition create_unique_constraint (name : string) (columns : list string)
    (d : DepsTable) : Result DepsTable :=
  let t := schema d in
  if negb (forallb (fun c => has_column c t) columns)
  then Raise (OperationalError ("no such column in: " +:+ name))
  else if negb (key_holds columns (rows d))
  then Raise (IntegrityError name)
  else Ok {| schema :=
               {| tbl_columns := tbl_columns t;
                  tbl_constraints :=
                    tbl_constraints t ++
                    [{| con_name := name; con_type := unique;
                        con_columns := columns |}] |};
             rows := rows d |}.

Definition and_then {A B : Type} (r : Result A) (k : A → Result B) : Result B :=
  match r with
  | Ok a => k a
  | Raise e => Raise e
  end.

(** The second half of [upgrade]: every row's [args] is read back, copied
    as a dictionary and stored again as the list of its items. A row whose
    [args] is NULL comes back as [None], on which [dep.args.copy()]
    raises. *)
Definition reserialize (r : DepsAssociation) : Result DepsAssociation :=
  match args r with
  | None => Raise (AttributeError "'NoneType' object has no attribute 'copy'")
  | Some kvs =>
      Ok {| id := id r;
            dependant_id := dependant_id r;
            dependee_id := dependee_id r;
            args := Some ((fun kv : string * string => (kv.1, kv.2)) <$> kvs) |}
  end.

(** The loop over the rows, which ends at the first row that raises. *)
Fixpoint reserialize_all (rs : list DepsAssociation) : Result (list DepsAssociation) :=
  match rs with
  | [] => Ok []
  | r :: rs' =>
      and_then (reserialize r) (fun r' =>
      and_then (reserialize_all rs') (fun rs'' => Ok (r' :: rs'')))
  end.

Definition upgrade (d : DepsTable) : Result DepsTable :=
  and_then (drop_constraint "deps_association_table_pkey" primary d) (fun d =>
  and_then (add_column {| col_name := "id"; col_type := INTEGER;
                          col_nullable := true; col_primary_key := true |} d) (fun d =>
  and_then (alter_column "dependant_id" false d) (fun d =>
  and_then (alter_column "dependee_id" false d) (fun d =>
  and_then (create_unique_constraint "deps_association_unique_constraint"
              ["dependant_id"; "dependee_id"; "args"] d) (fun d =>
  and_then (reserialize_all (rows d)) (fun rs =>
  Ok {| schema := schema d; rows := rs |})))))).

(** The table as the revision before this one leaves it: the key is the
    pair of template ids, named [deps_association_table_pkey]. *)
Definition table_before : Table :=
  {| tbl_columns :=
       [ {| col_name := "dependant_id"; col_type := INTEGER;
            col_nullable := true; col_primary_key := false |};
         {| col_name := "dependee_id"; col_type := INTEGER;
            col_nullable := true; col_primary_key := false |};
         {| col_name := "args"; col_type := JSON;
            col_nullable := true; col_primary_key := false |} ];
     tbl_constraints :=
       [ {| con_name := "deps_association_table_pkey"; con_type := primary;
            con_columns := ["dependant_id"; "dependee_id"] |} ] |}.

End Migration.

(** *** The way back: [downgrade] *)

Module MigrationDown.

Import Migration.

(** An index of the table [template]. *)
Record Index : Type := {
  ix_name : string;
  ix_columns : list string;
  ix_unique : bool
}.

(** The two tables [downgrade] touches: the indexes of [template] and the
    dependency table. *)
Record Database : Type := {
  template_indexes : list Index;
  deps : DepsTable
}.

(** [batch_op.create_index(name, columns, unique=...)] *)
Definition create_index (name : string) (columns : list string) (unique_ : bool)
    (ixs : list Index) : Result (list Index) :=
  if bool_decide (name ∈ ix_name <$> ixs)
  then Raise (OperationalError ("index " +:+ name +:+ " already exists"))
  else Ok (ixs ++ [{| ix_name := name; ix_columns := columns; ix_unique := unique_ |}]).

(** A row once the column [c] is gone. *)
Definition clear_cell (c : string) (r : DepsAssociation) : DepsAssociation :=
  {| id := if decide (c = "id") then None else id r;
     dependant_id := if decide (c = "dependant_id") then None else dependant_id r;
     dependee_id := if decide (c = "dependee_id") then None else dependee_id r;
     args := if decide (c = "args") then None else args r |}.

(** [batch_op.drop_column(name)] *)
Definition drop_column (name : string) (d : DepsTable) : Result DepsTable :=
  let t := schema d in
  if negb (has_column name t)
  then Raise (OperationalError ("no such column: " +:+ name))
  else Ok {| schema := {| tbl_columns :=
                            filter (fun c => col_name c ≠ name) (tbl_columns t);
                          tbl_constraints := tbl_constraints t |};
             rows := clear_cell name <$> rows d |}.

Definition downgrade (db : Database) : Result Database :=
  and_then (create_index "ix_template_name" ["name"] false (template_indexes db)) (fun ixs =>
  and_then (drop_constraint "deps_association_unique_constraint" unique (deps db)) (fun d =>
  and_then (alter_column "dependee_id" false d) (fun d =>
  and_then (alter_column "dependant_id" false d) (fun d =>
  and_then (drop_column "id" d) (fun d =>
  Ok {| template_indexes := ixs; deps := d |}))))).

(** The dependency table as [upgrade] followed by [downgrade] leaves it:
    the three original columns, the two ids NOT NULL, and no constraint. *)
Definition table_downgraded : Table :=
  {| tbl_columns :=
       [ {| col_name := "dependant_id"; col_type := INTEGER;
            col_nullable := false; col_primary_key := false |};
         {| col_name := "dependee_id"; col_type := INTEGER;
            col_nullable := false; col_primary_key := false |};
         {| col_name := "args"; col_type := JSON;
            col_nullable := true; col_primary_key := false |} ];
     tbl_constraints := [] |}.

End MigrationDown.

(** ** The persistent store and the effect monad *)

Record DBLibrary : Type := {
  lib_id : Z;
  lib_name : string;
  lib_shape_collection_id : Z
}.

Record DBTemplate : Type := {
  tmpl_id : Z;
  tmpl_name : string;
  tmpl_body_id : Z;
  tmpl_optional_args : list string;
  tmpl_library_id : Z
}.

(** What the ambient [BuildingMOTIF] instance gives access to: the tables,
    the graph store (template bodies by body id, shape collections by id)
    and the source of fresh identifiers. *)
Record Store : Type := {
  library_table : list DBLibrary;
  template_table : list DBTemplate;
  deps_association_table : Migration.DepsTable;
  shape_collections : gmap Z Graph;
  graphs : gmap Z Graph;
  next_id : Z
}.

(** A computation reads and changes the store, may raise, and emits log
    records; a raise keeps the changes made so far (nothing is rolled
    back) and the records emitted so far. *)
Definition M (A : Type) : Type := Store → Result A * Store * list LogRecord.

Definition ret {A : Type} (a : A) : M A := fun s => (Ok a, s, []).

Definition raise {A : Type} (e : Exception) : M A := fun s => (Raise e, s, []).

Definition bind {A B : Type} (m : M A) (k : A → M B) : M B :=
  fun s =>
    match m s with
    | (Ok a, s1, l1) =>
        match k a s1 with
        | (r, s2, l2) => (r, s2, l1 ++ l2)
        end
    | (Raise e, s1, l1) => (Raise e, s1, l1)
    end.

Notation "'let*' x ':=' m 'in' k" := (bind m (fun x => k))
  (at level 10, x pattern, m at level 100, k at level 200).

(** [try: m except Exception as e: h e] *)
Definition try_except {A : Type} (m : M A) (h : Exception → M A) : M A :=
  fun s =>
    match m s with
    | (Ok a, s1, l1) => (Ok a, s1, l1)
    | (Raise e, s1, l1) =>
        match h e s1 with
        | (r, s2, l2) => (r, s2, l1 ++ l2)
        end
    end.

Definition lift {A : Type} (r : Result A) : M A := fun s => (r, s, []).

Definition get_store : M Store := fun s => (Ok s, s, []).

Definition put_store (s' : Store) : M unit := fun _ => (Ok tt, s', []).

Definition assert (b : bool) : M unit :=
  if b then ret tt else raise AssertionError.

Definition logging_warn (msg : string) : M unit :=
  fun s => (Ok tt, s, [{| level := WARNING; message := msg |}]).

Definition logging_error (msg : string) : M unit :=
  fun s => (Ok tt, s, [{| level := ERROR; message := msg |}]).

(** [for x in xs: body x] *)
Fixpoint forM_ {A : Type} (xs : list A) (body : A → M unit) : M unit :=
  match xs with
  | [] => ret tt
  | x :: xs' => let* _ := body x in forM_ xs' body
  end.

(** A loop that updates local variables [acc]. *)
Fixpoint foldM {A S : Type} (xs : list A) (acc : S) (body : S → A → M S) : M S :=
  match xs with
  | [] => ret acc
  | x :: xs' => let* acc' := body acc x in foldM xs' acc' body
  end.

(** [[f x for x in xs]] *)
Fixpoint mapM {A B : Type} (f : A → M B) (xs : list A) : M (list B) :=
  match xs with
  | [] => ret []
  | x :: xs' => let* y := f x in let* ys := mapM f xs' in ret (y :: ys)
  end.

(** ** The persistence collaborator *)

Module table_connection.

Definition set_library_table (v : list DBLibrary) (s : Store) : Store :=
  {| library_table := v; template_table := template_table s;
     deps_association_table := deps_association_table s;
     shape_collections := shape_collections s; graphs := graphs s;
     next_id := next_id s |}.

Definition set_template_table (v : list DBTemplate) (s : Store) : Store :=
  {| library_table := library_table s; template_table := v;
     deps_association_table := deps_association_table s;
     shape_collections := shape_collections s; graphs := graphs s;
     next_id := next_id s |}.

Definition set_deps_association_table (v : Migration.DepsTable) (s : Store) : Store :=
  {| library_table := library_table s; template_table := template_table s;
     deps_association_table := v;
     shape_collections := shape_collections s; graphs := graphs s;
     next_id := next_id s |}.

Definition set_shape_collections (v : gmap Z Graph) (s : Store) : Store :=
  {| library_table := library_table s; template_table := template_table s;
     deps_association_table := deps_association_table s;
     shape_collections := v; graphs := graphs s;
     next_id := next_id s |}.

Definition set_graphs (v : gmap Z Graph) (s : Store) : Store :=
  {| library_table := library_table s; template_table := template_table s;
     deps_association_table := deps_association_table s;
     shape_collections := shape_collections s; graphs := v;
     next_id := next_id s |}.

Definition set_next_id (v : Z) (s : Store) : Store :=
  {| library_table := library_table s; template_table := template_table s;
     deps_association_table := deps_association_table s;
     shape_collections := shape_collections s; graphs := graphs s;
     next_id := v |}.

(** Modelled from the spec: the persistence store's [create_library(name)]
    (the code of [table_connection] is not among the sources). A library
    has a name, unique over the store (§3), and owns one shape collection,
    created with it; the new record takes the next fresh identifiers. The
    name arrives unchecked from the caller and may be Python's [None]. *)
Definition create_db_library (name : option string) : M DBLibrary :=
  fun s =>
    match name with
    | None => (Raise (IntegrityError "NOT NULL constraint failed: library.name"), s, [])
    | Some n =>
        if bool_decide (n ∈ lib_name <$> library_table s)
        then (Raise (IntegrityError "UNIQUE constraint failed: library.name"), s, [])
        else
          let l := {| lib_id := next_id s; lib_name := n;
                      lib_shape_collection_id := next_id s + 1 |} in
          (Ok l,
           set_next_id (next_id s + 2)
             (set_shape_collections (<[next_id s + 1 := ∅]> (shape_collections s))
                (set_library_table (library_table s ++ [l]) s)),
           [])
    end.

(** Modelled from the spec: [get_library(id)]. *)
Definition get_db_library_by_id (id : Z) : M DBLibrary :=
  fun s =>
    match List.find (fun l => bool_decide (lib_id l = id)) (library_table s) with
    | Some l => (Ok l, s, [])
    | None => (Raise NoResultFound, s, [])
    end.

(** Modelled from the spec: [get_library(name)]. *)
Definition get_db_library_by_name (name : string) : M DBLibrary :=
  fun s =>
    match List.find (fun l => bool_decide (lib_name l = name)) (library_table s) with
    | Some l => (Ok l, s, [])
    | None => (Raise NoResultFound, s, [])
    end.

(** Modelled from the spec: [rename_library(id, name)], the name staying
    unique. *)
Definition update_db_library_name (id : Z) (new_name : string) : M unit :=
  fun s =>
    match List.find (fun l => bool_decide (lib_id l = id)) (library_table s) with
    | None => (Raise NoResultFound, s, [])
    | Some _ =>
        if existsb (fun l => bool_decide (lib_name l = new_name ∧ lib_id l ≠ id))
                   (library_table s)
        then (Raise (IntegrityError "UNIQUE constraint failed: library.name"), s, [])
        else (Ok tt,
              set_library_table
                ((fun l => if decide (lib_id l = id)
                           then {| lib_id := lib_id l; lib_name := new_name;
                                   lib_shape_collection_id := lib_shape_collection_id l |}
                           else l) <$> library_table s) s,
              [])
    end.

(** Modelled from the spec: [create_template(name, owning_library_id)]. A
    template's name is unique within its owning library (§3); the record
    takes a fresh id and a fresh body id, and starts without optional
    arguments. *)
Definition create_db_template (name : string) (library_id : Z) : M DBTemplate :=
  fun s =>
    if existsb (fun t => bool_decide (tmpl_name t = name ∧ tmpl_library_id t = library_id))
               (template_table s)
    then (Raise (IntegrityError "UNIQUE constraint failed: template.name, template.library_id"),
          s, [])
    else
      let t := {| tmpl_id := next_id s; tmpl_name := name;
                  tmpl_body_id := next_id s + 1; tmpl_optional_args := [];
                  tmpl_library_id := library_id |} in
      (Ok t, set_next_id (next_id s + 2) (set_template_table (template_table s ++ [t]) s), []).

(** Modelled from the spec: [set_template_optional_args(id, names)]. *)
Definition update_db_template_optional_args (id : Z) (optional_args : list string) : M unit :=
  fun s =>
    match List.find (fun t => bool_decide (tmpl_id t = id)) (template_table s) with
    | None => (Raise NoResultFound, s, [])
    | Some _ =>
        (Ok tt,
         set_template_table
           ((fun t => if decide (tmpl_id t = id)
                      then {| tmpl_id := tmpl_id t; tmpl_name := tmpl_name t;
                              tmpl_body_id := tmpl_body_id t;
                              tmpl_optional_args := optional_args;
                              tmpl_library_id := tmpl_library_id t |}
                      else t) <$> template_table s) s,
         [])
    end.

(** Modelled from the spec: [get_template(id)]. *)
Definition get_db_template_by_id (id : Z) : M DBTemplate :=
  fun s =>
    match List.find (fun t => bool_decide (tmpl_id t = id)) (template_table s) with
    | Some t => (Ok t, s, [])
    | None => (Raise NoResultFound, s, [])
    end.

(** Modelled from the spec: the lookup [get_db_template_by_name(name)] as
    [Library.get_template_by_name] calls it, with the name alone. The
    specification lists only [get_template(id | name+library)]; here the
    query is over all libraries and must have exactly one result. *)
Definition get_db_template_by_name (name : string) : M DBTemplate :=
  fun s =>
    match filter (fun t => tmpl_name t = name) (template_table s) with
    | [] => (Raise NoResultFound, s, [])
    | [t] => (Ok t, s, [])
    | _ => (Raise MultipleResultsFound, s, [])
    end.

(** Modelled from the spec: [list_templates(library_id)], the relationship
    [db_library.templates]. *)
Definition templates (l : DBLibrary) (s : Store) : list DBTemplate :=
  filter (fun t => tmpl_library_id t = lib_id l) (template_table s).

End table_connection.

Module graph_connection.

(** Modelled from the spec: the graph store's
    [create_graph(id, initial_fragment)]. *)
Definition create_graph (identifier : Z) (graph : Graph) : M Graph :=
  fun s => (Ok graph, table_connection.set_graphs (<[identifier := graph]> (graphs s)) s, []).

End graph_connection.

(** ** Templates *)

(** The dependency relation stored in the dependency table: the pairs
    (dependant, dependee) of its rows. *)
Definition dep_edges (d : Migration.DepsTable) : list (Z * Z) :=
  omap (fun r => match Migration.dependant_id r, Migration.dependee_id r with
                 | Some a, Some b => Some (a, b)
                 | _, _ => None
                 end) (Migration.rows d).

(** Modelled from the spec: the test behind "adding the edge would close a
    cycle" of §4.1 ([template.py] is not among the sources). An edge from
    [a] to [b] closes a cycle when [a] can be reached from [b] along the
    edges already there (a loop on one node included). The nodes reachable
    from [b] are collected by following the edges out of the nodes found
    so far, once per edge of the list ([closes_cycle_spec] below). *)
Definition reach_step (es : list (Z * Z)) (R : gset Z) : gset Z :=
  R ∪ list_to_set (snd <$> filter (fun e : Z * Z => e.1 ∈ R) es).

Definition reachable (es : list (Z * Z)) (x : Z) : gset Z :=
  Nat.iter (length es) (reach_step es) {[ x ]}.

Definition closes_cycle (es : list (Z * Z)) (a b : Z) : bool :=
  bool_decide (a ∈ reachable es b).

(** Acyclicity of a finite edge list, decided by pruning: an edge whose
    target has no outgoing edge lies on no cycle and is removed; the edges
    are acyclic when repeating this empties the list ([acyclicb_spec]
    below). *)
Definition has_outgoing (es : list (Z * Z)) (v : Z) : bool :=
  existsb (fun e : Z * Z => bool_decide (e.1 = v)) es.

Definition prune (es : list (Z * Z)) : list (Z * Z) :=
  filter (fun e : Z * Z => has_outgoing es e.2) es.

Fixpoint prune_n (n : nat) (es : list (Z * Z)) : list (Z * Z) :=
  match n with
  | O => es
  | S n' => prune_n n' (prune es)
  end.

Definition acyclicb (es : list (Z * Z)) : bool :=
  bool_decide (prune_n (length es) es = []).

(** The relation of an edge list, and what acyclic means for it. *)
Definition edge (es : list (Z * Z)) (x y : Z) : Prop := (x, y) ∈ es.

Definition acyclic (es : list (Z * Z)) : Prop := ∀ x, ¬ tc (edge es) x x.

Module Template.

(** The class [Template], with the fields [create_template] gives its
    constructor ([_bm] is the store the monad threads). *)
Record t : Type := {
  _id : Z;
  _name : string;
  body : Graph;
  optional_args : list string
}.

(** The namespace that marks parameter placeholders in a body. *)
Definition PARAM : string := "urn:___param___#".

Definition param_name (n : Node) : option string :=
  match n with
  | URIRef s =>
      if String.prefix PARAM s
      then Some (String.substring (String.length PARAM)
                                  (String.length s - String.length PARAM) s)
      else None
  | _ => None
  end.

(** The parameters of a body: the placeholders that occur in it. *)
Definition parameters (body : Graph) : gset string :=
  list_to_set (omap param_name (elements (all_nodes body))).

(** Modelled from the spec: [Template.load(id)] ([template.py] is not
    among the sources): the template record with that id, with its body
    from the graph store. *)
Definition load (id : Z) : M t :=
  let* db_template := table_connection.get_db_template_by_id id in
  let* s := get_store in
  ret {| _id := tmpl_id db_template;
         _name := tmpl_name db_template;
         body := default ∅ (graphs s !! tmpl_body_id db_template);
         optional_args := tmpl_optional_args db_template |}.

(** Modelled from the spec: [add_dependency(other, bindings)] of §4.1
    ([template.py] is not among the sources): it "validates [other] exists
    and that every key in [bindings] names a declared parameter of [other]
    (required or optional); rejects if adding the edge would close a cycle,
    leaving the dependency list unchanged on rejection". The edge is then
    recorded as a row of the dependency table, under that table's
    constraints. *)
Definition add_dependency (self other : t) (bindings : Migration.Bindings) : M unit :=
  let* _ := table_connection.get_db_template_by_id (_id other) in
  if negb (forallb (fun kv : string * string =>
                      bool_decide (kv.1 ∈ parameters (body other) ∪
                                          list_to_set (optional_args other)))
                   bindings)
  then raise (ValueError "bindings name a parameter the dependency does not declare")
  else
    let* s := get_store in
    if closes_cycle (dep_edges (deps_association_table s)) (_id self) (_id other)
    then raise CyclicDependencyError
    else
      let* d := lift (Migration.insert (deps_association_table s)
                        {| Migration.id := None;
                           Migration.dependant_id := Some (_id self);
                           Migration.dependee_id := Some (_id other);
                           Migration.args := Some bindings |}) in
      put_store (table_connection.set_deps_association_table d s).

End Template.

Module ShapeCollection.

Record t : Type := {
  id : option Z;
  graph : Graph
}.

(** Modelled from the spec: a shape collection is loaded by id with its
    graph ([shape_collection.py] is not among the sources). *)
Definition load (id_ : Z) : M t :=
  fun s =>
    match shape_collections s !! id_ with
    | Some g => (Ok {| id := Some id_; graph := g |}, s, [])
    | None => (Raise NoResultFound, s, [])
    end.

(** Modelled from the spec: [add_graph] merges a graph into the stored
    collection; [shape_col.graph.parse(file)] does the same with the parsed
    file. *)
Definition add_graph (self : t) (g : Graph) : M unit :=
  fun s =>
    match id self with
    | Some i =>
        (Ok tt,
         table_connection.set_shape_collections
           (<[i := default ∅ (shape_collections s !! i) ∪ g]> (shape_collections s)) s,
         [])
    | None => (Raise (AttributeError "shape collection without id"), s, [])
    end.

End ShapeCollection.

(** ** [library.py] *)

Module Library.

Import Migration(Bindings).

(** The class [Library]; the field [_bm] is the store the monad threads. *)
Record t : Type := {
  _id : Z;
  _name : string
}.

(** A dependency entry as the loaders receive it (a YAML mapping, or a
    dictionary from the shape extractor): ["template"] is always read with
    [d["template"]]; the other keys may be absent. *)
Record DepDict : Type := {
  d_template : string;
  d_args : option Bindings;
  d_library : option string;
  d_template_id : option Z
}.

(** A template entry of a YAML file after [compile_template_spec]: the
    keys the loader reads, and the names of any other keys present. *)
Record TemplSpec : Type := {
  spec_body : option Graph;
  spec_dependencies : option (list DepDict);
  spec_optional : option (list string);
  spec_other : list string
}.

(** A library directory: the path it is given by, its base name, its
    [*.yml] files (path and entries, in order) and the graphs of its
    ontology files. *)
Record Directory : Type := {
  dir_path : string;
  dir_name : string;
  dir_exists : bool;
  dir_yml : list (string * list (string * TemplSpec));
  dir_ontology_files : list Graph
}.

Definition create (name : option string) : M t :=
  let* db_library := table_connection.create_db_library name in
  ret {| _id := lib_id db_library; _name := lib_name db_library |}.

Definition _load_from_db (id : Z) : M t :=
  let* db_library := table_connection.get_db_library_by_id id in
  ret {| _id := lib_id db_library; _name := lib_name db_library |}.

(** The branch [name is not None] of [load]. *)
Definition load_by_name (name : string) : M t :=
  let* db_library := table_connection.get_db_library_by_name name in
  ret {| _id := lib_id db_library; _name := lib_name db_library |}.

(** The property [id] and its setter. *)
Definition id (self : t) : option Z := Some (_id self).

Definition id_setter (self : t) (new_id : Z) : M t :=
  raise (AttributeError "Cannot modify db id").

(** The property [name] and its setter; the result is the instance after
    the assignment. *)
Definition name (self : t) : string := _name self.

Definition name_setter (self : t) (new_name : string) : M t :=
  let* _ := table_connection.update_db_library_name (_id self) new_name in
  ret {| _id := _id self; _name := new_name |}.

Definition create_template (self : t) (name : string) (body : option Graph)
    (optional_args : option (list string)) : M Template.t :=
  let* db_template := table_connection.create_db_template name (_id self) in
  let* body := graph_connection.create_graph (tmpl_body_id db_template)
                 (default ∅ body) in
  let optional_args := default [] optional_args in
  let* _ := table_connection.update_db_template_optional_args
              (tmpl_id db_template) optional_args in
  ret {| Template._id := tmpl_id db_template;
         Template._name := tmpl_name db_template;
         Template.body := body;
         Template.optional_args := optional_args |}.

Definition get_templates (self : t) : M (list Template.t) :=
  let* db_library := table_connection.get_db_library_by_id (_id self) in
  let* s := get_store in
  mapM (fun t => Template.load (tmpl_id t)) (table_connection.templates db_library s).

Definition get_shape_collection (self : t) : M ShapeCollection.t :=
  let* db_library := table_connection.get_db_library_by_id (_id self) in
  ShapeCollection.load (lib_shape_collection_id db_library).

Definition get_template_by_name (self : t) (name : string) : M Template.t :=
  let* dbt := table_connection.get_db_template_by_name name in
  if decide (tmpl_library_id dbt ≠ _id self)
  then raise (ValueError ("Template " +:+ name +:+ " not in library " +:+ _name self))
  else Template.load (tmpl_id dbt).

(** *** The class [_template_dependency] *)

Record _template_dependency : Type := {
  template_name : string;
  bindings : Bindings;
  library : string;
  template_id : option Z
}.

(** [repr] of a Python string: single quotes, unless the text has a
    single quote and no double quote; the backslash, the quote in use and
    the control characters are escaped. Characters beyond ASCII are taken
    as printable. *)
Definition single_quote : Ascii.ascii := Ascii.ascii_of_nat 39.

Definition double_quote : Ascii.ascii := Ascii.ascii_of_nat 34.

Definition backslash : Ascii.ascii := Ascii.ascii_of_nat 92.

Fixpoint string_mem (c : Ascii.ascii) (s : string) : bool :=
  match s with
  | EmptyString => false
  | String c' s' => bool_decide (c = c') || string_mem c s'
  end.

Definition repr_quote (s : string) : Ascii.ascii :=
  if string_mem single_quote s && negb (string_mem double_quote s)
  then double_quote else single_quote.

Definition hex_digit (n : nat) : Ascii.ascii :=
  Ascii.ascii_of_nat (if decide (n < 10)%nat then 48 + n else 87 + n).

Definition repr_char (quote c : Ascii.ascii) : string :=
  let n := Ascii.nat_of_ascii c in
  if decide (c = backslash) then "\\"
  else if decide (c = quote) then String backslash (String quote EmptyString)
  else if decide (n = 9)%nat then "\t"
  else if decide (n = 10)%nat then "\n"
  else if decide (n = 13)%nat then "\r"
  else if decide (n < 32 ∨ n = 127)%nat
       then String backslash
              (String (Ascii.ascii_of_nat 120)
                 (String (hex_digit (n / 16)) (String (hex_digit (n mod 16)) EmptyString)))
  else String c EmptyString.

Fixpoint repr_chars (quote : Ascii.ascii) (s : string) : string :=
  match s with
  | EmptyString => EmptyString
  | String c s' => repr_char quote c +:+ repr_chars quote s'
  end.

Definition repr_str (s : string) : string :=
  let quote := repr_quote s in
  String quote (repr_chars quote s +:+ String quote EmptyString).

Definition repr_bindings (b : Bindings) : string :=
  "{" +:+ String.concat ", "
            ((fun kv : string * string => repr_str kv.1 +:+ ": " +:+ repr_str kv.2) <$> b)
      +:+ "}".

Definition repr (self : _template_dependency) : string :=
  "dep<name=" +:+ template_name self +:+ " bindings=" +:+ repr_bindings (bindings self)
  +:+ " library=" +:+ library self +:+ " id="
  +:+ match template_id self with
      | Some i => pretty i
      | None => "None"
      end +:+ ">".

Definition from_dict (d : DepDict) (dependent_library_name : string) : _template_dependency :=
  {| template_name := d_template d;
     bindings := default [] (d_args d);
     library := default dependent_library_name (d_library d);
     template_id := d_template_id d |}.

Definition to_template (self : _template_dependency) (id_lookup : gmap string Z) : M Template.t :=
  match template_id self with
  | Some i => Template.load i
  | None =>
      match id_lookup !! template_name self with
      | Some i => Template.load i
      | None =>
          let* library := load_by_name (library self) in
          get_template_by_name library (template_name self)
      end
  end.

(** *** The loaders *)

(** [Graph.value(predicate=p, object=o, any=...)] of rdflib, for the case
    used here (the subject is sought): no value gives the default [None];
    with [any=False] a second value raises [UniquenessError]. *)
Definition Graph_value (g : Graph) (predicate object : Node) (any : bool) : Result (option Node) :=
  match elements (subjects g predicate object) with
  | [] => Ok None
  | v :: rest =>
      if any then Ok (Some v)
      else match rest with
           | [] => Ok (Some v)
           | _ :: _ => Raise UniquenessError
           end
  end.

Section Loaders.

(** The collaborators outside this file: pyshacl's in-place expansion of
    the ontology graph, the shape-to-template extractor and the
    template-spec compiler. *)
Variable pyshacl_validate : Graph → Graph.
Variable get_template_parts_from_shape : Node → Graph → Result (Graph * list DepDict).
Variable compile_template_spec : TemplSpec → Result TemplSpec.

(** The order in which a [for] loop visits a Python set. The language
    fixes none: it is some enumeration of the set's elements, taken here
    as given. *)
Variable iteration_order : gset Node → list Node.

(** Pass 1 of the ontology loader, one candidate. *)
Definition ontology_create (lib : t) (ontology : Graph)
    (acc : gmap string Z * gmap Z (list DepDict)) (candidate : Node)
    : M (gmap string Z * gmap Z (list DepDict)) :=
  let* _ := assert (isinstance_URIRef candidate) in
  let* parts := lift (get_template_parts_from_shape candidate ontology) in
  let* templ := create_template lib (str candidate) (Some parts.1) None in
  ret (<[str candidate := Template._id templ]> acc.1,
       <[Template._id templ := parts.2]> acc.2).

(** Pass 2 of the ontology loader, one dependency of one template. *)
Definition ontology_attach (template_id_lookup : gmap string Z)
    (template : Template.t) (dep : DepDict) : M unit :=
  match template_id_lookup !! d_template dep with
  | Some i =>
      let* dependee := Template.load i in
      let* args := match d_args dep with
                   | Some a => ret a
                   | None => raise (KeyError "args")
                   end in
      Template.add_dependency template dependee args
  | None => logging_warn ("Warning: could not find dependee " +:+ d_template dep)
  end.

(** The candidates: the nodes that are instances of both [owl:Class] and
    [sh:NodeShape], as a set. *)
Definition candidates (ontology : Graph) : gset Node :=
  let class_candidates := subjects ontology RDF.type OWL_Class in
  let shape_candidates := subjects ontology RDF.type SH_NodeShape in
  class_candidates ∩ shape_candidates.

(** The first loop of the ontology loader, over the set of candidates. *)
Definition ontology_pass1 (lib : t) (ontology : Graph)
    : M (gmap string Z * gmap Z (list DepDict)) :=
  foldM (iteration_order (candidates ontology)) (∅, ∅) (ontology_create lib ontology).

(** Its second loop. *)
Definition ontology_pass2 (lib : t) (template_id_lookup : gmap string Z)
    (dependency_cache : gmap Z (list DepDict)) : M unit :=
  let* templates := get_templates lib in
  forM_ templates (fun template =>
    match dependency_cache !! Template._id template with
    | None => ret tt
    | Some deps => forM_ deps (ontology_attach template_id_lookup template)
    end).

Definition _load_from_ontology_graph (ontology : Graph) : M t :=
  let ontology := pyshacl_validate ontology in
  let* ontology_name := lift (Graph_value ontology RDF.type OWL_Ontology false) in
  let* lib := create (str <$> ontology_name) in
  let* tables := ontology_pass1 lib ontology in
  let template_id_lookup := tables.1 in
  let dependency_cache := tables.2 in
  let* _ := ontology_pass2 lib template_id_lookup dependency_cache in
  let* sc := get_shape_collection lib in
  let* shape_col_id := match ShapeCollection.id sc with
                       | Some i => ret i
                       | None => raise AssertionError
                       end in
  let* shape_col := ShapeCollection.load shape_col_id in
  let* _ := ShapeCollection.add_graph shape_col ontology in
  ret lib.

Definition _load_shapes_from_directory (self : t) (directory : Directory) : M unit :=
  let* sc := get_shape_collection self in
  let* shape_col_id := match ShapeCollection.id sc with
                       | Some i => ret i
                       | None => raise AssertionError
                       end in
  let* shape_col := ShapeCollection.load shape_col_id in
  forM_ (dir_ontology_files directory) (ShapeCollection.add_graph shape_col).

(** [lib.create_template] called with the entry unpacked: the keys left
    in the entry are passed as keyword arguments; one that
    [create_template] does not take is a [TypeError]. *)
Definition create_template_kwargs (lib : t) (templ_name : string) (templ_spec : TemplSpec)
    : M Template.t :=
  match spec_other templ_spec with
  | k :: _ =>
      raise (TypeError ("create_template() got an unexpected keyword argument "
                          +:+ repr_str k))
  | [] =>
      create_template lib templ_name (spec_body templ_spec)
        (Some (default [] (spec_optional templ_spec)))
  end.

(** Pass 1 of the directory loader, one entry of one file. *)
Definition directory_create (lib : t) (file : string)
    (acc : gmap string Z * gmap Z (list _template_dependency))
    (entry : string * TemplSpec)
    : M (gmap string Z * gmap Z (list _template_dependency)) :=
  let templ_name := entry.1 in
  let* templ_spec := lift (compile_template_spec entry.2) in
  let deps := (fun d => from_dict d (name lib))
                <$> default [] (spec_dependencies templ_spec) in
  let* templ :=
    try_except (create_template_kwargs lib templ_name templ_spec)
      (fun e =>
         let* _ := logging_error ("Error creating template " +:+ templ_name
                                    +:+ " from file " +:+ file +:+ ": "
                                    +:+ Exception_str e) in
         raise e) in
  ret (<[Template._name templ := Template._id templ]> acc.1,
       <[Template._id templ := deps]> acc.2).

(** Pass 2 of the directory loader, one dependency of one template. *)
Definition directory_attach (template_id_lookup : gmap string Z)
    (template : Template.t) (dep : _template_dependency) : M unit :=
  try_except
    (let* dependee := to_template dep template_id_lookup in
     Template.add_dependency template dependee (bindings dep))
    (fun e =>
       let* _ := logging_warn ("Warning: could not resolve dependency " +:+ repr dep) in
       raise e).

(** The first loop of the directory loader: every entry of every file. *)
Definition directory_pass1 (lib : t) (directory : Directory)
    : M (gmap string Z * gmap Z (list _template_dependency)) :=
  foldM (dir_yml directory) (∅, ∅) (fun acc file =>
    foldM file.2 acc (directory_create lib file.1)).

(** Its second loop. *)
Definition directory_pass2 (lib : t) (template_id_lookup : gmap string Z)
    (dependency_cache : gmap Z (list _template_dependency)) : M unit :=
  let* templates := get_templates lib in
  forM_ templates (fun template =>
    match dependency_cache !! Template._id template with
    | None => ret tt
    | Some deps => forM_ deps (directory_attach template_id_lookup template)
    end).

Definition _load_from_directory (directory : Directory) : M t :=
  let* lib := create (Some (dir_name directory)) in
  let* tables := directory_pass1 lib directory in
  let template_id_lookup := tables.1 in
  let dependency_cache := tables.2 in
  let* _ := directory_pass2 lib template_id_lookup dependency_cache in
  let* _ := _load_shapes_from_directory lib directory in
  ret lib.

(** [Library.load]; a graph given by path is taken as already parsed. *)
Definition load (db_id : option Z) (ontology_graph : option Graph)
    (directory : option Directory) (name : option string) : M t :=
  match db_id, ontology_graph, directory, name with
  | Some i, _, _, _ => _load_from_db i
  | None, Some g, _, _ => _load_from_ontology_graph g
  | None, None, Some src, _ =>
      if negb (dir_exists src)
      then raise (OtherException ("Directory " +:+ dir_path src +:+ " does not exist"))
      else _load_from_directory src
  | None, None, None, Some n => load_by_name n
  | None, None, None, None => raise (OtherException "No library information provided")
  end.

End Loaders.

End Library.

(** ** [tests/unit/conftest.py]: [MockLibrary] *)

Module MockLibrary.

(** The body the mock gives a template it makes up: the one parameter
    [name], typed [brick:AUTOGENERATED]. *)
Definition template_body : Graph :=
  {[ (URIRef "urn:___param___#name", RDF.type,
      URIRef "https://brickschema.org/schema/Brick#AUTOGENERATED") ]}.

(** [create(name, overwrite=False)]: as [Library.create]; [overwrite] is
    not used. *)
Definition create (name : option string) (overwrite : bool) : M Library.t :=
  Library.create name.

(** [get_template_by_name]: the library's own lookup, and on any exception
    a new template of that name. *)
Definition get_template_by_name (self : Library.t) (name : string) : M Template.t :=
  try_except (Library.get_template_by_name self name)
    (fun _ => Library.create_template self name (Some template_body) None).

End MockLibrary.

(** ** The session and what is persisted

    Modelled from the spec: the persistence store keeps what has been
    committed apart from the work of the current session (§4.2 speaks of a
    library's "not-yet-committed members", §5 of "already-committed
    state"; [to_template]'s own comments call the templates of a load
    "uncommitted" and "to-be-committed"). The operations of the
    persistence collaborator act on the session, which sees its own work;
    what persists is what has been committed, and committing is the
    caller's step ([building_motif.session.commit()] in
    [tests/unit/api/test_model.py]): nothing in [library.py] commits. The
    code of the session is not among the sources. *)

Record Persistence : Type := {
  committed : Store;
  working : Store
}.

(** A computation of [library.py] runs in the session. *)
Definition in_session {A : Type} (m : M A) (p : Persistence)
    : Result A * Persistence * list LogRecord :=
  match m (working p) with
  | (r, s', l) => (r, {| committed := committed p; working := s' |}, l)
  end.

(** [session.commit()] and [session.rollback()]. *)
Definition commit (p : Persistence) : Persistence :=
  {| committed := working p; working := working p |}.

Definition rollback (p : Persistence) : Persistence :=
  {| committed := committed p; working := committed p |}.

(** ** The public interface of a [Library] instance as transitions

    Each operation a client can perform on an instance, and the instance
    and store it leaves behind; an operation that raises leaves the
    instance as it was. *)

Inductive Op : Type :=
| GetId
| SetId (new_id : Z)
| GetName
| SetName (new_name : string)
| CreateTemplate (name : string) (body : option Graph) (optional_args : option (list string))
| GetTemplates
| GetShapeCollection
| GetTemplateByName (name : string).

Definition after {A : Type} (self : Library.t) (m : M A) (s : Store) : Library.t * Store :=
  (self, (m s).1.2).

Definition assign (self : Library.t) (m : M Library.t) (s : Store) : Library.t * Store :=
  match m s with
  | (Ok self', s', _) => (self', s')
  | (Raise _, s', _) => (self, s')
  end.

Definition run_op (self : Library.t) (op : Op) (s : Store) : Library.t * Store :=
  match op with
  | GetId => (self, s)
  | SetId new_id => assign self (Library.id_setter self new_id) s
  | GetName => (self, s)
  | SetName new_name => assign self (Library.name_setter self new_name) s
  | CreateTemplate name body optional_args =>
      after self (Library.create_template self name body optional_args) s
  | GetTemplates => after self (Library.get_templates self) s
  | GetShapeCollection => after self (Library.get_shape_collection self) s
  | GetTemplateByName name => after self (Library.get_template_by_name self name) s
  end.

Fixpoint run_ops (self : Library.t) (ops : list Op) (s : Store) : Library.t * Store :=
  match ops with
  | [] => (self, s)
  | op :: ops' => let r := run_op self op s in run_ops r.1 ops' r.2
  end.

(** ** A store to start from *)

(** The dependency table as [upgrade] leaves an empty one. *)
Definition deps_table_after : Migration.DepsTable :=
  Eval vm_compute in
  match Migration.upgrade {| Migration.schema := Migration.table_before;
                             Migration.rows := [] |} with
  | Ok d => d
  | Raise _ => {| Migration.schema := Migration.table_before; Migration.rows := [] |}
  end.

Definition empty_store : Store :=
  {| library_table := [];
     template_table := [];
     deps_association_table := deps_table_after;
     shape_collections := ∅;
     graphs := ∅;
     next_id := 1 |}.

(** The columns of the uniqueness constraint the migration adds, and what
    it means for two rows to carry the same edge. *)
Definition triple_key : list string := ["dependant_id"; "dependee_id"; "args"].

Definition same_triple (r1 r2 : Migration.DepsAssociation) : Prop :=
  Migration.dependant_id r1 = Migration.dependant_id r2 ∧
  Migration.dependee_id r1 = Migration.dependee_id r2 ∧
  Migration.args r1 = Migration.args r2.

(** No two rows, at different positions, carry the same edge with the same
    bindings. *)
Definition unique_triples (rs : list Migration.DepsAssociation) : Prop :=
  ∀ i j r1 r2,
    rs !! i = Some r1 → rs !! j = Some r2 →
    same_triple r1 r2 → is_Some (Migration.args r1) → i = j.

(** A sequence of INSERTs, stopping at the first that fails. *)
Fixpoint insert_all (d : Migration.DepsTable) (rs : list Migration.DepsAssociation)
    : Result Migration.DepsTable :=
  match rs with
  | [] => Ok d
  | r :: rs' => Migration.and_then (Migration.insert d r) (fun d' => insert_all d' rs')
  end.

(** The rows are in order when the key of the constraint holds on them
    and no row has a NULL template id. *)
Definition rows_ok (rs : list Migration.DepsAssociation) : Prop :=
  Migration.key_holds triple_key rs = true ∧
  Forall (fun r => is_Some (Migration.dependant_id r) ∧
                   is_Some (Migration.dependee_id r)) rs.

(** What the dependency table must look like for the guarantee of the
    migration to hold. *)
Definition table_ok (d : Migration.DepsTable) : Prop :=
  {| Migration.con_name := "deps_association_unique_constraint";
     Migration.con_type := Migration.unique;
     Migration.con_columns := triple_key |}
    ∈ Migration.tbl_constraints (Migration.schema d) ∧
  "dependant_id" ∈ Migration.not_null_columns (Migration.schema d) ∧
  "dependee_id" ∈ Migration.not_null_columns (Migration.schema d) ∧
  rows_ok (Migration.rows d).

(** An edge lies on a cycle when its target leads back to its source. *)
Definition on_cycle (es : list (Z * Z)) (e : Z * Z) : Prop :=
  e ∈ es ∧ rtc (edge es) e.2 e.1.

(** An instance mirrors the store when the record found under its id
    carries its name. *)
Definition mirrors (self : Library.t) (s : Store) : Prop :=
  ∃ dbl, List.find (fun l => bool_decide (lib_id l = Library._id self)) (library_table s)
           = Some dbl ∧
         lib_name dbl = Library._name self.

(** The next fresh identifier is not in use by a template. *)
Definition fresh_template_id (s : Store) : Prop :=
  Forall (fun t => tmpl_id t ≠ next_id s) (template_table s).

(** What a row says about its edge. *)
Definition triple (r : Migration.DepsAssociation)
    : option Z * option Z * option Migration.Bindings :=
  (Migration.dependant_id r, Migration.dependee_id r, Migration.args r).

(** The rows after [add_column] of the integer key [id]. *)
Definition with_ids (rs : list Migration.DepsAssociation) : list Migration.DepsAssociation :=
  imap (fun i r => {| Migration.id := Some (Z.of_nat (S i));
                      Migration.dependant_id := Migration.dependant_id r;
                      Migration.dependee_id := Migration.dependee_id r;
                      Migration.args := Migration.args r |}) rs.

(** No row has a NULL template id. *)
Definition ids_not_null (rs : list Migration.DepsAssociation) : Prop :=
  Forall (fun r => is_Some (Migration.dependant_id r) ∧
                   is_Some (Migration.dependee_id r)) rs.

(** No row has a NULL binding map. *)
Definition args_not_null (rs : list Migration.DepsAssociation) : Prop :=
  Forall (fun r => is_Some (Migration.args r)) rs.

(** The outcome is a value, not an exception. *)
Definition is_Some_result {A : Type} (r : Result A) : Prop :=
  match r with
  | Ok _ => True
  | Raise _ => False
  end.

(** The next fresh identifier is not in use by a library. *)
Definition fresh_library_id (s : Store) : Prop :=
  Forall (fun l => lib_id l ≠ next_id s) (library_table s).

(** ** Scenarios used below *)

Definition store_of {A : Type} (x : Result A * Store * list LogRecord) : Store := x.1.2.

Definition result_of {A : Type} (x : Result A * Store * list LogRecord) : Result A := x.1.1.

Definition log_of {A : Type} (x : Result A * Store * list LogRecord) : list LogRecord := x.2.

(** Library ["L"] (id 1) holding template ["T"] (id 3), and an empty
    library ["M"] (id 5). *)
Definition store_L_T : Store :=
  store_of ((let* l := Library.create (Some "L") in
             let* _ := Library.create_template l "T" None None in
             Library.create (Some "M")) empty_store).

Definition lib_L : Library.t := {| Library._id := 1; Library._name := "L" |}.

Definition lib_M : Library.t := {| Library._id := 5; Library._name := "M" |}.

(** The same, with a template ["T"] (id 7) in ["M"] as well. *)
Definition store_two_T : Store :=
  store_of (Library.create_template lib_M "T" None None store_L_T).

(** A body with the one parameter [name]. *)
Definition body_name : Graph :=
  {[ (URIRef "urn:___param___#name", RDF.type, URIRef "urn:ex#Thing") ]}.

Definition template_A : Template.t :=
  {| Template._id := 3; Template._name := "A";
     Template.body := body_name; Template.optional_args := [] |}.

Definition template_B : Template.t :=
  {| Template._id := 5; Template._name := "B";
     Template.body := body_name; Template.optional_args := [] |}.

(** Library ["L"] with templates ["A"] (id 3) and ["B"] (id 5), and the
    dependency of ["B"] on ["A"]. *)
Definition store_B_on_A : Store :=
  store_of ((let* l := Library.create (Some "L") in
             let* a := Library.create_template l "A" (Some body_name) None in
             let* b := Library.create_template l "B" (Some body_name) None in
             Template.add_dependency b a [("name", "name")]) empty_store).

(** A computation preserves a relation between the store before and
    after it, whether it returns or raises. *)
Definition preserves {A : Type} (R : relation Store) (m : M A) : Prop :=
  ∀ s, R s (store_of (m s)).

(** The part [f] of the store is the same before and after. *)
Definition same_on {X : Type} (f : Store → X) : relation Store :=
  fun s s' => f s' = f s.

(** The templates a store holds, by name and owning library, in order of
    creation. *)
Definition template_names (s : Store) : list (string * Z) :=
  (fun t => (tmpl_name t, tmpl_library_id t)) <$> template_table s.

(** A loop body [step] creates, for the item [x], the templates [h x], in
    order: all of them when it returns, a proper prefix when it raises. *)
Definition creates {A S : Type} (h : A → list (string * Z)) (step : S → A → M S) : Prop :=
  ∀ acc x s,
    match step acc x s with
    | (Ok _, s', _) => template_names s' = template_names s ++ h x
    | (Raise _, s', _) =>
        ∃ k, (k < length (h x))%nat ∧
             template_names s' = template_names s ++ take k (h x)
    end.

(** The entries of a directory, file after file. *)
Definition entries (directory : Library.Directory) : list (string * Library.TemplSpec) :=
  concat (snd <$> Library.dir_yml directory).

(** The dependencies the ontology loader's second pass can resolve: those
    whose dependee is in the batch-local table. *)
Definition drop_unresolved (template_id_lookup : gmap string Z)
    (deps : list Library.DepDict) : list Library.DepDict :=
  filter (fun dep => is_Some (template_id_lookup !! Library.d_template dep)) deps.

(** An extractor that gives every shape a body with the parameter [name]
    and no dependencies. *)
Definition parts_plain (shape : Node) (ontology : Graph)
    : Result (Graph * list Library.DepDict) :=
  Ok ({[ (URIRef "urn:___param___#name", RDF.type, shape) ]}, []).

(** A dependency on template ["T"] of library ["L"]. *)
Definition dep_T_in_L : Library.DepDict :=
  {| Library.d_template := "T"; Library.d_args := Some [];
     Library.d_library := Some "L"; Library.d_template_id := None |}.

(** An extractor whose shapes all depend on ["T"] of library ["L"]. *)
Definition parts_dep_T (shape : Node) (ontology : Graph)
    : Result (Graph * list Library.DepDict) :=
  Ok ({[ (URIRef "urn:___param___#name", RDF.type, shape) ]}, [dep_T_in_L]).



(** One ontology, two candidates ([urn:a], [urn:b]) and a node that is a
    class only. *)
Definition g_two_shapes : Graph :=
  {[ (URIRef "urn:ont", RDF.type, OWL_Ontology);
     (URIRef "urn:a", RDF.type, OWL_Class);
     (URIRef "urn:a", RDF.type, SH_NodeShape);
     (URIRef "urn:b", RDF.type, OWL_Class);
     (URIRef "urn:b", RDF.type, SH_NodeShape);
     (URIRef "urn:c", RDF.type, OWL_Class) ]}.

(** One ontology and one candidate. *)
Definition g_one_shape : Graph :=
  {[ (URIRef "urn:ont", RDF.type, OWL_Ontology);
     (URIRef "urn:a", RDF.type, OWL_Class);
     (URIRef "urn:a", RDF.type, SH_NodeShape) ]}.

(** A candidate, and no ontology declaration. *)
Definition g_no_ontology : Graph :=
  {[ (URIRef "urn:a", RDF.type, OWL_Class);
     (URIRef "urn:a", RDF.type, SH_NodeShape) ]}.

(** Two ontology declarations. *)
Definition g_two_ontologies : Graph :=
  {[ (URIRef "urn:ont1", RDF.type, OWL_Ontology);
     (URIRef "urn:ont2", RDF.type, OWL_Ontology);
     (URIRef "urn:a", RDF.type, OWL_Class);
     (URIRef "urn:a", RDF.type, SH_NodeShape) ]}.

Definition spec_plain : Library.TemplSpec :=
  {| Library.spec_body := Some body_name; Library.spec_dependencies := None;
     Library.spec_optional := None; Library.spec_other := [] |}.

(** A directory whose template ["A"] depends on a template ["missing"]
    that exists nowhere. *)
Definition dir_missing_dep : Library.Directory :=
  {| Library.dir_path := "libraries/lib"; Library.dir_name := "lib";
     Library.dir_exists := true;
     Library.dir_yml :=
       [("libraries/lib/a.yml",
         [("A", {| Library.spec_body := Some body_name;
                   Library.spec_dependencies :=
                     Some [{| Library.d_template := "missing";
                              Library.d_args := Some [("name", "name")];
                              Library.d_library := None;
                              Library.d_template_id := None |}];
                   Library.spec_optional := None;
                   Library.spec_other := [] |});
          ("B", spec_plain)])];
     Library.dir_ontology_files := [] |}.


(** A store with nothing in it, committed or not. *)
Definition nothing_stored : Persistence :=
  {| committed := empty_store; working := empty_store |}.

(** A directory of two plain templates and one ontology file. *)
Definition dir_plain : Library.Directory :=
  {| Library.dir_path := "libraries/lib"; Library.dir_name := "lib";
     Library.dir_exists := true;
     Library.dir_yml := [("libraries/lib/a.yml", [("A", spec_plain)]);
                         ("libraries/lib/b.yml", [("B", spec_plain)])];
     Library.dir_ontology_files := [g_one_shape] |}.

(** A dependency row of template 5 on template 3, not yet numbered. *)
Definition row_5_on_3 : Migration.DepsAssociation :=
  {| Migration.id := None; Migration.dependant_id := Some 5;
     Migration.dependee_id := Some 3;
     Migration.args := Some [("name", "name")] |}.

(** That row after [upgrade], and the database after the [downgrade]
    that follows. *)
Definition table_up_5_on_3 : Migration.DepsTable :=
  Eval vm_compute in
  match Migration.upgrade {| Migration.schema := Migration.table_before;
                             Migration.rows := [row_5_on_3] |} with
  | Ok d => d
  | Raise _ => {| Migration.schema := Migration.table_before; Migration.rows := [] |}
  end.

Definition db_down_5_on_3 : MigrationDown.Database :=
  Eval vm_compute in
  match MigrationDown.downgrade {| MigrationDown.template_indexes := [];
                                   MigrationDown.deps := table_up_5_on_3 |} with
  | Ok db => db
  | Raise _ => {| MigrationDown.template_indexes := [];
                  MigrationDown.deps := table_up_5_on_3 |}
  end.

(** A computation is quiet when it neither changes the store nor logs. *)
Definition quiet {A : Type} (m : M A) : Prop :=
  ∀ s, store_of (m s) = s ∧ log_of (m s) = [].

(** * Properties *)

(** ** Reasoning about computations *)

Lemma bind_Ok_inv {A B : Type} (m : M A) (k : A → M B) s b s' l :
  bind m k s = (Ok b, s', l) →
  ∃ a s1 l1 l2, m s = (Ok a, s1, l1) ∧ k a s1 = (Ok b, s', l2) ∧ l = l1 ++ l2.
Proof.
  unfold bind. destruct (m s) as [[[a|e] s1] l1]; [|discriminate].
  destruct (k a s1) as [[r s2] l2] eqn:Hk. intros [= -> -> <-].
  by exists a, s1, l1, l2.
Qed.

Lemma bind_Raise {A B : Type} (m : M A) (k : A → M B) s e s' l :
  m s = (Raise e, s', l) → bind m k s = (Raise e, s', l).
Proof. unfold bind. by intros ->. Qed.

Lemma bind_Ok {A B : Type} (m : M A) (k : A → M B) s a s1 l1 :
  m s = (Ok a, s1, l1) →
  bind m k s = ((k a s1).1.1, (k a s1).1.2, l1 ++ (k a s1).2).
Proof. unfold bind. intros ->. by destruct (k a s1) as [[??]?]. Qed.

Lemma run_Ok {A : Type} (x : Result A * Store * list LogRecord) (a : A) :
  result_of x = Ok a → x = (Ok a, store_of x, log_of x).
Proof.
  destruct x as [[r s] l]. unfold result_of, store_of, log_of. simpl.
  by intros ->.
Qed.

Lemma run_Raise {A : Type} (x : Result A * Store * list LogRecord) (e : Exception) :
  result_of x = Raise e → x = (Raise e, store_of x, log_of x).
Proof.
  destruct x as [[r s] l]. unfold result_of, store_of, log_of. simpl.
  by intros ->.
Qed.

(** ** The id of a library is read-only *)

Lemma run_op_keeps_id (self : Library.t) (op : Op) (s : Store) :
  Library._id (run_op self op s).1 = Library._id self.
Proof.
  destruct op; simpl; try reflexivity.
  unfold assign, Library.name_setter, bind.
  destruct (table_connection.update_db_library_name _ _ s) as [[[[]|e] s1] l1];
    reflexivity.
Qed.

Lemma run_ops_keeps_id (ops : list Op) :
  ∀ (self : Library.t) (s : Store),
    Library._id (run_ops self ops s).1 = Library._id self.
Proof.
  induction ops as [|op ops IH]; intros self s; simpl; [reflexivity|].
  rewrite IH. apply run_op_keeps_id.
Qed.

(** C10. Assigning to the [id] property of any library raises
    [AttributeError] and changes neither the instance nor the store; and
    whatever sequence of public operations is applied to an instance, its
    [id] stays the one it was created with. *)
Theorem C10_id_cannot_be_modified (self : Library.t) (new_id : Z) (s : Store) :
  Library.id_setter self new_id s
    = (Raise (AttributeError "Cannot modify db id"), s, []) ∧
  run_op self (SetId new_id) s = (self, s) ∧
  ∀ ops : list Op, Library.id (run_ops self ops s).1 = Library.id self.
Proof.
  split; [reflexivity|]. split; [reflexivity|].
  intros ops. unfold Library.id. f_equal. apply run_ops_keeps_id.
Qed.

(** ** Lookup of a template by name *)

Lemma find_some_pred {A : Type} (f : A → bool) (l : list A) (x : A) :
  List.find f l = Some x → f x = true.
Proof. intros H. by apply List.find_some in H as [_ ?]. Qed.

Lemma Template_load_Ok (i : Z) (s : Store) (t : Template.t) s' l :
  Template.load i s = (Ok t, s', l) → Template._id t = i ∧ s' = s ∧ l = [].
Proof.
  unfold Template.load, bind, table_connection.get_db_template_by_id.
  destruct (List.find _ _) as [d|] eqn:Hf; simpl; [|discriminate].
  intros [= <- <- <-]. apply find_some_pred in Hf.
  apply bool_decide_eq_true in Hf. done.
Qed.

Lemma Template_load_store (i : Z) (s : Store) :
  (Template.load i s).1.2 = s ∧ (Template.load i s).2 = [].
Proof.
  unfold Template.load, bind, table_connection.get_db_template_by_id.
  by destruct (List.find _ _).
Qed.

Lemma get_db_template_by_name_store (name : string) (s : Store) :
  (table_connection.get_db_template_by_name name s).1.2 = s ∧
  (table_connection.get_db_template_by_name name s).2 = [].
Proof.
  unfold table_connection.get_db_template_by_name.
  by destruct (filter _ _) as [|? [|??]].
Qed.

Lemma get_db_template_by_name_Ok (name : string) (s : Store) dbt s' l :
  table_connection.get_db_template_by_name name s = (Ok dbt, s', l) →
  tmpl_name dbt = name ∧ dbt ∈ template_table s.
Proof.
  unfold table_connection.get_db_template_by_name.
  destruct (filter _ _) as [|d [|??]] eqn:Hf; try discriminate.
  intros [= <- _ _].
  assert (d ∈ filter (λ t, tmpl_name t = name) (template_table s)) as Hin
    by (rewrite Hf; set_solver).
  apply list_elem_of_filter in Hin. naive_solver.
Qed.

(** C9. [get_template_by_name] returns a template only for a record that
    the lookup by name retrieved and that belongs to this library; when the
    retrieved record belongs to another library it raises [ValueError]; and
    since the lookup is by name alone, this happens for a template of that
    name owned by a different library. *)
Theorem C9_get_template_by_name_checks_owner
    (self : Library.t) (name : string) (s : Store) :
  (∀ t s' l,
      Library.get_template_by_name self name s = (Ok t, s', l) →
      ∃ dbt, table_connection.get_db_template_by_name name s = (Ok dbt, s, []) ∧
             tmpl_name dbt = name ∧
             tmpl_library_id dbt = Library._id self ∧
             Template._id t = tmpl_id dbt) ∧
  (∀ dbt,
      table_connection.get_db_template_by_name name s = (Ok dbt, s, []) →
      tmpl_library_id dbt ≠ Library._id self →
      Library.get_template_by_name self name s
        = (Raise (ValueError ("Template " +:+ name +:+ " not in library "
                                +:+ Library._name self)), s, [])) ∧
  (∃ dbt,
      table_connection.get_db_template_by_name "T" store_L_T = (Ok dbt, store_L_T, []) ∧
      tmpl_library_id dbt = Library._id lib_L ∧
      result_of (Library.get_template_by_name lib_M "T" store_L_T)
        = Raise (ValueError "Template T not in library M")).
Proof.
  split; [|split].
  - intros t s' l H. unfold Library.get_template_by_name in H.
    apply bind_Ok_inv in H as (dbt & s1 & l1 & l2 & Hq & Hk & ->).
    pose proof (get_db_template_by_name_store name s) as [Hs Hl].
    rewrite Hq in Hs, Hl. simpl in Hs, Hl. subst s1 l1.
    destruct (decide (tmpl_library_id dbt ≠ Library._id self)) as [Hne|Heq];
      [discriminate|].
    apply dec_stable in Heq. apply Template_load_Ok in Hk as (Hid & _ & _).
    exists dbt. split; [done|].
    apply get_db_template_by_name_Ok in Hq as [Hn _]. done.
  - intros dbt Hq Hne. unfold Library.get_template_by_name.
    rewrite (bind_Ok _ _ _ _ _ _ Hq).
    destruct (decide _) as [?|Hc]; [reflexivity|]. by destruct Hc.
  - eexists. split; [vm_compute; reflexivity|]. split; vm_compute; reflexivity.
Qed.

Lemma C9_witness :
  table_connection.get_db_template_by_name "T" store_two_T
    = (Raise MultipleResultsFound, store_two_T, []) ∧
  Library.get_template_by_name lib_M "T" store_L_T
    = (Raise (ValueError ("Template " +:+ "T" +:+ " not in library "
                            +:+ Library._name lib_M)), store_L_T, []).
Proof.
  split; [vm_compute; reflexivity|].
  refine (proj1 (proj2 (C9_get_template_by_name_checks_owner lib_M "T" store_L_T))
            {| tmpl_id := 3; tmpl_name := "T"; tmpl_body_id := 4;
               tmpl_optional_args := []; tmpl_library_id := 1 |} _ _).
  - vm_compute. reflexivity.
  - simpl. lia.
Defined.

(** ** The uniqueness constraint on dependency rows *)

Section MigrationFacts.

Import Migration.

Lemma cell_dependant_id r : cell "dependant_id" r = VInt <$> dependant_id r.
Proof. reflexivity. Qed.

Lemma cell_dependee_id r : cell "dependee_id" r = VInt <$> dependee_id r.
Proof. reflexivity. Qed.

Lemma cell_args r : cell "args" r = VJson <$> args r.
Proof. reflexivity. Qed.

Lemma collide_triple_key (r1 r2 : DepsAssociation) :
  collide triple_key r1 r2 = true ↔
  is_Some (dependant_id r1) ∧ is_Some (dependee_id r1) ∧ is_Some (args r1) ∧
  same_triple r1 r2.
Proof.
  unfold collide, triple_key, same_triple. cbn [forallb].
  rewrite !cell_dependant_id, !cell_dependee_id, !cell_args.
  destruct (dependant_id r1) as [a1|], (dependant_id r2) as [a2|],
    (dependee_id r1) as [b1|], (dependee_id r2) as [b2|],
    (args r1) as [c1|], (args r2) as [c2|]; simpl;
    rewrite ?andb_true_iff, ?bool_decide_eq_true;
    (split;
     [ first [ discriminate
             | intros ([= ->] & [= ->] & [= ->] & _); eauto 10
             | intros (? & ?); discriminate
             | intros (? & ? & ?); discriminate ]
     | intros (Ha & Hb & Hc & Hd & He & Hf);
       first [ by destruct Ha | by destruct Hb | by destruct Hc
             | discriminate
             | injection Hd as ->; injection He as ->; injection Hf as ->; done ] ]).
Qed.

Lemma collide_sym (key : list string) (r1 r2 : DepsAssociation) :
  collide key r1 r2 = collide key r2 r1.
Proof.
  unfold collide. induction key as [|c key IH]; [done|].
  simpl. rewrite IH. f_equal.
  destruct (cell c r1), (cell c r2); try reflexivity.
  apply bool_decide_ext. split; congruence.
Qed.

Lemma key_holds_app (key : list string) (rs : list DepsAssociation) (r : DepsAssociation) :
  key_holds key rs = true →
  existsb (collide key r) rs = false →
  key_holds key (rs ++ [r]) = true.
Proof.
  induction rs as [|r0 rs IH]; simpl; [done|].
  rewrite !andb_true_iff, !negb_true_iff, orb_false_iff.
  intros [Hr0 Hrs] [Hc Hex]. split; [|by apply IH].
  rewrite existsb_app, Hr0. simpl. rewrite orb_false_r.
  by rewrite collide_sym.
Qed.

Lemma key_holds_lookup (key : list string) (rs : list DepsAssociation) :
  key_holds key rs = true →
  ∀ i j r1 r2, (i < j)%nat → rs !! i = Some r1 → rs !! j = Some r2 →
               collide key r1 r2 = false.
Proof.
  induction rs as [|r0 rs IH]; simpl; [by intros _ [|?] ? ? ? ? ?|].
  rewrite andb_true_iff, negb_true_iff. intros [Hr0 Hrs] i j r1 r2 Hij H1 H2.
  destruct j as [|j]; [lia|]. simpl in H2. destruct i as [|i]; simpl in H1.
  - injection H1 as ->.
    destruct (collide key r1 r2) eqn:Hc; [|done].
    assert (existsb (collide key r1) rs = true) as Hex; [|congruence].
    apply existsb_exists. exists r2. split; [|done].
    apply list_elem_of_In. by eapply list_elem_of_lookup_2.
  - eapply (IH Hrs i j); [lia|done..].
Qed.

Lemma rows_ok_unique (rs : list DepsAssociation) :
  rows_ok rs → unique_triples rs.
Proof.
  intros [Hk Hnn] i j r1 r2 H1 H2 Hsame Hargs.
  assert (∀ i j r1 r2, (i < j)%nat → rs !! i = Some r1 → rs !! j = Some r2 →
                       same_triple r1 r2 → is_Some (args r1) → False) as Hlt.
  { clear i j r1 r2 H1 H2 Hsame Hargs. intros i j r1 r2 Hij H1 H2 Hsame Hargs.
    pose proof (key_holds_lookup _ _ Hk i j r1 r2 Hij H1 H2) as Hc.
    assert (collide triple_key r1 r2 = true) as Ht; [|congruence].
    apply collide_triple_key.
    rewrite Forall_forall in Hnn.
    destruct (Hnn r1) as [? ?]; [by eapply list_elem_of_lookup_2|]. done. }
  destruct (decide (i = j)) as [|Hne]; [done|]. exfalso.
  destruct (decide (i < j)%nat).
  - by eapply (Hlt i j r1 r2).
  - eapply (Hlt j i r2 r1); [lia|done..| |].
    + destruct Hsame as (? & ? & ?). by repeat split.
    + destruct Hsame as (_ & _ & <-). done.
Qed.

Lemma reserialize_Ok (r r' : DepsAssociation) : reserialize r = Ok r' → r' = r.
Proof.
  destruct r as [i a b [kvs|]]; unfold reserialize; simpl; [|discriminate].
  intros [= <-]. do 2 f_equal. induction kvs as [|[k v] kvs IH]; [done|].
  rewrite fmap_cons. simpl. by rewrite IH.
Qed.

Lemma reserialize_all_Ok (rs rs' : list DepsAssociation) :
  reserialize_all rs = Ok rs' → rs' = rs.
Proof.
  revert rs'. induction rs as [|r rs IH]; intros rs'; simpl.
  - by intros [= <-].
  - unfold and_then. destruct (reserialize r) as [r'|] eqn:Hr; [|discriminate].
    destruct (reserialize_all rs) as [rs''|]; [|discriminate].
    intros [= <-]. apply reserialize_Ok in Hr as ->. by rewrite (IH rs'').
Qed.

(** The loop goes through exactly when no row's [args] is NULL, and
    otherwise ends in the [AttributeError] of the first such row. *)
Lemma reserialize_all_cases (rs : list DepsAssociation) :
  (Forall (fun r => is_Some (args r)) rs ∧ reserialize_all rs = Ok rs) ∨
  (¬ Forall (fun r => is_Some (args r)) rs ∧
   reserialize_all rs
     = Raise (AttributeError "'NoneType' object has no attribute 'copy'")).
Proof.
  induction rs as [|r rs IH]; simpl.
  - left. by split.
  - unfold and_then. destruct (reserialize r) as [r'|e] eqn:Hr.
    + pose proof (reserialize_Ok _ _ Hr) as ->.
      assert (is_Some (args r)) as Hsome.
      { unfold reserialize in Hr. destruct (args r); [by eexists|discriminate]. }
      destruct IH as [[Hall ->]|[Hnot ->]].
      * left. split; [by constructor|done].
      * right. split; [|done]. intros Hall. apply Hnot.
        by apply Forall_inv_tail in Hall.
    + right. unfold reserialize in Hr.
      destruct (args r) eqn:Ha; [discriminate|]. injection Hr as <-.
      split; [|done]. intros Hall. apply Forall_inv in Hall.
      rewrite Ha in Hall. by destruct Hall.
Qed.

Lemma not_null_alter (name n : string) (cols : list Column) :
  n ∈ col_name <$> filter (λ c, negb (col_nullable c) || col_primary_key c) cols →
  n ∈ col_name <$>
        filter (λ c, negb (col_nullable c) || col_primary_key c)
          ((λ c, if decide (col_name c = name)
                 then {| col_name := col_name c; col_type := col_type c;
                         col_nullable := false;
                         col_primary_key := col_primary_key c |}
                 else c) <$> cols).
Proof.
  rewrite !list_elem_of_fmap. intros (c & -> & Hc).
  apply list_elem_of_filter in Hc as [Hp Hin].
  exists (if decide (col_name c = name)
          then {| col_name := col_name c; col_type := col_type c;
                  col_nullable := false; col_primary_key := col_primary_key c |}
          else c).
  split.
  - by destruct (decide _).
  - apply list_elem_of_filter. split.
    + destruct (decide _); simpl; done.
    + apply list_elem_of_fmap. by exists c.
Qed.

Lemma not_null_altered (name : string) (cols : list Column) :
  name ∈ col_name <$> cols →
  name ∈ col_name <$>
        filter (λ c, negb (col_nullable c) || col_primary_key c)
          ((λ c, if decide (col_name c = name)
                 then {| col_name := col_name c; col_type := col_type c;
                         col_nullable := false;
                         col_primary_key := col_primary_key c |}
                 else c) <$> cols).
Proof.
  rewrite !list_elem_of_fmap. intros (c & -> & Hin).
  eexists {| col_name := col_name c; col_type := col_type c;
             col_nullable := false; col_primary_key := col_primary_key c |}.
  split; [done|]. apply list_elem_of_filter. split; [done|].
  apply list_elem_of_fmap. exists c. split; [|done].
  by rewrite decide_True.
Qed.

Lemma alter_column_not_null (name : string) (d d' : DepsTable) :
  alter_column name false d = Ok d' →
  rows d' = rows d ∧
  tbl_constraints (schema d') = tbl_constraints (schema d) ∧
  name ∈ not_null_columns (schema d') ∧
  (∀ n, n ∈ not_null_columns (schema d) → n ∈ not_null_columns (schema d')) ∧
  (∀ c, has_column c (schema d) = has_column c (schema d')) ∧
  Forall (fun r => is_Some (cell name r)) (rows d).
Proof.
  unfold alter_column.
  destruct (negb (has_column name (schema d))) eqn:Hcol; [discriminate|].
  destruct (negb false && existsb _ (rows d)) eqn:Hnull; [discriminate|].
  intros [= <-]. simpl. apply negb_false_iff in Hcol.
  unfold has_column in Hcol. apply bool_decide_eq_true in Hcol.
  repeat split.
  - unfold not_null_columns. simpl. by apply not_null_altered.
  - intros n. unfold not_null_columns. simpl. apply not_null_alter.
  - intros c. unfold has_column. simpl. apply bool_decide_ext.
    rewrite <- list_fmap_compose.
    assert (col_name <$> tbl_columns (schema d) =
            (col_name ∘ (λ c0, if decide (col_name c0 = name)
                               then {| col_name := col_name c0; col_type := col_type c0;
                                       col_nullable := false;
                                       col_primary_key := col_primary_key c0 |}
                               else c0)) <$> tbl_columns (schema d)) as <-; [|done].
    apply list_fmap_ext. intros ? c0 _. simpl. by destruct (decide _).
  - simpl in Hnull. apply Forall_forall. intros r Hr.
    destruct (cell name r) eqn:Hc; [done|].
    assert (existsb (λ r, bool_decide (cell name r = None)) (rows d) = true) as Hex;
      [|congruence].
    apply existsb_exists. exists r. split; [by apply list_elem_of_In|].
    by apply bool_decide_eq_true.
Qed.

Lemma Forall_cell_is_Some (rs : list DepsAssociation) :
  Forall (fun r => is_Some (cell "dependant_id" r)) rs →
  Forall (fun r => is_Some (cell "dependee_id" r)) rs →
  Forall (fun r => is_Some (dependant_id r) ∧ is_Some (dependee_id r)) rs.
Proof.
  rewrite !Forall_forall. intros H1 H2 r Hr.
  specialize (H1 r Hr). specialize (H2 r Hr).
  rewrite cell_dependant_id in H1. rewrite cell_dependee_id in H2.
  rewrite !fmap_is_Some in *. done.
Qed.

Lemma upgrade_table_ok (d d' : DepsTable) :
  upgrade d = Ok d' → table_ok d'.
Proof.
  unfold upgrade, and_then.
  destruct (drop_constraint _ _ d) as [d1|]; [|discriminate].
  destruct (add_column _ d1) as [d2|]; [|discriminate].
  destruct (alter_column "dependant_id" false d2) as [d3|] eqn:H3; [|discriminate].
  destruct (alter_column "dependee_id" false d3) as [d4|] eqn:H4; [|discriminate].
  destruct (create_unique_constraint _ _ d4) as [d5|] eqn:H5; [|discriminate].
  destruct (reserialize_all (rows d5)) as [rs5|] eqn:H6; [|discriminate].
  apply reserialize_all_Ok in H6 as ->.
  intros [= <-]. simpl.
  apply alter_column_not_null in H3 as (Hr3 & _ & Hn3 & _ & _ & Hf3).
  apply alter_column_not_null in H4 as (Hr4 & _ & Hn4 & Hm4 & _ & Hf4).
  unfold create_unique_constraint in H5.
  destruct (negb (forallb _ _)); [discriminate|].
  destruct (negb (key_holds _ (rows d4))) eqn:Hk; [discriminate|].
  injection H5 as <-. simpl. apply negb_false_iff in Hk.
  unfold table_ok; simpl. repeat split.
  - apply elem_of_app. right. apply list_elem_of_singleton. reflexivity.
  - unfold not_null_columns in *. simpl. by apply Hm4.
  - done.
  - done.
  - rewrite Hr4 in *. rewrite <- Hr3 in Hf3. by apply Forall_cell_is_Some.
Qed.

Lemma assign_id_triple (t : Table) (rs : list DepsAssociation) (r : DepsAssociation) :
  same_triple r (assign_id t rs r).
Proof. unfold assign_id. by destruct (bool_decide _). Qed.

Lemma null_violation_None (t : Table) (r : DepsAssociation) (c : string) :
  null_violation t r = None → c ∈ not_null_columns t → is_Some (cell c r).
Proof.
  unfold null_violation. intros Hf Hc.
  destruct (cell c r) eqn:Hcell; [done|].
  apply list_elem_of_In in Hc. apply (List.find_none _ _ Hf) in Hc.
  apply bool_decide_eq_false in Hc. done.
Qed.

Lemma violated_key_None (t : Table) (rs : list DepsAssociation) (r : DepsAssociation)
    (c : Constraint) :
  violated_key t rs r = None → c ∈ tbl_constraints t →
  existsb (collide (con_columns c) r) rs = false.
Proof.
  unfold violated_key. intros Hf Hc.
  destruct (List.find _ _) eqn:Hfind; [discriminate|].
  apply (List.find_none _ _ Hfind (con_name c, con_columns c)).
  apply list_elem_of_In. unfold keys. apply elem_of_app. left.
  apply list_elem_of_fmap. by exists c.
Qed.

Lemma insert_Ok (d d' : DepsTable) (r : DepsAssociation) :
  insert d r = Ok d' →
  schema d' = schema d ∧
  rows d' = rows d ++ [assign_id (schema d) (rows d) r] ∧
  null_violation (schema d) (assign_id (schema d) (rows d) r) = None ∧
  violated_key (schema d) (rows d) (assign_id (schema d) (rows d) r) = None.
Proof.
  unfold insert.
  destruct (null_violation _ _) eqn:Hn; [discriminate|].
  destruct (violated_key _ _ _) eqn:Hv; [discriminate|].
  by intros [= <-].
Qed.

Lemma insert_table_ok (d d' : DepsTable) (r : DepsAssociation) :
  table_ok d → insert d r = Ok d' → table_ok d'.
Proof.
  intros (Hc & Hn1 & Hn2 & Hk & Hnn) Hins.
  apply insert_Ok in Hins as (Hs & Hr & Hnull & Hviol).
  unfold table_ok, rows_ok. rewrite Hs, Hr. repeat split; try done.
  - apply key_holds_app; [done|].
    apply (violated_key_None _ _ _ _ Hviol Hc).
  - apply Forall_app. split; [done|]. apply Forall_singleton.
    pose proof (null_violation_None _ _ _ Hnull Hn1) as H1.
    pose proof (null_violation_None _ _ _ Hnull Hn2) as H2.
    rewrite cell_dependant_id in H1. rewrite cell_dependee_id in H2.
    rewrite !fmap_is_Some in *. done.
Qed.

Lemma insert_all_table_ok (rs : list DepsAssociation) :
  ∀ d d', table_ok d → insert_all d rs = Ok d' → table_ok d'.
Proof.
  induction rs as [|r rs IH]; intros d d' Hok; simpl.
  - by intros [= <-].
  - destruct (insert d r) as [d1|] eqn:Hi; simpl; [|discriminate].
    apply IH. by eapply insert_table_ok.
Qed.

Lemma insert_duplicate (d : DepsTable) (r0 r : DepsAssociation) :
  table_ok d → r0 ∈ rows d → same_triple r0 r → is_Some (args r) →
  ∃ c, insert d r = Raise (IntegrityError c).
Proof.
  intros (Hc & Hn1 & Hn2 & Hk & Hnn) Hin Hsame Hargs.
  destruct (insert d r) as [d'|e] eqn:Hins.
  - exfalso. apply insert_Ok in Hins as (_ & _ & _ & Hviol).
    pose proof (violated_key_None _ _ _ _ Hviol Hc) as Hex. simpl in Hex.
    assert (existsb (collide triple_key (assign_id (schema d) (rows d) r)) (rows d)
            = true) as Ht; [|congruence].
    apply existsb_exists. exists r0. split; [by apply list_elem_of_In|].
    rewrite collide_sym. apply collide_triple_key.
    rewrite Forall_forall in Hnn. destruct (Hnn r0 Hin) as [? ?].
    pose proof (assign_id_triple (schema d) (rows d) r) as (Ha & Hb & Hc').
    destruct Hsame as (Hs1 & Hs2 & Hs3).
    repeat split; try done; try congruence.
  - unfold insert in Hins.
    destruct (null_violation _ _); [injection Hins as <-; eauto|].
    destruct (violated_key _ _ _); [injection Hins as <-; eauto|discriminate].
Qed.

(** C8. Once [upgrade] has run, the dependency table carries a uniqueness
    constraint over [dependant_id], [dependee_id] and [args]; whatever rows
    are inserted afterwards, no two rows hold the same edge with the same
    bindings, and recording again an edge that is stored, with identical
    bindings, fails with an integrity error. *)
Theorem C8_dependency_rows_are_unique (d d' : DepsTable)
    (Hup : upgrade d = Ok d') :
  {| con_name := "deps_association_unique_constraint"; con_type := unique;
     con_columns := ["dependant_id"; "dependee_id"; "args"] |}
    ∈ tbl_constraints (schema d') ∧
  ∀ (rs : list DepsAssociation) (d'' : DepsTable),
    insert_all d' rs = Ok d'' →
    unique_triples (rows d'') ∧
    ∀ r0 r, r0 ∈ rows d'' → same_triple r0 r → is_Some (args r) →
            ∃ c, insert d'' r = Raise (IntegrityError c).
Proof.
  pose proof (upgrade_table_ok _ _ Hup) as Hok. split; [apply Hok|].
  intros rs d'' Hins.
  pose proof (insert_all_table_ok _ _ _ Hok Hins) as Hok'. split.
  - apply rows_ok_unique, Hok'.
  - intros r0 r. by apply insert_duplicate.
Qed.

End MigrationFacts.

(** The edge 3 → 5 with bindings [name ↦ name] is stored once; storing it
    again is refused. *)
Lemma C8_witness :
  ∃ c, Migration.insert
         {| Migration.schema := Migration.schema deps_table_after;
            Migration.rows :=
              [{| Migration.id := Some 1; Migration.dependant_id := Some 3;
                  Migration.dependee_id := Some 5;
                  Migration.args := Some [("name", "name")] |}] |}
         {| Migration.id := None; Migration.dependant_id := Some 3;
            Migration.dependee_id := Some 5;
            Migration.args := Some [("name", "name")] |}
       = Raise (IntegrityError c).
Proof.
  refine (proj2 (proj2 (C8_dependency_rows_are_unique
                   {| Migration.schema := Migration.table_before; Migration.rows := [] |}
                   deps_table_after _)
                 [{| Migration.id := None; Migration.dependant_id := Some 3;
                     Migration.dependee_id := Some 5;
                     Migration.args := Some [("name", "name")] |}]
                 _ _)
            {| Migration.id := Some 1; Migration.dependant_id := Some 3;
               Migration.dependee_id := Some 5;
               Migration.args := Some [("name", "name")] |} _ _ _ _).
  - vm_compute. reflexivity.
  - vm_compute. reflexivity.
  - apply list_elem_of_singleton. reflexivity.
  - repeat split.
  - simpl. eauto.
Defined.

(** ** Acyclicity of the dependency relation *)

Section Acyclicity.

Implicit Types es : list (Z * Z).

Lemma has_outgoing_true es (v : Z) :
  has_outgoing es v = true ↔ ∃ w, (v, w) ∈ es.
Proof.
  unfold has_outgoing. rewrite existsb_exists. split.
  - intros ([a b] & Hin & Hb). apply bool_decide_eq_true in Hb. simpl in Hb.
    subst a. exists b. by apply list_elem_of_In.
  - intros (w & Hin). exists (v, w). split; [by apply list_elem_of_In|].
    by apply bool_decide_eq_true.
Qed.

Lemma elem_of_prune es (e : Z * Z) :
  e ∈ prune es ↔ e ∈ es ∧ ∃ w, (e.2, w) ∈ es.
Proof.
  unfold prune. rewrite list_elem_of_filter, Is_true_true, has_outgoing_true.
  tauto.
Qed.

Lemma prune_n_subseteq (n : nat) : ∀ es e, e ∈ prune_n n es → e ∈ es.
Proof.
  induction n as [|n IH]; intros es e; simpl; [done|].
  intros He. apply IH in He. by apply elem_of_prune in He as [? _].
Qed.

Lemma on_cycle_successor es (e : Z * Z) :
  on_cycle es e → ∃ w, on_cycle es (e.2, w).
Proof.
  destruct e as [u v]. intros [Hin Hback]. simpl in *.
  apply rtc_inv in Hback as [->|(w & Hvw & Hwu)].
  - exists u. by split.
  - exists w. split; [done|]. simpl. eapply rtc_r; [done|]. done.
Qed.

Lemma prune_keeps_cycles es cur :
  (∀ e, on_cycle es e → e ∈ cur) → ∀ e, on_cycle es e → e ∈ prune cur.
Proof.
  intros Hcur e He. apply elem_of_prune. split; [by apply Hcur|].
  destruct (on_cycle_successor es e He) as (w & Hw). exists w. by apply Hcur.
Qed.

Lemma prune_n_keeps_cycles es (n : nat) :
  ∀ cur, (∀ e, on_cycle es e → e ∈ cur) → ∀ e, on_cycle es e → e ∈ prune_n n cur.
Proof.
  induction n as [|n IH]; intros cur Hcur; simpl; [done|].
  apply IH. by apply prune_keeps_cycles.
Qed.

Lemma cycle_has_edge es (x : Z) :
  tc (edge es) x x → ∃ e, on_cycle es e.
Proof.
  intros Hc. inversion Hc as [? ? Hxx|? y ? Hxy Hyx]; subst.
  - exists (x, x). by split.
  - exists (x, y). split; [done|]. simpl. by apply tc_rtc.
Qed.

(** Pruning is sound: what it accepts has no cycle. *)
Lemma acyclicb_sound es : acyclicb es = true → acyclic es.
Proof.
  unfold acyclicb. intros Hp x Hc. apply bool_decide_eq_true in Hp.
  destruct (cycle_has_edge es x Hc) as (e & He).
  pose proof (prune_n_keeps_cycles es (length es) es
                (fun e' He' => proj1 He') e He) as Hin.
  rewrite Hp in Hin. by apply elem_of_nil in Hin.
Qed.

Lemma acyclic_subseteq es es' :
  (∀ e, e ∈ es' → e ∈ es) → acyclic es → acyclic es'.
Proof.
  intros Hsub Hac x Hc. apply (Hac x).
  eapply (tc_congruence (fun z => z)); [|done].
  intros a b Hab. by apply Hsub.
Qed.

#[local] Instance red_edge_dec es (y : Z) : Decision (red (edge es) y).
Proof.
  refine (cast_if (decide (has_outgoing es y = true)));
    unfold red, edge; by rewrite <- has_outgoing_true.
Defined.

(** In an acyclic, non-empty edge list some edge ends in a node without
    outgoing edges. *)
Lemma acyclic_has_sink es (e0 : Z * Z) :
  acyclic es → e0 ∈ es → ∃ e, e ∈ es ∧ has_outgoing es e.2 = false.
Proof.
  intros Hac Hin.
  assert (sn (edge es) e0.2) as Hsn.
  { apply tc_finite_sn; [exact Hac|]. exists (snd <$> es). intros y Hy.
    assert (∀ a b, tc (edge es) a b → b ∈ snd <$> es) as Htgt.
    { clear. intros a b H. induction H as [a b Hab|a b c Hab _ IH]; [|done].
      apply list_elem_of_fmap. by exists (a, b). }
    by eapply Htgt. }
  apply sn_wn in Hsn as (y & Hpath & Hnf); [|apply _..].
  assert (has_outgoing es y = false) as Hsink.
  { destruct (has_outgoing es y) eqn:Ho; [|done].
    exfalso. apply Hnf. by apply has_outgoing_true. }
  apply rtc_inv_r in Hpath as [<-|(z & _ & Hzy)].
  - by exists e0.
  - by exists (z, y).
Qed.

Lemma prune_shrinks es :
  acyclic es → es ≠ [] → (length (prune es) < length es)%nat.
Proof.
  intros Hac Hne. destruct es as [|e0 es']; [done|].
  destruct (acyclic_has_sink (e0 :: es') e0 Hac) as (e & Hin & Hsink);
    [by left|].
  unfold prune. apply (length_filter_lt _ _ e Hin).
  rewrite Hsink. simpl. tauto.
Qed.

Lemma prune_n_empties (n : nat) :
  ∀ es, acyclic es → (length es ≤ n)%nat → prune_n n es = [].
Proof.
  induction n as [|n IH]; intros es Hac Hlen; simpl.
  - destruct es; [done|simpl in Hlen; lia].
  - destruct (decide (es = [])) as [->|Hne].
    + assert (prune [] = []) as -> by done. apply IH; [done|simpl; lia].
    + apply IH.
      * eapply acyclic_subseteq; [|exact Hac].
        intros e He. by apply elem_of_prune in He as [? _].
      * pose proof (prune_shrinks es Hac Hne). lia.
Qed.

(** Pruning decides acyclicity. *)
Lemma acyclicb_spec es : acyclicb es = true ↔ acyclic es.
Proof.
  split; [apply acyclicb_sound|].
  intros Hac. unfold acyclicb. apply bool_decide_eq_true.
  by apply prune_n_empties.
Qed.

Lemma elem_of_reach_step es (R : gset Z) (y : Z) :
  y ∈ reach_step es R ↔ y ∈ R ∨ ∃ x, x ∈ R ∧ (x, y) ∈ es.
Proof.
  unfold reach_step. rewrite elem_of_union, elem_of_list_to_set, list_elem_of_fmap.
  split; (intros [?|H]; [by left|right]).
  - destruct H as ([a b] & -> & Hin). apply list_elem_of_filter in Hin as [Ha Hin].
    by exists a.
  - destruct H as (x & Hx & Hin). exists (x, y). split; [done|].
    by apply list_elem_of_filter.
Qed.

Lemma reach_iter_sound es (x : Z) (n : nat) :
  ∀ R : gset Z, (∀ y, y ∈ R → rtc (edge es) x y) →
                ∀ y, y ∈ Nat.iter n (reach_step es) R → rtc (edge es) x y.
Proof.
  induction n as [|n IH]; intros R HR y; simpl; [apply HR|].
  rewrite elem_of_reach_step. intros [Hy|(z & Hz & Hzy)].
  - by apply (IH R).
  - eapply rtc_r; [by apply (IH R)|done].
Qed.

Lemma reach_iter_fixed es (R : gset Z) (n : nat) :
  reach_step es R = R → Nat.iter n (reach_step es) R = R.
Proof. intros HR. induction n as [|n IH]; simpl; [done|]. by rewrite IH. Qed.

(** Within a set [B] that holds every target, the collection can grow at
    most [size B] times: after that many rounds it is closed under the
    edges. *)
Lemma reach_iter_closed es (B : gset Z) (n : nat) :
  list_to_set (snd <$> es) ⊆ B →
  ∀ R : gset Z, R ⊆ B → (size B ≤ size R + n)%nat →
    reach_step es (Nat.iter n (reach_step es) R) = Nat.iter n (reach_step es) R.
Proof.
  intros HB.
  assert (∀ R : gset Z, R ⊆ B → reach_step es R ⊆ B) as Hstep.
  { intros R HR y. rewrite elem_of_reach_step. intros [Hy|(x & _ & Hxy)].
    - by apply HR.
    - apply HB. apply elem_of_list_to_set, list_elem_of_fmap. by exists (x, y). }
  assert (∀ R : gset Z, R ⊆ reach_step es R) as Hinc.
  { intros R y Hy. apply elem_of_reach_step. by left. }
  induction n as [|n IH]; intros R HR Hsize.
  - simpl. symmetry. apply set_subseteq_size_eq; [apply Hinc|].
    pose proof (subseteq_size _ _ (Hstep R HR)). lia.
  - rewrite Nat.iter_succ_r.
    destruct (decide (reach_step es R = R)) as [Heq|Hne].
    + rewrite Heq. by rewrite (reach_iter_fixed es R n Heq).
    + apply IH; [by apply Hstep|].
      assert (R ⊂ reach_step es R) as Hsub.
      { split; [apply Hinc|]. intros Hback. apply Hne.
        apply set_eq. intros y. split; [apply Hback|apply Hinc]. }
      apply subset_size in Hsub. lia.
Qed.

Lemma size_list_to_set_le (l : list Z) : (size (list_to_set l : gset Z) ≤ length l)%nat.
Proof.
  induction l as [|a l IH].
  - rewrite list_to_set_nil, size_empty. simpl. lia.
  - rewrite list_to_set_cons, size_union_alt, size_singleton. cbn [length].
    assert (list_to_set l ∖ {[a]} ⊆ (list_to_set l : gset Z)) as Hsub
      by (intros y Hy; by apply elem_of_difference in Hy as [? _]).
    apply subseteq_size in Hsub. lia.
Qed.

(** The test decides reachability along the edges. *)
Lemma closes_cycle_spec es (a b : Z) :
  closes_cycle es a b = true ↔ rtc (edge es) b a.
Proof.
  unfold closes_cycle, reachable. rewrite bool_decide_eq_true. split.
  - apply reach_iter_sound. intros y Hy. apply elem_of_singleton in Hy as ->. done.
  - intros Hpath.
    set (S := Nat.iter (length es) (reach_step es) ({[ b ]} : gset Z)).
    assert (reach_step es S = S) as Hclosed.
    { apply (reach_iter_closed es ({[ b ]} ∪ list_to_set (snd <$> es)));
        [apply union_subseteq_r|apply union_subseteq_l|].
      rewrite size_union_alt, !size_singleton.
      pose proof (size_list_to_set_le (snd <$> es)) as Hle.
      rewrite length_fmap in Hle.
      assert (list_to_set (snd <$> es) ∖ {[b]} ⊆ (list_to_set (snd <$> es) : gset Z))
        as Hsub by (intros y Hy; by apply elem_of_difference in Hy as [? _]).
      apply subseteq_size in Hsub. lia. }
    assert (b ∈ S) as Hb.
    { unfold S. clear. induction (length es) as [|n IH]; simpl;
        [by apply elem_of_singleton|].
      apply elem_of_reach_step. by left. }
    assert (∀ y, rtc (edge es) b y → y ∈ S) as Hall; [|by apply Hall].
    apply rtc_ind_r; [done|]. intros y z _ Hyz Hy.
    rewrite <- Hclosed. apply elem_of_reach_step. right. by exists y.
Qed.

(** An edge that closes no cycle keeps an acyclic relation acyclic, and
    one that closes a cycle does not. *)
Lemma acyclic_cons es (a b : Z) :
  acyclic es → ¬ rtc (edge es) b a → acyclic ((a, b) :: es).
Proof.
  intros Hac Hno.
  assert (∀ x y, tc (edge ((a, b) :: es)) x y →
                 tc (edge es) x y ∨ (rtc (edge es) x a ∧ rtc (edge es) b y)) as Hsplit.
  { intros x y H. induction H as [x y Hxy|x z y Hxz _ IH].
    - apply elem_of_cons in Hxy as [[= -> ->]|Hxy]; [by right|].
      left. by apply tc_once.
    - apply elem_of_cons in Hxz as [[= -> ->]|Hxz].
      + destruct IH as [IH|[IH _]].
        * right. split; [done|by apply tc_rtc].
        * by destruct Hno.
      + destruct IH as [IH|[IH1 IH2]].
        * left. by eapply tc_l.
        * right. split; [|done]. by eapply rtc_l. }
  intros x Hc. destruct (Hsplit x x Hc) as [H|[H1 H2]].
  - by apply (Hac x).
  - apply Hno. by etrans.
Qed.

Lemma cyclic_cons es (a b : Z) :
  rtc (edge es) b a → ¬ acyclic ((a, b) :: es).
Proof.
  intros Hpath Hac. apply (Hac a).
  eapply tc_rtc_r; [apply tc_once; by left|].
  eapply (rtc_congruence (fun z => z)); [|exact Hpath].
  intros x y Hxy. by right.
Qed.

End Acyclicity.

Lemma dep_edges_insert (d d' : Migration.DepsTable) (a b : Z) bindings :
  Migration.insert d {| Migration.id := None; Migration.dependant_id := Some a;
                        Migration.dependee_id := Some b;
                        Migration.args := Some bindings |} = Ok d' →
  dep_edges d' = dep_edges d ++ [(a, b)].
Proof.
  intros Hins. apply insert_Ok in Hins as (_ & Hr & _ & _).
  unfold dep_edges. rewrite Hr, omap_app. f_equal.
  unfold Migration.assign_id. by destruct (bool_decide _).
Qed.

(** The two ways [add_dependency] can end: it raises and the store is as
    before, or the edge passed the cycle check and was inserted. *)
Lemma add_dependency_cases (self other : Template.t)
    (bindings : Migration.Bindings) (s : Store) :
  (∃ e, Template.add_dependency self other bindings s = (Raise e, s, [])) ∨
  (∃ d, closes_cycle (dep_edges (deps_association_table s))
          (Template._id self) (Template._id other) = false ∧
        Migration.insert (deps_association_table s)
          {| Migration.id := None;
             Migration.dependant_id := Some (Template._id self);
             Migration.dependee_id := Some (Template._id other);
             Migration.args := Some bindings |} = Ok d ∧
        Template.add_dependency self other bindings s
          = (Ok tt, table_connection.set_deps_association_table d s, [])).
Proof.
  destruct (Template.add_dependency self other bindings s) as [[r s'] l] eqn:Hadd.
  revert Hadd.
  unfold Template.add_dependency, bind, table_connection.get_db_template_by_id,
    get_store, lift, put_store, raise.
  destruct (List.find _ (template_table s)) as [dbt|];
    [|intros [= <- <- <-]; left; eauto].
  destruct (negb (forallb _ bindings)); [intros [= <- <- <-]; left; eauto|].
  simpl.
  destruct (closes_cycle _ _ _) eqn:Hcyc; [intros [= <- <- <-]; left; eauto|].
  destruct (Migration.insert _ _) as [d|e] eqn:Hins; simpl;
    intros [= <- <- <-]; [|left; eauto].
  right. exists d. done.
Qed.

(** C7. Starting from an acyclic dependency relation, [add_dependency]
    leaves it acyclic; an edge that would close a cycle is rejected at the
    moment it is added; and a rejected edge leaves the store, hence the
    dependant's dependency list, as it was. *)
Theorem C7_dependencies_stay_acyclic (self other : Template.t)
    (bindings : Migration.Bindings) (s : Store)
    (Hacyclic : acyclic (dep_edges (deps_association_table s))) :
  let r := Template.add_dependency self other bindings s in
  acyclic (dep_edges (deps_association_table (store_of r))) ∧
  (¬ acyclic ((Template._id self, Template._id other)
                :: dep_edges (deps_association_table s)) →
   ∃ e, result_of r = Raise e ∧ store_of r = s) ∧
  (∀ e, result_of r = Raise e → store_of r = s).
Proof.
  simpl.
  destruct (add_dependency_cases self other bindings s)
    as [(e & ->)|(d & Hcheck & Hins & ->)]; unfold store_of, result_of; simpl.
  - split; [done|]. split; [eauto|done].
  - assert (acyclic ((Template._id self, Template._id other)
                       :: dep_edges (deps_association_table s))) as Hnew.
    { apply acyclic_cons; [done|]. intros Hpath.
      apply closes_cycle_spec in Hpath. congruence. }
    split; [|split].
    + rewrite (dep_edges_insert _ _ _ _ _ Hins).
      eapply acyclic_subseteq; [|exact Hnew].
      intros e He. apply elem_of_app in He as [He|He%list_elem_of_singleton].
      * by right.
      * subst e. by left.
    + intros Hcyc. by destruct Hcyc.
    + intros e. discriminate.
Qed.

(** ["B"] depends on ["A"]; making ["A"] depend on ["B"] would close the
    cycle and is refused. *)
Lemma C7_witness :
  ∃ e, result_of (Template.add_dependency template_A template_B
                    [("name", "name")] store_B_on_A) = Raise e ∧
       store_of (Template.add_dependency template_A template_B
                   [("name", "name")] store_B_on_A) = store_B_on_A.
Proof.
  refine (proj1 (proj2 (C7_dependencies_stay_acyclic template_A template_B
                          [("name", "name")] store_B_on_A _)) _).
  - apply acyclicb_spec. vm_compute. reflexivity.
  - intros Hac. apply acyclicb_spec in Hac. vm_compute in Hac. discriminate.
Defined.

(** ** What a computation leaves untouched *)

#[local] Instance same_on_preorder {X : Type} (f : Store → X) : PreOrder (same_on f).
Proof.
  split; unfold same_on.
  - by intros s.
  - intros s1 s2 s3 H12 H23. by rewrite H23.
Qed.

Section Frame.

Context (R : relation Store) `{!PreOrder R}.

Lemma preserves_ret {A : Type} (a : A) : preserves R (ret a).
Proof. intros s. reflexivity. Qed.

Lemma preserves_raise {A : Type} (e : Exception) : preserves R (raise (A := A) e).
Proof. intros s. reflexivity. Qed.

Lemma preserves_lift {A : Type} (r : Result A) : preserves R (lift r).
Proof. intros s. reflexivity. Qed.

Lemma preserves_get_store : preserves R get_store.
Proof. intros s. reflexivity. Qed.

Lemma preserves_logging_warn (msg : string) : preserves R (logging_warn msg).
Proof. intros s. reflexivity. Qed.

Lemma preserves_logging_error (msg : string) : preserves R (logging_error msg).
Proof. intros s. reflexivity. Qed.

Lemma preserves_assert (b : bool) : preserves R (assert b).
Proof. destruct b; intros s; reflexivity. Qed.

Lemma preserves_bind {A B : Type} (m : M A) (k : A → M B) :
  preserves R m → (∀ a, preserves R (k a)) → preserves R (bind m k).
Proof.
  intros Hm Hk s. specialize (Hm s). unfold store_of, bind in *.
  destruct (m s) as [[[a|e] s1] l1]; simpl in *; [|done].
  specialize (Hk a s1). unfold store_of in Hk.
  destruct (k a s1) as [[r s2] l2]; simpl in *. by etrans.
Qed.

Lemma preserves_try_except {A : Type} (m : M A) (h : Exception → M A) :
  preserves R m → (∀ e, preserves R (h e)) → preserves R (try_except m h).
Proof.
  intros Hm Hh s. specialize (Hm s). unfold store_of, try_except in *.
  destruct (m s) as [[[a|e] s1] l1]; simpl in *; [done|].
  specialize (Hh e s1). unfold store_of in Hh.
  destruct (h e s1) as [[r s2] l2]; simpl in *. by etrans.
Qed.

Lemma preserves_forM_ {A : Type} (xs : list A) (body : A → M unit) :
  (∀ x, preserves R (body x)) → preserves R (forM_ xs body).
Proof.
  intros Hbody. induction xs as [|x xs IH]; simpl.
  - apply preserves_ret.
  - apply preserves_bind; [apply Hbody|]. intros _. apply IH.
Qed.

Lemma preserves_mapM {A B : Type} (f : A → M B) (xs : list A) :
  (∀ x, preserves R (f x)) → preserves R (mapM f xs).
Proof.
  intros Hf. induction xs as [|x xs IH]; simpl.
  - apply preserves_ret.
  - apply preserves_bind; [apply Hf|]. intros y.
    apply preserves_bind; [apply IH|]. intros ys. apply preserves_ret.
Qed.

Lemma preserves_foldM {A S : Type} (xs : list A) (body : S → A → M S) :
  (∀ acc x, preserves R (body acc x)) → ∀ acc, preserves R (foldM xs acc body).
Proof.
  intros Hbody. induction xs as [|x xs IH]; intros acc; simpl.
  - apply preserves_ret.
  - apply preserves_bind; [apply Hbody|]. intros acc'. apply IH.
Qed.

(** A computation that never changes the store preserves everything. *)
Lemma preserves_pure {A : Type} (m : M A) :
  (∀ s, store_of (m s) = s) → preserves R m.
Proof. intros H s. rewrite H. reflexivity. Qed.

End Frame.

Lemma get_db_library_by_id_store (i : Z) (s : Store) :
  store_of (table_connection.get_db_library_by_id i s) = s.
Proof.
  unfold table_connection.get_db_library_by_id, store_of.
  by destruct (List.find _ _).
Qed.

Lemma get_db_library_by_name_store (n : string) (s : Store) :
  store_of (table_connection.get_db_library_by_name n s) = s.
Proof.
  unfold table_connection.get_db_library_by_name, store_of.
  by destruct (List.find _ _).
Qed.

Lemma ShapeCollection_load_store (i : Z) (s : Store) :
  store_of (ShapeCollection.load i s) = s.
Proof. unfold ShapeCollection.load, store_of. by destruct (_ !! _). Qed.

Section FrameOps.

Context (R : relation Store) `{!PreOrder R}.

Lemma preserves_Template_load (i : Z) : preserves R (Template.load i).
Proof. apply preserves_pure; [done|]. intros s. apply Template_load_store. Qed.

Lemma preserves_get_db_library_by_id (i : Z) :
  preserves R (table_connection.get_db_library_by_id i).
Proof. apply preserves_pure; [done|]. apply get_db_library_by_id_store. Qed.

Lemma preserves_get_db_library_by_name (n : string) :
  preserves R (table_connection.get_db_library_by_name n).
Proof. apply preserves_pure; [done|]. apply get_db_library_by_name_store. Qed.

Lemma preserves_get_db_template_by_name (n : string) :
  preserves R (table_connection.get_db_template_by_name n).
Proof. apply preserves_pure; [done|]. intros s. apply get_db_template_by_name_store. Qed.

Lemma preserves_ShapeCollection_load (i : Z) : preserves R (ShapeCollection.load i).
Proof. apply preserves_pure; [done|]. apply ShapeCollection_load_store. Qed.

Lemma preserves_get_templates (self : Library.t) :
  preserves R (Library.get_templates self).
Proof.
  unfold Library.get_templates.
  apply preserves_bind; [done|apply preserves_get_db_library_by_id|]. intros l.
  apply preserves_bind; [done|by apply preserves_get_store|]. intros s'.
  apply preserves_mapM; [done|]. intros t. apply preserves_Template_load.
Qed.

Lemma preserves_get_shape_collection (self : Library.t) :
  preserves R (Library.get_shape_collection self).
Proof.
  unfold Library.get_shape_collection.
  apply preserves_bind; [done|apply preserves_get_db_library_by_id|]. intros l.
  apply preserves_ShapeCollection_load.
Qed.

Lemma preserves_load_by_name (n : string) : preserves R (Library.load_by_name n).
Proof.
  unfold Library.load_by_name.
  apply preserves_bind; [done|apply preserves_get_db_library_by_name|]. intros l.
  by apply preserves_ret.
Qed.

Lemma preserves_get_template_by_name (self : Library.t) (n : string) :
  preserves R (Library.get_template_by_name self n).
Proof.
  unfold Library.get_template_by_name.
  apply preserves_bind; [done|apply preserves_get_db_template_by_name|]. intros dbt.
  destruct (decide _); [by apply preserves_raise|apply preserves_Template_load].
Qed.

Lemma preserves_to_template (dep : Library._template_dependency)
    (id_lookup : gmap string Z) :
  preserves R (Library.to_template dep id_lookup).
Proof.
  unfold Library.to_template.
  destruct (Library.template_id dep); [apply preserves_Template_load|].
  destruct (id_lookup !! _); [apply preserves_Template_load|].
  apply preserves_bind; [done|apply preserves_load_by_name|]. intros l.
  apply preserves_get_template_by_name.
Qed.

End FrameOps.

(** ** Creation of templates *)

Lemma find_app_last {A : Type} (f : A → bool) (l : list A) (x : A) :
  f x = true → is_Some (List.find f (l ++ [x])).
Proof.
  intros Hx. destruct (List.find f (l ++ [x])) eqn:Hf; [done|].
  assert (f x = false) as Hn; [|congruence].
  apply (List.find_none _ _ Hf x). apply in_or_app. right. by left.
Qed.

Lemma template_names_update (i : Z) (args : list string) (tbl : list DBTemplate) :
  (fun t => (tmpl_name t, tmpl_library_id t)) <$>
    ((fun t => if decide (tmpl_id t = i)
               then {| tmpl_id := tmpl_id t; tmpl_name := tmpl_name t;
                       tmpl_body_id := tmpl_body_id t;
                       tmpl_optional_args := args;
                       tmpl_library_id := tmpl_library_id t |}
               else t) <$> tbl)
  = (fun t => (tmpl_name t, tmpl_library_id t)) <$> tbl.
Proof.
  rewrite <- list_fmap_compose. apply list_fmap_ext.
  intros ? t _. simpl. by destruct (decide _).
Qed.

(** [create_template] either raises, leaving the store as it was, or adds
    one template of the given name to this library and touches neither the
    dependency table nor the libraries. *)
Lemma create_template_cases (self : Library.t) (name : string)
    (body : option Graph) (optional_args : option (list string)) (s : Store) :
  (∃ e, Library.create_template self name body optional_args s = (Raise e, s, [])) ∨
  (∃ t s', Library.create_template self name body optional_args s = (Ok t, s', []) ∧
           Template._name t = name ∧
           template_names s' = template_names s ++ [(name, Library._id self)] ∧
           deps_association_table s' = deps_association_table s ∧
           library_table s' = library_table s).
Proof.
  destruct (Library.create_template self name body optional_args s)
    as [[r s'] l] eqn:Hc.
  revert Hc.
  unfold Library.create_template, bind, table_connection.create_db_template,
    graph_connection.create_graph,
    table_connection.update_db_template_optional_args, ret.
  destruct (existsb _ (template_table s)); [intros [= <- <- <-]; left; eauto|].
  simpl.
  match goal with
  | |- context [List.find ?f (?l ++ [?x])] =>
      destruct (find_app_last f l x) as [t Hfind];
        [by apply bool_decide_eq_true|rewrite Hfind]
  end.
  simpl. intros [= <- <- <-]. right. do 2 eexists. split; [reflexivity|].
  split; [done|]. split; [|done].
  unfold template_names. simpl. rewrite template_names_update.
  by rewrite fmap_app.
Qed.

Lemma preserves_create_template {X : Type} (f : Store → X)
    (self : Library.t) (name : string) (body : option Graph)
    (optional_args : option (list string)) :
  (∀ s s', deps_association_table s' = deps_association_table s →
           library_table s' = library_table s → f s' = f s) →
  preserves (same_on f) (Library.create_template self name body optional_args).
Proof.
  intros Hf s. unfold same_on.
  destruct (create_template_cases self name body optional_args s)
    as [(e & ->)|(t & s' & -> & _ & _ & Hd & Hl)]; unfold store_of; simpl.
  - done.
  - by apply Hf.
Qed.

Lemma create_cases (name : option string) (s : Store) :
  (∃ e, Library.create name s = (Raise e, s, [])) ∨
  (∃ n lib s', name = Some n ∧
               Library.create name s = (Ok lib, s', []) ∧
               Library._name lib = n ∧
               Library._id lib = next_id s ∧
               template_table s' = template_table s ∧
               deps_association_table s' = deps_association_table s ∧
               library_table s' =
                 library_table s ++
                 [{| lib_id := next_id s; lib_name := n;
                     lib_shape_collection_id := next_id s + 1 |}]).
Proof.
  unfold Library.create, bind, table_connection.create_db_library, ret.
  destruct name as [n|]; [|left; eauto].
  destruct (bool_decide _); [left; eauto|].
  right. simpl. by eexists n, _, _.
Qed.

Section Creates.

Context {A S : Type}.

Lemma foldM_creates (h : A → list (string * Z)) (step : S → A → M S) :
  creates h step →
  creates (fun xs : list A => concat (h <$> xs))
          (fun acc xs => foldM xs acc step).
Proof.
  intros Hstep acc xs. revert acc.
  induction xs as [|x xs IH]; intros acc s; simpl.
  - by rewrite app_nil_r.
  - specialize (Hstep acc x s). unfold bind.
    destruct (step acc x s) as [[[acc'|e] s1] l1].
    + specialize (IH acc' s1).
      destruct (foldM xs acc' step s1) as [[[acc''|e] s2] l2].
      * by rewrite IH, Hstep, app_assoc.
      * destruct IH as (k & Hk & ->). exists (length (h x) + k)%nat.
        unfold fmap in *.
        split; [rewrite length_app; lia|].
        by rewrite take_app_add, Hstep, app_assoc.
    + destruct Hstep as (k & Hk & ->). exists k.
      split; [rewrite length_app; lia|].
      by rewrite take_app_le by lia.
Qed.

End Creates.

(** ** What the second pass and the shape collection leave untouched *)

Section FrameAttach.

Context {X : Type} (f : Store → X).
Hypothesis f_deps : ∀ d s, f (table_connection.set_deps_association_table d s) = f s.
Hypothesis f_shapes : ∀ v s, f (table_connection.set_shape_collections v s) = f s.

(** One [let*]: the bound computation is settled by [lem]. *)
Ltac bound_by lem :=
  apply (preserves_bind (same_on f)); [apply (lem (same_on f) _)|].

Ltac either lem1 lem2 :=
  first [apply (lem1 (same_on f) _)|apply (lem2 (same_on f) _)].

Lemma preserves_add_dependency (self other : Template.t) (bindings : Migration.Bindings) :
  preserves (same_on f) (Template.add_dependency self other bindings).
Proof.
  intros s. unfold same_on.
  destruct (add_dependency_cases self other bindings s)
    as [(e & ->)|(d & _ & _ & ->)]; unfold store_of; simpl; [done|].
  apply f_deps.
Qed.

Lemma preserves_add_graph (self : ShapeCollection.t) (g : Graph) :
  preserves (same_on f) (ShapeCollection.add_graph self g).
Proof.
  intros s. unfold same_on, ShapeCollection.add_graph, store_of.
  destruct (ShapeCollection.id self); simpl; [apply f_shapes|done].
Qed.

Lemma preserves_ontology_attach (lookup : gmap string Z) (template : Template.t)
    (dep : Library.DepDict) :
  preserves (same_on f) (Library.ontology_attach lookup template dep).
Proof.
  unfold Library.ontology_attach.
  destruct (lookup !! _); [|apply (preserves_logging_warn (same_on f))].
  bound_by preserves_Template_load. intros dependee.
  apply (preserves_bind (same_on f)).
  - destruct (Library.d_args dep); either preserves_ret preserves_raise.
  - intros args. apply preserves_add_dependency.
Qed.

Lemma preserves_ontology_pass2 (lib : Library.t) (lookup : gmap string Z)
    (cache : gmap Z (list Library.DepDict)) :
  preserves (same_on f) (Library.ontology_pass2 lib lookup cache).
Proof.
  unfold Library.ontology_pass2.
  bound_by preserves_get_templates. intros ts.
  apply (preserves_forM_ (same_on f)). intros t.
  destruct (cache !! _); [|apply (preserves_ret (same_on f))].
  apply (preserves_forM_ (same_on f)). intros dep. apply preserves_ontology_attach.
Qed.

Lemma preserves_directory_attach (lookup : gmap string Z) (template : Template.t)
    (dep : Library._template_dependency) :
  preserves (same_on f) (Library.directory_attach lookup template dep).
Proof.
  unfold Library.directory_attach.
  apply (preserves_try_except (same_on f)).
  - bound_by preserves_to_template. intros dependee.
    apply preserves_add_dependency.
  - intros e. bound_by preserves_logging_warn.
    intros _. apply (preserves_raise (same_on f)).
Qed.

Lemma preserves_directory_pass2 (lib : Library.t) (lookup : gmap string Z)
    (cache : gmap Z (list Library._template_dependency)) :
  preserves (same_on f) (Library.directory_pass2 lib lookup cache).
Proof.
  unfold Library.directory_pass2.
  bound_by preserves_get_templates. intros ts.
  apply (preserves_forM_ (same_on f)). intros t.
  destruct (cache !! _); [|apply (preserves_ret (same_on f))].
  apply (preserves_forM_ (same_on f)). intros dep. apply preserves_directory_attach.
Qed.

(** The tail of both loaders: the graph goes into the library's shape
    collection. *)
Lemma preserves_store_shapes (lib : Library.t) (gs : list Graph) :
  preserves (same_on f)
    (let* sc := Library.get_shape_collection lib in
     let* shape_col_id := match ShapeCollection.id sc with
                          | Some i => ret i
                          | None => raise AssertionError
                          end in
     let* shape_col := ShapeCollection.load shape_col_id in
     forM_ gs (ShapeCollection.add_graph shape_col)).
Proof.
  bound_by preserves_get_shape_collection. intros sc.
  apply (preserves_bind (same_on f)).
  - destruct (ShapeCollection.id sc); either preserves_ret preserves_raise.
  - intros i. bound_by preserves_ShapeCollection_load.
    intros shape_col. apply (preserves_forM_ (same_on f)). intros g.
    apply preserves_add_graph.
Qed.

End FrameAttach.

Lemma preserves_run {A : Type} (R : relation Store) (m : M A) s r s' l :
  preserves R m → m s = (r, s', l) → R s s'.
Proof. intros Hm Hr. specialize (Hm s). by rewrite Hr in Hm. Qed.

Lemma concat_singletons {A B : Type} (h : A → B) (xs : list A) :
  concat ((fun x => [h x]) <$> xs) = h <$> xs.
Proof. induction xs as [|x xs IH]; [done|]. rewrite !fmap_cons. simpl. by f_equal. Qed.

(** ** The ontology loader *)

Section Ontology.

Variable pyshacl_validate : Graph → Graph.
Variable get_template_parts_from_shape :
  Node → Graph → Result (Graph * list Library.DepDict).
Variable iteration_order : gset Node → list Node.

(** Whatever the order of the loop, it visits every element of the set
    once. *)
Hypothesis iteration_order_elements : ∀ X : gset Node, iteration_order X ≡ₚ elements X.

Local Abbreviation load_ontology :=
  (Library._load_from_ontology_graph pyshacl_validate get_template_parts_from_shape
     iteration_order).

Lemma ontology_create_creates (lib : Library.t) (ontology : Graph) :
  creates (fun c => [(str c, Library._id lib)])
          (Library.ontology_create get_template_parts_from_shape lib ontology).
Proof.
  intros acc c s. unfold Library.ontology_create, bind, assert, lift.
  destruct (isinstance_URIRef c); simpl;
    [|exists 0%nat; split; [lia|by rewrite app_nil_r]].
  destruct (get_template_parts_from_shape c ontology) as [parts|e];
    [|exists 0%nat; split; [simpl; lia|by rewrite app_nil_r]].
  destruct (create_template_cases lib (str c) (Some parts.1) None s)
    as [(e & ->)|(t & s' & -> & _ & Hn & _ & _)]; simpl.
  - exists 0%nat. split; [lia|by rewrite app_nil_r].
  - done.
Qed.

Lemma ontology_create_URIRef (lib : Library.t) (ontology : Graph) acc c s acc' s' l :
  Library.ontology_create get_template_parts_from_shape lib ontology acc c s
    = (Ok acc', s', l) →
  isinstance_URIRef c = true.
Proof.
  unfold Library.ontology_create, bind at 1, assert.
  destruct (isinstance_URIRef c); [done|discriminate].
Qed.

Lemma ontology_pass1_URIRef (lib : Library.t) (ontology : Graph) (cands : list Node) :
  ∀ acc s acc' s' l,
    foldM cands acc (Library.ontology_create get_template_parts_from_shape lib ontology) s
      = (Ok acc', s', l) →
    Forall (fun c => isinstance_URIRef c = true) cands.
Proof.
  induction cands as [|c cands IH]; intros acc s acc' s' l; simpl; [done|].
  intros H. apply bind_Ok_inv in H as (a & s1 & l1 & l2 & Hc & Hrest & _).
  constructor; [by eapply ontology_create_URIRef|by eapply IH].
Qed.

Lemma elem_of_candidates (g : Graph) (n : Node) :
  n ∈ Library.candidates g ↔
  (n, RDF.type, OWL_Class) ∈ g ∧ (n, RDF.type, SH_NodeShape) ∈ g.
Proof.
  unfold Library.candidates, subjects.
  rewrite elem_of_intersection, !elem_of_map. split.
  - intros [(t1 & Ht1 & Hin1) (t2 & Ht2 & Hin2)].
    apply elem_of_filter in Hin1 as [[Hp1 Ho1] Hin1].
    apply elem_of_filter in Hin2 as [[Hp2 Ho2] Hin2].
    destruct t1 as [[a p] o], t2 as [[b q] o']. simpl in *. subst. done.
  - intros [Hc Hs]. split.
    + exists (n, RDF.type, OWL_Class). split; [done|].
      apply elem_of_filter. done.
    + exists (n, RDF.type, SH_NodeShape). split; [done|].
      apply elem_of_filter. done.
Qed.

Lemma str_inj_URIRef (x y : Node) :
  isinstance_URIRef x = true → isinstance_URIRef y = true → str x = str y → x = y.
Proof. destruct x, y; simpl; try discriminate. by intros _ _ ->. Qed.

(** What a successful ontology load went through: the name was found,
    the library created, the first pass returned, and from there on only
    the dependency table and the shape collections changed. *)
Lemma load_ontology_Ok_inv (ontology : Graph) (s s' : Store) (lib : Library.t)
    (l : list LogRecord) :
  load_ontology ontology s = (Ok lib, s', l) →
  let g := pyshacl_validate ontology in
  ∃ name s1 l1 tables s2 l2,
    Library.Graph_value g RDF.type OWL_Ontology false = Ok name ∧
    Library.create (str <$> name) s = (Ok lib, s1, l1) ∧
    Library.ontology_pass1 get_template_parts_from_shape iteration_order lib g s1
      = (Ok tables, s2, l2) ∧
    ∀ (X : Type) (f : Store → X),
      (∀ d s, f (table_connection.set_deps_association_table d s) = f s) →
      (∀ v s, f (table_connection.set_shape_collections v s) = f s) →
      f s' = f s2.
Proof.
  intros Hload g. unfold Library._load_from_ontology_graph in Hload. fold g in Hload.
  apply bind_Ok_inv in Hload as (name & s0 & l0 & l0' & Hname & Hload & _).
  assert (s0 = s) as -> by (unfold lift in Hname; congruence).
  assert (Library.Graph_value g RDF.type OWL_Ontology false = Ok name) as Hv
    by (unfold lift in Hname; congruence).
  apply bind_Ok_inv in Hload as (lib0 & s1 & l1 & l1' & Hcreate & Hload & _).
  apply bind_Ok_inv in Hload as (tables & s2 & l2 & l2' & Hpass1 & Hload & _).
  cbv zeta in Hload.
  apply bind_Ok_inv in Hload as ([] & s3 & l3 & l3' & Hpass2 & Hload & _).
  apply bind_Ok_inv in Hload as (sc & s4 & l4 & l4' & Hsc & Hload & _).
  apply bind_Ok_inv in Hload as (i & s5 & l5 & l5' & Hi & Hload & _).
  apply bind_Ok_inv in Hload as (shape_col & s6 & l6 & l6' & Hcol & Hload & _).
  apply bind_Ok_inv in Hload as ([] & s7 & l7 & l7' & Hadd & Hret & _).
  injection Hret as <- <-.
  exists name, s1, l1, tables, s2, l2. repeat split; try done.
  intros X f f_deps f_shapes.
  pose proof (preserves_run _ _ _ _ _ _
                (preserves_ontology_pass2 f f_deps lib0 tables.1 tables.2) Hpass2) as H23.
  pose proof (preserves_run _ _ _ _ _ _
                (preserves_get_shape_collection (same_on f) lib0) Hsc) as H34.
  assert (s5 = s4) as ->.
  { destruct (ShapeCollection.id sc); unfold ret, raise in Hi; congruence. }
  pose proof (preserves_run _ _ _ _ _ _
                (preserves_ShapeCollection_load (same_on f) i) Hcol) as H56.
  pose proof (preserves_run _ _ _ _ _ _
                (preserves_add_graph f f_shapes shape_col g) Hadd) as H67.
  unfold same_on in *. congruence.
Qed.

(** C6. When the ontology loader returns, the templates it has added to
    the store are one per candidate of the (expanded) graph, each named by
    the text of its candidate and owned by the new library, in the order
    in which the loop visited the set of candidates; the names are
    pairwise distinct, and the candidates are exactly the nodes typed both
    [owl:Class] and [sh:NodeShape]. *)
Theorem C6_one_template_per_candidate (ontology : Graph) (s s' : Store)
    (lib : Library.t) (l : list LogRecord)
    (Hload : load_ontology ontology s = (Ok lib, s', l)) :
  let g := pyshacl_validate ontology in
  (∃ created,
     template_names s' = template_names s ++ created ∧
     created ≡ₚ (fun c => (str c, Library._id lib)) <$> elements (Library.candidates g) ∧
     NoDup created.*1) ∧
  NoDup (str <$> elements (Library.candidates g)) ∧
  ∀ n, n ∈ Library.candidates g ↔
       (n, RDF.type, OWL_Class) ∈ g ∧ (n, RDF.type, SH_NodeShape) ∈ g.
Proof.
  intros g.
  destruct (load_ontology_Ok_inv _ _ _ _ _ Hload)
    as (name & s1 & l1 & tables & s2 & l2 & _ & Hcreate & Hpass1 & Hrest).
  fold g in Hpass1.
  assert (template_names s1 = template_names s) as Hs1.
  { destruct (create_cases (str <$> name) s)
      as [(e & He)|(n & lib1 & s1' & _ & Hc & _ & _ & Ht & _)].
    - rewrite He in Hcreate. discriminate.
    - rewrite Hc in Hcreate. injection Hcreate as <- <-.
      unfold template_names. by rewrite Ht. }
  pose proof (foldM_creates _ _ (ontology_create_creates lib g)
                (∅, ∅) (iteration_order (Library.candidates g)) s1) as Hs2.
  cbv beta in Hs2. unfold Library.ontology_pass1 in Hpass1. rewrite Hpass1 in Hs2.
  rewrite concat_singletons in Hs2.
  assert (NoDup (str <$> elements (Library.candidates g))) as Hnames.
  { apply NoDup_fmap_2_strong; [|apply NoDup_elements].
    pose proof (ontology_pass1_URIRef _ _ _ _ _ _ _ _ Hpass1) as Huri.
    rewrite Forall_forall in Huri.
    intros x y Hx Hy. apply str_inj_URIRef; apply Huri.
    - by rewrite (iteration_order_elements (Library.candidates g)).
    - by rewrite (iteration_order_elements (Library.candidates g)). }
  split; [|split; [exact Hnames|apply elem_of_candidates]].
  exists ((fun c => (str c, Library._id lib)) <$> iteration_order (Library.candidates g)).
  split; [|split].
  - rewrite (Hrest _ template_names (fun _ _ => eq_refl) (fun _ _ => eq_refl)).
    by rewrite Hs2, Hs1.
  - by rewrite (iteration_order_elements (Library.candidates g)).
  - rewrite <- list_fmap_compose.
    rewrite (iteration_order_elements (Library.candidates g)). exact Hnames.
Qed.

Lemma preserves_ontology_pass1 {X : Type} (f : Store → X) (lib : Library.t) (g : Graph) :
  (∀ s s', deps_association_table s' = deps_association_table s →
           library_table s' = library_table s → f s' = f s) →
  preserves (same_on f) (Library.ontology_pass1 get_template_parts_from_shape iteration_order lib g).
Proof.
  intros Hf. unfold Library.ontology_pass1.
  apply (preserves_foldM (same_on f)). intros acc c.
  unfold Library.ontology_create.
  apply (preserves_bind (same_on f)); [apply (preserves_assert (same_on f))|].
  intros _.
  apply (preserves_bind (same_on f)); [apply (preserves_lift (same_on f))|].
  intros parts.
  apply (preserves_bind (same_on f)); [by apply preserves_create_template|].
  intros t. apply (preserves_ret (same_on f)).
Qed.

(** C3 (as the code has it). The library is named after the single
    ontology the graph declares; with more than one declaration the load
    fails with the uniqueness error before anything is created. *)
Theorem C3_library_named_after_ontology (ontology : Graph) (s : Store) :
  let g := pyshacl_validate ontology in
  let declared := subjects g RDF.type OWL_Ontology in
  (∀ o, declared = {[ o ]} →
        ∀ lib s' l, load_ontology ontology s = (Ok lib, s', l) →
                    Library._name lib = str o ∧
                    ∃ dbl, dbl ∈ library_table s' ∧
                           lib_name dbl = str o ∧
                           lib_id dbl = Library._id lib) ∧
  ((1 < size declared)%nat →
   load_ontology ontology s = (Raise UniquenessError, s, [])).
Proof.
  intros g declared. split.
  - intros o Ho lib s' l Hload.
    destruct (load_ontology_Ok_inv _ _ _ _ _ Hload)
      as (name & s1 & l1 & tables & s2 & l2 & Hname & Hcreate & Hpass1 & Hrest).
    fold g in Hname, Hpass1.
    unfold Library.Graph_value in Hname. fold declared in Hname.
    rewrite Ho, elements_singleton in Hname. injection Hname as <-.
    destruct (create_cases (str <$> Some o) s)
      as [(e & He)|(n & lib1 & s1' & Hn & Hc & Hname & Hid & _ & _ & Hlibs)].
    { rewrite He in Hcreate. discriminate. }
    rewrite Hc in Hcreate. injection Hcreate as -> -> _.
    injection Hn as <-. split; [done|].
    rewrite (Hrest _ library_table (fun _ _ => eq_refl) (fun _ _ => eq_refl)).
    pose proof (preserves_run _ _ _ _ _ _
                  (preserves_ontology_pass1 library_table lib g
                     (fun _ _ _ H => H)) Hpass1) as H12.
    unfold same_on in H12. rewrite H12, Hlibs.
    eexists. split; [apply elem_of_app; right; apply list_elem_of_singleton; reflexivity|].
    simpl. by rewrite Hid.
  - intros Hsize. unfold Library._load_from_ontology_graph. fold g.
    apply bind_Raise. unfold lift, Library.Graph_value. fold declared.
    unfold size, set_size in Hsize. simpl in Hsize.
    destruct (elements declared) as [|v [|w rest]]; simpl in Hsize; [lia..|done].
Qed.

End Ontology.

Lemma C6_witness :
  ∃ created,
    template_names
      (store_of (Library._load_from_ontology_graph (fun g => g) parts_plain
                   (fun X => reverse (elements X)) g_two_shapes empty_store))
      = template_names empty_store ++ created ∧
    created ≡ₚ [("urn:a", 1); ("urn:b", 1)].
Proof.
  assert (result_of (Library._load_from_ontology_graph (fun g => g) parts_plain
                       (fun X => reverse (elements X)) g_two_shapes empty_store)
          = Ok {| Library._id := 1; Library._name := "urn:ont" |}) as Hload
    by (vm_compute; reflexivity).
  destruct (proj1 (C6_one_template_per_candidate (fun g => g) parts_plain
                     (fun X => reverse (elements X))
                     (fun X => reverse_Permutation (elements X))
                     g_two_shapes empty_store _ _ _ (run_Ok _ _ Hload)))
    as (created & Hnames & Hperm & _).
  exists created. split; [exact Hnames|].
  assert ((fun c => (str c, 1)) <$> elements (Library.candidates g_two_shapes)
          = [("urn:a", 1); ("urn:b", 1)]) as Hcands by (vm_compute; reflexivity).
  simpl in Hperm. by rewrite Hcands in Hperm.
Defined.

(** A graph without an ontology declaration: the name lookup returns
    [None] without raising, and the load does not end in the uniqueness
    error. *)
Lemma C3_counterexample :
  elements (subjects g_no_ontology RDF.type OWL_Ontology) = [] ∧
  Library.Graph_value g_no_ontology RDF.type OWL_Ontology false = Ok None ∧
  result_of (Library._load_from_ontology_graph (fun g => g) parts_plain elements
               g_no_ontology empty_store) ≠ Raise UniquenessError.
Proof. repeat split; vm_compute; congruence. Qed.

Lemma C3_witness :
  Library._load_from_ontology_graph (fun g => g) parts_plain elements
    g_two_ontologies empty_store = (Raise UniquenessError, empty_store, []) ∧
  ∃ dbl,
    dbl ∈ library_table
            (store_of (Library._load_from_ontology_graph (fun g => g) parts_plain elements
                         g_one_shape empty_store)) ∧
    lib_name dbl = "urn:ont" ∧ lib_id dbl = 1.
Proof.
  split.
  - apply (proj2 (C3_library_named_after_ontology (fun g => g) parts_plain elements
                    g_two_ontologies empty_store)).
    vm_compute. lia.
  - refine (proj2 (proj1 (C3_library_named_after_ontology (fun g => g) parts_plain elements
                            g_one_shape empty_store)
                     (URIRef "urn:ont") _
                     {| Library._id := 1; Library._name := "urn:ont" |} _ _
                     (run_Ok _ _ _)));
      vm_compute; reflexivity.
Defined.

(** ** The second pass of the ontology loader *)

Lemma ontology_attach_unresolved (lookup : gmap string Z) (template : Template.t)
    (dep : Library.DepDict) (s : Store) :
  lookup !! Library.d_template dep = None →
  Library.ontology_attach lookup template dep s
    = (Ok tt, s, [{| level := WARNING;
                     message := "Warning: could not find dependee "
                                  +:+ Library.d_template dep |}]).
Proof. unfold Library.ontology_attach. by intros ->. Qed.

Lemma forM__ext_run {A : Type} (body body' : A → M unit) (xs : list A) :
  (∀ x s, (body x s).1 = (body' x s).1) →
  ∀ s, (forM_ xs body s).1 = (forM_ xs body' s).1.
Proof.
  intros Hext. induction xs as [|x xs IH]; intros s; simpl; [done|].
  unfold bind. specialize (Hext x s).
  destruct (body x s) as [[r s1] l1], (body' x s) as [[r' s1'] l1'].
  simpl in Hext. injection Hext as <- <-.
  destruct r as [[]|e]; [|done].
  specialize (IH s1).
  destruct (forM_ xs body s1) as [[r2 s2] l2], (forM_ xs body' s1) as [[r2' s2'] l2'].
  simpl in *. by injection IH as <- <-.
Qed.

Lemma forM__ontology_drop (lookup : gmap string Z) (template : Template.t)
    (deps : list Library.DepDict) :
  ∀ s, (forM_ deps (Library.ontology_attach lookup template) s).1
       = (forM_ (drop_unresolved lookup deps)
                (Library.ontology_attach lookup template) s).1.
Proof.
  unfold drop_unresolved. induction deps as [|dep deps IH]; intros s; [done|].
  destruct (lookup !! Library.d_template dep) as [i|] eqn:Hl.
  - rewrite filter_cons_True by (by rewrite Hl). simpl. unfold bind.
    destruct (Library.ontology_attach lookup template dep s) as [[[[]|e] s1] l1];
      [|done].
    specialize (IH s1).
    destruct (forM_ deps _ s1) as [[r2 s2] l2],
             (forM_ (filter _ deps) _ s1) as [[r2' s2'] l2'].
    simpl in *. by injection IH as <- <-.
  - rewrite filter_cons_False by (rewrite Hl; by intros [? ?]). simpl. unfold bind.
    rewrite (ontology_attach_unresolved _ _ _ _ Hl).
    specialize (IH s).
    destruct (forM_ deps _ s) as [[r2 s2] l2],
             (forM_ (filter _ deps) _ s) as [[r2' s2'] l2'].
    simpl in *. by injection IH as <- <-.
Qed.

Lemma ontology_pass2_drop (lib : Library.t) (lookup : gmap string Z)
    (cache : gmap Z (list Library.DepDict)) (s : Store) :
  (Library.ontology_pass2 lib lookup cache s).1
  = (Library.ontology_pass2 lib lookup (drop_unresolved lookup <$> cache) s).1.
Proof.
  unfold Library.ontology_pass2, bind.
  destruct (Library.get_templates lib s) as [[[ts|e] s1] l1]; [|done].
  pose proof (forM__ext_run
    (fun template =>
       match cache !! Template._id template with
       | Some deps => forM_ deps (Library.ontology_attach lookup template)
       | None => ret tt
       end)
    (fun template =>
       match (drop_unresolved lookup <$> cache) !! Template._id template with
       | Some deps => forM_ deps (Library.ontology_attach lookup template)
       | None => ret tt
       end) ts) as Hext.
  cbv beta in Hext.
  assert (∀ (x : Template.t) (s0 : Store),
            (match cache !! Template._id x with
             | Some deps => forM_ deps (Library.ontology_attach lookup x)
             | None => ret tt
             end s0).1
            = (match (drop_unresolved lookup <$> cache) !! Template._id x with
               | Some deps => forM_ deps (Library.ontology_attach lookup x)
               | None => ret tt
               end s0).1) as Hbody.
  { intros t s0. rewrite lookup_fmap.
    destruct (cache !! Template._id t); simpl; [|done].
    apply forM__ontology_drop. }
  specialize (Hext Hbody s1).
  destruct (forM_ ts _ s1) as [[r2 s2] l2], (forM_ ts _ s1) as [[r2' s2'] l2'].
  simpl in *. by injection Hext as <- <-.
Qed.

(** C4 (as the code has it). In ontology mode a cached dependency is
    resolved against the batch-local table only: a name in the table gives
    the template with the id recorded there, to which the edge is added; a
    name not in the table is reported and the edge omitted; an explicit
    identifier or a library named in the dependency plays no part. *)
Theorem C4_ontology_resolves_by_batch_table_only
    (lookup : gmap string Z) (template : Template.t) (dep : Library.DepDict) :
  (∀ dep' : Library.DepDict,
      Library.d_template dep' = Library.d_template dep →
      Library.d_args dep' = Library.d_args dep →
      Library.ontology_attach lookup template dep'
        = Library.ontology_attach lookup template dep) ∧
  (∀ i, lookup !! Library.d_template dep = Some i →
        Library.ontology_attach lookup template dep =
          (let* dependee := Template.load i in
           let* args := match Library.d_args dep with
                        | Some a => ret a
                        | None => raise (KeyError "args")
                        end in
           Template.add_dependency template dependee args)) ∧
  (lookup !! Library.d_template dep = None →
   ∀ s, Library.ontology_attach lookup template dep s
          = (Ok tt, s, [{| level := WARNING;
                           message := "Warning: could not find dependee "
                                        +:+ Library.d_template dep |}])).
Proof.
  split; [|split].
  - intros dep' Ht Ha. unfold Library.ontology_attach. by rewrite Ht, Ha.
  - intros i Hi. unfold Library.ontology_attach. by rewrite Hi.
  - intros Hn s. by apply ontology_attach_unresolved.
Qed.

(** Template ["T"] of library ["L"] is in the store, and the three steps
    of [to_template] find it; the ontology loader, given a shape that
    depends on it, reports it as not found and records no edge. *)
Lemma C4_counterexample :
  let r := Library._load_from_ontology_graph (fun g => g) parts_dep_T elements
             g_one_shape store_L_T in
  result_of r = Ok {| Library._id := 7; Library._name := "urn:ont" |} ∧
  log_of r = [{| level := WARNING;
                 message := "Warning: could not find dependee T" |}] ∧
  Migration.rows (deps_association_table (store_of r)) = [] ∧
  result_of (Library.to_template (Library.from_dict dep_T_in_L "urn:ont")
               {[ "urn:a" := 9 ]} (store_of r))
    = Ok {| Template._id := 3; Template._name := "T";
            Template.body := ∅; Template.optional_args := [] |} ∧
  result_of (Library.ontology_attach {[ "urn:a" := 9 ]}
               {| Template._id := 9; Template._name := "urn:a";
                  Template.body := ∅; Template.optional_args := [] |}
               dep_T_in_L (store_of r)) = Ok tt ∧
  Migration.rows (deps_association_table
    (store_of (Library.ontology_attach {[ "urn:a" := 9 ]}
                 {| Template._id := 9; Template._name := "urn:a";
                    Template.body := ∅; Template.optional_args := [] |}
                 dep_T_in_L (store_of r)))) = [].
Proof. cbv zeta. repeat split; vm_compute; reflexivity. Qed.

Lemma C4_witness :
  Library.ontology_attach {[ "urn:a" := 9 ]} template_A dep_T_in_L store_L_T
    = (Ok tt, store_L_T,
       [{| level := WARNING; message := "Warning: could not find dependee T" |}]) ∧
  Library.ontology_attach {[ "urn:a" := 9 ]} template_A
    {| Library.d_template := "T"; Library.d_args := Some [];
       Library.d_library := None; Library.d_template_id := Some 3 |}
  = Library.ontology_attach {[ "urn:a" := 9 ]} template_A dep_T_in_L.
Proof.
  pose proof (C4_ontology_resolves_by_batch_table_only
                {[ "urn:a" := 9 ]} template_A dep_T_in_L) as (H1 & _ & H3).
  split.
  - apply (H3 eq_refl store_L_T).
  - apply H1; reflexivity.
Defined.

(** ** The directory loader *)

Lemma bind_Ok_Raise {A B : Type} (m : M A) (k : A → M B) s a s1 l1 e s2 l2 :
  m s = (Ok a, s1, l1) → k a s1 = (Raise e, s2, l2) →
  bind m k s = (Raise e, s2, l1 ++ l2).
Proof. unfold bind. by intros -> ->. Qed.

Lemma concat_entries {A B F : Type} (h : A → B) (files : list (F * list A)) :
  concat ((fun file : F * list A => concat ((fun x => [h x]) <$> file.2)) <$> files)
  = h <$> concat (snd <$> files).
Proof.
  induction files as [|file files IH]; [done|].
  rewrite !fmap_cons. simpl. by rewrite concat_singletons, fmap_app, IH.
Qed.

Section Directory.

Variable compile_template_spec : Library.TemplSpec → Result Library.TemplSpec.

Local Abbreviation load_directory :=
  (Library._load_from_directory compile_template_spec).

Lemma directory_create_creates (lib : Library.t) (file : string) :
  creates (fun entry : string * Library.TemplSpec => [(entry.1, Library._id lib)])
          (Library.directory_create compile_template_spec lib file).
Proof.
  intros acc entry s. unfold Library.directory_create, bind, lift.
  destruct (compile_template_spec entry.2) as [templ_spec|e];
    [|exists 0%nat; split; [simpl; lia|by rewrite app_nil_r]].
  unfold try_except, Library.create_template_kwargs.
  destruct (Library.spec_other templ_spec) as [|k ks]; simpl.
  - destruct (create_template_cases lib entry.1 (Library.spec_body templ_spec)
                (Some (default [] (Library.spec_optional templ_spec))) s)
      as [(e & ->)|(t & s' & -> & _ & Hn & _ & _)]; simpl.
    + exists 0%nat. split; [lia|by rewrite app_nil_r].
    + done.
  - exists 0%nat. split; [lia|by rewrite app_nil_r].
Qed.

Lemma directory_pass1_creates (lib : Library.t) (directory : Library.Directory) (s : Store) :
  match Library.directory_pass1 compile_template_spec lib directory s with
  | (Ok _, s', _) =>
      template_names s' =
        template_names s ++
        ((fun en : string * Library.TemplSpec => (en.1, Library._id lib))
           <$> entries directory)
  | (Raise _, s', _) =>
      ∃ k, (k < length (entries directory))%nat ∧
           template_names s' =
             template_names s ++
             ((fun en : string * Library.TemplSpec => (en.1, Library._id lib))
                <$> take k (entries directory))
  end.
Proof.
  assert (creates
            (fun file : string * list (string * Library.TemplSpec) =>
               concat ((fun en : string * Library.TemplSpec =>
                          [(en.1, Library._id lib)]) <$> file.2))
            (fun acc file =>
               foldM file.2 acc
                 (Library.directory_create compile_template_spec lib file.1)))
    as Hfile.
  { intros acc file s0.
    apply (foldM_creates _ _ (directory_create_creates lib file.1) acc file.2 s0). }
  pose proof (foldM_creates _ _ Hfile (∅, ∅) (Library.dir_yml directory) s) as H.
  cbv beta in H. rewrite concat_entries in H.
  unfold Library.directory_pass1, entries.
  destruct (foldM (Library.dir_yml directory) _ _ s) as [[[tables|e] s'] l]; [done|].
  destruct H as (k & Hk & ->). rewrite length_fmap in Hk.
  exists k. split; [done|]. by rewrite fmap_take.
Qed.

Lemma preserves_directory_pass1 {X : Type} (f : Store → X) (lib : Library.t)
    (directory : Library.Directory) :
  (∀ s s', deps_association_table s' = deps_association_table s →
           library_table s' = library_table s → f s' = f s) →
  preserves (same_on f) (Library.directory_pass1 compile_template_spec lib directory).
Proof.
  intros Hf. unfold Library.directory_pass1.
  apply (preserves_foldM (same_on f)). intros acc file.
  apply (preserves_foldM (same_on f)). intros acc' entry.
  unfold Library.directory_create.
  apply (preserves_bind (same_on f)); [apply (preserves_lift (same_on f))|].
  intros templ_spec.
  apply (preserves_bind (same_on f)); [|intros t; apply (preserves_ret (same_on f))].
  apply (preserves_try_except (same_on f)).
  - unfold Library.create_template_kwargs.
    destruct (Library.spec_other templ_spec);
      [by apply preserves_create_template|apply (preserves_raise (same_on f))].
  - intros e.
    apply (preserves_bind (same_on f));
      [apply (preserves_logging_error (same_on f))|].
    intros _. apply (preserves_raise (same_on f)).
Qed.


(** C1 (as the code has it). A dependency that does not resolve is treated
    differently by the two loaders. In ontology mode a dependee that is not
    in the batch-local table is reported with a warning, the store is left
    as it is, and the pass goes on: removing such dependencies from the
    cache changes neither the outcome nor the store. In directory mode a
    dependency whose resolution raises is reported with a warning and the
    exception is raised again: the remaining dependencies are skipped and
    the load ends with that exception. *)
Theorem C1_resolution_failure_policy
    (lookup : gmap string Z) (template : Template.t) :
  (∀ (dep : Library.DepDict) (s : Store),
      lookup !! Library.d_template dep = None →
      Library.ontology_attach lookup template dep s
        = (Ok tt, s, [{| level := WARNING;
                         message := "Warning: could not find dependee "
                                      +:+ Library.d_template dep |}])) ∧
  (∀ (lib : Library.t) (cache : gmap Z (list Library.DepDict)) (s : Store),
      (Library.ontology_pass2 lib lookup cache s).1
      = (Library.ontology_pass2 lib lookup (drop_unresolved lookup <$> cache) s).1) ∧
  (∀ (dep : Library._template_dependency) (deps : list Library._template_dependency)
     (s s1 : Store) (e : Exception) (l1 : list LogRecord),
      Library.to_template dep lookup s = (Raise e, s1, l1) →
      forM_ (dep :: deps) (Library.directory_attach lookup template) s
        = (Raise e, s1,
           l1 ++ [{| level := WARNING;
                     message := "Warning: could not resolve dependency "
                                  +:+ Library.repr dep |}])) ∧
  (∀ (directory : Library.Directory) (s s1 s2 s3 : Store) (lib : Library.t)
     (tables : gmap string Z * gmap Z (list Library._template_dependency))
     (e : Exception) (l1 l2 l3 : list LogRecord),
      Library.create (Some (Library.dir_name directory)) s = (Ok lib, s1, l1) →
      Library.directory_pass1 compile_template_spec lib directory s1
        = (Ok tables, s2, l2) →
      Library.directory_pass2 lib tables.1 tables.2 s2 = (Raise e, s3, l3) →
      load_directory directory s = (Raise e, s3, l1 ++ l2 ++ l3)).
Proof.
  split; [|split; [|split]].
  - intros dep s. apply ontology_attach_unresolved.
  - intros lib cache s. apply ontology_pass2_drop.
  - intros dep deps s s1 e l1 Hres. simpl. apply bind_Raise.
    unfold Library.directory_attach, try_except.
    rewrite (bind_Raise _ _ _ _ _ _ Hres). reflexivity.
  - intros directory s s1 s2 s3 lib tables e l1 l2 l3 Hcreate Hpass1 Hpass2.
    unfold Library._load_from_directory.
    eapply bind_Ok_Raise; [exact Hcreate|].
    eapply bind_Ok_Raise; [exact Hpass1|].
    by apply bind_Raise.
Qed.

End Directory.

(** Template ["A"] names a dependee that exists nowhere: the directory
    load ends with the exception of the failed lookup. *)
Lemma C1_counterexample :
  let r := Library._load_from_directory Ok dir_missing_dep empty_store in
  result_of (Library.to_template
               {| Library.template_name := "missing";
                  Library.bindings := [("name", "name")];
                  Library.library := "lib"; Library.template_id := None |}
               {[ "A" := 3; "B" := 5 ]} (store_of r)) = Raise NoResultFound ∧
  result_of r = Raise NoResultFound ∧
  log_of r = [{| level := WARNING;
                 message := "Warning: could not resolve dependency dep<name=missing bindings={'name': 'name'} library=lib id=None>" |}] ∧
  shape_collections (store_of r) !! 2 = Some ∅.
Proof. cbv zeta. repeat split; vm_compute; reflexivity. Qed.

Lemma C1_witness :
  Library.ontology_attach {[ "urn:a" := 9 ]} template_A dep_T_in_L store_L_T
    = (Ok tt, store_L_T,
       [{| level := WARNING; message := "Warning: could not find dependee T" |}]) ∧
  result_of (Library._load_from_directory Ok dir_missing_dep empty_store)
    = Raise NoResultFound.
Proof.
  pose proof (C1_resolution_failure_policy Ok {[ "urn:a" := 9 ]} template_A)
    as (H1 & _ & _ & H4).
  split.
  - apply (H1 dep_T_in_L store_L_T). reflexivity.
  - refine (eq_trans
              (f_equal result_of
                 (H4 dir_missing_dep empty_store _ _ _
                    {| Library._id := 1; Library._name := "lib" |}
                    ({[ "A" := 3; "B" := 5 ]},
                     {[ 3 := [ {| Library.template_name := "missing";
                                  Library.bindings := [("name", "name")];
                                  Library.library := "lib";
                                  Library.template_id := None |} ];
                        5 := [] ]})
                    NoResultFound _ _ _
                    (run_Ok _ _ _) (run_Ok _ _ _) (run_Raise _ _ _))) _);
      vm_compute; reflexivity.
Defined.


Lemma commit_persists_loaded_directory :
  let r := in_session (Library._load_from_directory Ok dir_plain) nothing_stored in
  template_names (committed r.1.2) = [] ∧
  template_names (committed (commit r.1.2)) = [("A", 1); ("B", 1)] ∧
  template_names (committed (rollback r.1.2)) = [].
Proof. cbv zeta. repeat split; vm_compute; reflexivity. Qed.

(** * Further properties of the code *)

(** ** The migration: what [upgrade] and [downgrade] do to the data *)

Section MigrationData.

Import Migration MigrationDown.

(** Rows that agree on every column of a key collide alike. *)
Lemma collide_cells (key : list string) (r1 r1' r2 r2' : DepsAssociation) :
  (∀ c, c ∈ key → cell c r1 = cell c r1') →
  (∀ c, c ∈ key → cell c r2 = cell c r2') →
  collide key r1 r2 = collide key r1' r2'.
Proof.
  unfold collide. induction key as [|c key IH]; intros H1 H2; [done|].
  simpl. rewrite IH.
  - rewrite (H1 c), (H2 c) by (by left). done.
  - intros c' Hc'. apply H1. by right.
  - intros c' Hc'. apply H2. by right.
Qed.

Lemma key_holds_cells (key : list string) (rs rs' : list DepsAssociation) :
  Forall2 (fun r r' => ∀ c, c ∈ key → cell c r = cell c r') rs rs' →
  key_holds key rs = key_holds key rs'.
Proof.
  induction 1 as [|r r' rs rs' Hr Hrs IH]; [done|].
  simpl. rewrite IH. f_equal. f_equal.
  clear IH. induction Hrs as [|x x' xs xs' Hx Hxs IHx]; [done|].
  simpl. rewrite IHx. f_equal. by apply collide_cells.
Qed.

Lemma cells_of_triple (r r' : DepsAssociation) :
  triple r = triple r' → ∀ c, c ∈ triple_key → cell c r = cell c r'.
Proof.
  unfold triple. intros [= Ha Hb Hc] c Hin.
  unfold triple_key in Hin.
  repeat (apply elem_of_cons in Hin as [->|Hin]);
    [rewrite !cell_dependant_id|rewrite !cell_dependee_id|rewrite !cell_args|];
    [congruence..|by apply elem_of_nil in Hin].
Qed.

Lemma Forall2_imap {A B : Type} (R : A → B → Prop) (f : nat → A → B) (l : list A) :
  (∀ i x, R x (f i x)) → Forall2 R l (imap f l).
Proof.
  revert f. induction l as [|x l IH]; intros f Hf; [constructor|].
  simpl. constructor; [apply Hf|]. apply IH. intros i y. apply Hf.
Qed.

Lemma Forall2_fmap_same {A B : Type} (R : A → B → Prop) (f : A → B) (l : list A) :
  (∀ x, R x (f x)) → Forall2 R l (f <$> l).
Proof.
  intros Hf. induction l as [|x l IH]; [constructor|].
  rewrite fmap_cons. by constructor.
Qed.

Lemma Forall2_triple_eq (rs rs' : list DepsAssociation) :
  Forall2 (fun r r' => triple r = triple r') rs rs' →
  triple <$> rs = triple <$> rs'.
Proof. induction 1; [done|]. rewrite !fmap_cons. by f_equal. Qed.

Lemma with_ids_triple (rs : list DepsAssociation) :
  Forall2 (fun r r' => triple r = triple r') rs (with_ids rs).
Proof. apply Forall2_imap. done. Qed.

Lemma with_ids_lookup (rs : list DepsAssociation) (i : nat) (r : DepsAssociation) :
  with_ids rs !! i = Some r → id r = Some (Z.of_nat (S i)).
Proof.
  unfold with_ids. rewrite list_lookup_imap.
  destruct (rs !! i); simpl; [|done]. by intros [= <-].
Qed.

Lemma upgrade_rows (d d' : DepsTable) :
  upgrade d = Ok d' → rows d' = with_ids (rows d).
Proof.
  unfold upgrade, and_then.
  destruct (drop_constraint _ _ d) as [d1|] eqn:H1; [|discriminate].
  destruct (add_column _ d1) as [d2|] eqn:H2; [|discriminate].
  destruct (alter_column "dependant_id" false d2) as [d3|] eqn:H3; [|discriminate].
  destruct (alter_column "dependee_id" false d3) as [d4|] eqn:H4; [|discriminate].
  destruct (create_unique_constraint _ _ d4) as [d5|] eqn:H5; [|discriminate].
  destruct (reserialize_all (rows d5)) as [rs5|] eqn:H6; [|discriminate].
  apply reserialize_all_Ok in H6 as ->.
  intros [= <-]. simpl.
  apply alter_column_not_null in H3 as (Hr3 & _).
  apply alter_column_not_null in H4 as (Hr4 & _).
  unfold create_unique_constraint in H5.
  destruct (negb (forallb _ _)); [discriminate|].
  destruct (negb (key_holds _ _)); [discriminate|].
  injection H5 as <-. simpl. rewrite Hr4, Hr3.
  unfold add_column in H2. destruct (has_column _ _); [discriminate|].
  injection H2 as <-. simpl.
  unfold drop_constraint in H1. destruct (existsb _ _); [|discriminate].
  by injection H1 as <-.
Qed.

(** X1. [upgrade] keeps every dependency: the rows afterwards carry, in
    the same order, the same dependant, dependee and bindings as before,
    and the new key [id] numbers them from 1. *)
Theorem X1_upgrade_keeps_rows (d d' : DepsTable) (Hup : upgrade d = Ok d') :
  triple <$> rows d' = triple <$> rows d ∧
  length (rows d') = length (rows d) ∧
  ∀ i r, rows d' !! i = Some r → id r = Some (Z.of_nat (S i)).
Proof.
  rewrite (upgrade_rows _ _ Hup). split; [|split].
  - symmetry. apply Forall2_triple_eq, with_ids_triple.
  - unfold with_ids. apply length_imap.
  - apply with_ids_lookup.
Qed.

Lemma existsb_null_with_ids (c : string) (rs : list DepsAssociation) :
  c ≠ "id" →
  existsb (fun r => bool_decide (cell c r = None)) (with_ids rs)
  = existsb (fun r => bool_decide (cell c r = None)) rs.
Proof.
  intros Hc. unfold with_ids.
  assert (∀ f : nat → nat,
            existsb (fun r => bool_decide (cell c r = None))
              (imap (fun i r => {| id := Some (Z.of_nat (f i));
                                   dependant_id := dependant_id r;
                                   dependee_id := dependee_id r;
                                   args := args r |}) rs)
            = existsb (fun r => bool_decide (cell c r = None)) rs) as H.
  { induction rs as [|r rs IH]; intros f; [done|]. simpl.
    rewrite <- (IH (f ∘ S)). f_equal.
    unfold cell. destruct (decide (c = "id")); [done|]. reflexivity. }
  apply (H S).
Qed.

Lemma existsb_null_iff (c : string) (rs : list DepsAssociation) :
  existsb (fun r => bool_decide (cell c r = None)) rs = false ↔
  Forall (fun r => is_Some (cell c r)) rs.
Proof.
  induction rs as [|r rs IH]; simpl.
  - split; [constructor|done].
  - rewrite orb_false_iff, IH, Forall_cons, bool_decide_eq_false.
    rewrite <- not_eq_None_Some. tauto.
Qed.

Lemma ids_not_null_cells (rs : list DepsAssociation) :
  ids_not_null rs ↔
  Forall (fun r => is_Some (cell "dependant_id" r)) rs ∧
  Forall (fun r => is_Some (cell "dependee_id" r)) rs.
Proof.
  unfold ids_not_null. rewrite <- Forall_and. apply Forall_proper; [|done].
  intros r. by rewrite cell_dependant_id, cell_dependee_id, !fmap_is_Some.
Qed.

(** [upgrade] on a table of the earlier revision, step by step. *)
Lemma upgrade_table_before (rs : list DepsAssociation) :
  upgrade {| schema := table_before; rows := rs |} =
    if existsb (fun r => bool_decide (cell "dependant_id" r = None)) (with_ids rs)
    then Raise (IntegrityError "NOT NULL constraint failed: dependant_id")
    else if existsb (fun r => bool_decide (cell "dependee_id" r = None)) (with_ids rs)
    then Raise (IntegrityError "NOT NULL constraint failed: dependee_id")
    else if negb (key_holds triple_key (with_ids rs))
    then Raise (IntegrityError "deps_association_unique_constraint")
    else and_then (reserialize_all (with_ids rs)) (fun rs' =>
         Ok {| schema := schema deps_table_after; rows := rs' |}).
Proof.
  destruct (existsb (fun r => bool_decide (cell "dependant_id" r = None)) (with_ids rs)) eqn:H1;
  [|destruct (existsb (fun r => bool_decide (cell "dependee_id" r = None)) (with_ids rs)) eqn:H2;
    [|destruct (negb (key_holds triple_key (with_ids rs))) eqn:H3]].
  all: unfold upgrade, and_then.
  all: change (drop_constraint "deps_association_table_pkey" primary
            {| schema := table_before; rows := rs |})
    with (Ok {| schema := {| tbl_columns := tbl_columns table_before;
                             tbl_constraints := [] |};
                rows := rs |}).
  all: cbv beta iota.
  all: change (add_column _ _)
    with (Ok {| schema :=
                  {| tbl_columns :=
                       tbl_columns table_before ++
                       [{| col_name := "id"; col_type := INTEGER;
                           col_nullable := true; col_primary_key := true |}];
                     tbl_constraints := [] |};
                rows := with_ids rs |}).
  all: cbv beta iota.
  all: unfold alter_column at 1; cbn [schema rows].
  all: rewrite H1.
  all: match goal with
  | |- context [negb (has_column ?c ?t)] =>
      change (negb (has_column c t)) with false
  end.
  all: cbn [negb andb].
  1: reflexivity.
  all: unfold alter_column at 1; cbn [schema rows]; rewrite H2.
  all: match goal with
  | |- context [negb (has_column ?c ?t)] =>
      change (negb (has_column c t)) with false
  end.
  all: cbn [negb andb].
  1: reflexivity.
  all: unfold create_unique_constraint; cbn [schema rows].
  all: fold triple_key; rewrite H3.
  all: match goal with
  | |- context [negb (forallb ?f ?l)] => change (negb (forallb f l)) with false
  end.
  all: cbv beta iota.
  all: reflexivity.
Qed.

Lemma args_not_null_with_ids (rs : list DepsAssociation) :
  args_not_null (with_ids rs) ↔ args_not_null rs.
Proof.
  unfold args_not_null. rewrite !Forall_lookup. split.
  - intros H i r Hr.
    specialize (H i {| id := Some (Z.of_nat (S i)); dependant_id := dependant_id r;
                       dependee_id := dependee_id r; args := args r |}).
    apply H. unfold with_ids. by rewrite list_lookup_imap, Hr.
  - intros H i r. unfold with_ids. rewrite list_lookup_imap.
    destruct (rs !! i) as [r0|] eqn:Hr; [|done].
    intros [= <-]. simpl. by apply (H i).
Qed.

(** X2. On a table of the earlier revision [upgrade] succeeds exactly when
    no row has a NULL template id, no two rows carry the same dependant,
    dependee and bindings, and no row has NULL bindings. When the first
    two fail, the schema change is refused with an integrity error; when
    they hold and some row has NULL bindings, the copying loop raises
    [AttributeError]. *)
Theorem X2_upgrade_succeeds_iff (rs : list DepsAssociation) :
  (is_Some_result (upgrade {| schema := table_before; rows := rs |}) ↔
   ids_not_null rs ∧ key_holds triple_key rs = true ∧ args_not_null rs) ∧
  (¬ (ids_not_null rs ∧ key_holds triple_key rs = true) →
   ∃ c, upgrade {| schema := table_before; rows := rs |} = Raise (IntegrityError c)) ∧
  (ids_not_null rs → key_holds triple_key rs = true → ¬ args_not_null rs →
   upgrade {| schema := table_before; rows := rs |}
     = Raise (AttributeError "'NoneType' object has no attribute 'copy'")).
Proof.
  rewrite upgrade_table_before, !existsb_null_with_ids by done.
  rewrite <- (key_holds_cells triple_key rs (with_ids rs))
    by (eapply Forall2_impl; [apply with_ids_triple|];
        intros r r' Ht; by apply cells_of_triple).
  rewrite ids_not_null_cells, <- !existsb_null_iff.
  rewrite <- (args_not_null_with_ids rs).
  destruct (reserialize_all_cases (with_ids rs)) as [[Hall ->]|[Hnot ->]];
    fold (args_not_null (with_ids rs)) in *;
    destruct (existsb (fun r => bool_decide (cell "dependant_id" r = None)) rs),
             (existsb (fun r => bool_decide (cell "dependee_id" r = None)) rs),
             (key_holds triple_key rs); simpl;
    (split; [split; [intros H; try done; by destruct H
                    |intros [[? ?] [? ?]]; done]
            |split; [intros Hn; first [by eexists|exfalso; by apply Hn]
                    |intros [? ?] ? Hn; first [done|exfalso; by apply Hn]]]).
Qed.

Lemma drop_constraint_Ok (name : string) (ty : ConstraintType) (d d' : DepsTable) :
  drop_constraint name ty d = Ok d' →
  rows d' = rows d ∧
  tbl_columns (schema d') = tbl_columns (schema d) ∧
  tbl_constraints (schema d') =
    filter (fun c => con_name c ≠ name) (tbl_constraints (schema d)).
Proof.
  unfold drop_constraint. destruct (existsb _ _); [|discriminate].
  by intros [= <-].
Qed.

Lemma drop_column_Ok (name : string) (d d' : DepsTable) :
  drop_column name d = Ok d' →
  rows d' = clear_cell name <$> rows d ∧
  tbl_columns (schema d') =
    filter (fun c => col_name c ≠ name) (tbl_columns (schema d)) ∧
  tbl_constraints (schema d') = tbl_constraints (schema d).
Proof.
  unfold drop_column. destruct (negb _); [discriminate|].
  by intros [= <-].
Qed.

Lemma clear_id_triple (rs : list DepsAssociation) :
  triple <$> (clear_cell "id" <$> rs) = triple <$> rs.
Proof. rewrite <- list_fmap_compose. by apply list_fmap_ext. Qed.

Lemma not_null_after_drop (name n : string) (cols : list Column) :
  n ≠ name →
  n ∈ col_name <$> filter (λ c, negb (col_nullable c) || col_primary_key c) cols →
  n ∈ col_name <$>
        filter (λ c, negb (col_nullable c) || col_primary_key c)
          (filter (λ c, col_name c ≠ name) cols).
Proof.
  intros Hne. rewrite !list_elem_of_fmap. intros (c & -> & Hc).
  apply list_elem_of_filter in Hc as [Hp Hin].
  exists c. split; [done|]. apply list_elem_of_filter. split; [done|].
  by apply list_elem_of_filter.
Qed.

Lemma downgrade_rows (db db' : Database) :
  downgrade db = Ok db' → rows (deps db') = clear_cell "id" <$> rows (deps db).
Proof.
  unfold downgrade, and_then, create_index.
  destruct (bool_decide _); [discriminate|].
  destruct (drop_constraint _ _ (deps db)) as [d1|] eqn:H1; [|discriminate].
  destruct (alter_column "dependee_id" false d1) as [d2|] eqn:H2; [|discriminate].
  destruct (alter_column "dependant_id" false d2) as [d3|] eqn:H3; [|discriminate].
  destruct (drop_column "id" d3) as [d4|] eqn:H4; [|discriminate].
  intros [= <-]. simpl.
  apply drop_constraint_Ok in H1 as (Hr1 & _).
  apply alter_column_not_null in H2 as (Hr2 & _).
  apply alter_column_not_null in H3 as (Hr3 & _).
  apply drop_column_Ok in H4 as (Hr4 & _).
  by rewrite Hr4, Hr3, Hr2, Hr1.
Qed.

(** X3. What [downgrade] leaves behind when it goes through: the index
    [ix_template_name] on [template(name)], not unique; a dependency table
    without the uniqueness constraint and without the column [id], whose
    two template ids are still NOT NULL; and the same dependencies, in the
    same order, none with an [id]. *)
Theorem X3_downgrade_effect (db db' : Database) (Hdown : downgrade db = Ok db') :
  template_indexes db' =
    template_indexes db ++
    [{| ix_name := "ix_template_name"; ix_columns := ["name"]; ix_unique := false |}] ∧
  (∀ c, c ∈ tbl_constraints (schema (deps db')) →
        con_name c ≠ "deps_association_unique_constraint") ∧
  ¬ ("id" ∈ col_name <$> tbl_columns (schema (deps db'))) ∧
  "dependant_id" ∈ not_null_columns (schema (deps db')) ∧
  "dependee_id" ∈ not_null_columns (schema (deps db')) ∧
  triple <$> rows (deps db') = triple <$> rows (deps db) ∧
  Forall (fun r => id r = None) (rows (deps db')).
Proof.
  revert Hdown. unfold downgrade, and_then, create_index.
  destruct (bool_decide _); [discriminate|].
  destruct (drop_constraint _ _ (deps db)) as [d1|] eqn:H1; [|discriminate].
  destruct (alter_column "dependee_id" false d1) as [d2|] eqn:H2; [|discriminate].
  destruct (alter_column "dependant_id" false d2) as [d3|] eqn:H3; [|discriminate].
  destruct (drop_column "id" d3) as [d4|] eqn:H4; [|discriminate].
  intros [= <-]. simpl.
  apply drop_constraint_Ok in H1 as (Hr1 & Hc1 & Hk1).
  apply alter_column_not_null in H2 as (Hr2 & Hk2 & Hn2 & _).
  apply alter_column_not_null in H3 as (Hr3 & Hk3 & Hn3 & Hm3 & _).
  apply drop_column_Ok in H4 as (Hr4 & Hc4 & Hk4).
  split; [done|]. split; [|split; [|split; [|split; [|split]]]].
  - intros c. rewrite Hk4, Hk3, Hk2, Hk1. intros Hc.
    by apply list_elem_of_filter in Hc as [? _].
  - rewrite Hc4. intros Hin. apply list_elem_of_fmap in Hin as (c & Hc & Hin).
    apply list_elem_of_filter in Hin as [Hne _]. by apply Hne.
  - unfold not_null_columns. rewrite Hc4. by apply not_null_after_drop.
  - unfold not_null_columns. rewrite Hc4. apply not_null_after_drop; [done|].
    by apply Hm3.
  - by rewrite Hr4, clear_id_triple, Hr3, Hr2, Hr1.
  - rewrite Hr4. apply Forall_fmap, Forall_forall. intros r _. reflexivity.
Qed.

(** [downgrade] on the table [upgrade] leaves: its schema afterwards. *)
Lemma downgrade_after_upgrade_schema (ixs : list Index) (rs : list DepsAssociation)
    (db' : Database) :
  downgrade {| template_indexes := ixs;
               deps := {| schema := schema deps_table_after; rows := rs |} |}
    = Ok db' →
  schema (deps db') = table_downgraded.
Proof.
  unfold downgrade, and_then, create_index. cbn [template_indexes deps].
  destruct (bool_decide _); [discriminate|].
  destruct (drop_constraint _ _ _) as [d1|] eqn:H1; [|discriminate].
  destruct (alter_column "dependee_id" false d1) as [d2|] eqn:H2; [|discriminate].
  destruct (alter_column "dependant_id" false d2) as [d3|] eqn:H3; [|discriminate].
  destruct (drop_column "id" d3) as [d4|] eqn:H4; [|discriminate].
  intros [= <-]. cbn [deps].
  unfold drop_constraint in H1. cbn [schema rows] in H1.
  destruct (existsb _ _); [|discriminate]. injection H1 as <-.
  unfold alter_column in H2. cbn [schema rows] in H2.
  destruct (negb (has_column _ _)); [discriminate|].
  destruct (negb false && _); [discriminate|]. injection H2 as <-.
  unfold alter_column in H3. cbn [schema rows] in H3.
  destruct (negb (has_column _ _)); [discriminate|].
  destruct (negb false && _); [discriminate|]. injection H3 as <-.
  unfold drop_column in H4. cbn [schema rows] in H4.
  destruct (negb (has_column _ _)); [discriminate|]. injection H4 as <-.
  reflexivity.
Qed.

(** X4. [downgrade] does not undo [upgrade]. On a table of the earlier
    revision, [upgrade] followed by [downgrade] keeps the dependencies but
    leaves a table with no key at all: every row with both template ids is
    then accepted, a copy of a stored row included, whereas the table
    before the migration refused a second row for a stored (dependant,
    dependee) pair. *)
Theorem X4_downgrade_does_not_restore_the_key
    (ixs : list Index) (rs : list DepsAssociation) (d1 : DepsTable) (db2 : Database)
    (Hup : upgrade {| schema := table_before; rows := rs |} = Ok d1)
    (Hdown : downgrade {| template_indexes := ixs; deps := d1 |} = Ok db2) :
  schema (deps db2) = table_downgraded ∧
  triple <$> rows (deps db2) = triple <$> rs ∧
  (∀ r, is_Some (dependant_id r) → is_Some (dependee_id r) →
        insert (deps db2) r
          = Ok {| schema := table_downgraded; rows := rows (deps db2) ++ [r] |}) ∧
  (∀ r0 r, r0 ∈ rs →
           is_Some (dependant_id r) → is_Some (dependee_id r) →
           dependant_id r = dependant_id r0 → dependee_id r = dependee_id r0 →
           insert {| schema := table_before; rows := rs |} r
             = Raise (IntegrityError "deps_association_table_pkey")).
Proof.
  assert (schema d1 = schema deps_table_after) as Hs1.
  { rewrite upgrade_table_before in Hup.
    repeat (destruct (existsb _ _); [discriminate|]).
    destruct (negb _); [discriminate|].
    unfold and_then in Hup. destruct (reserialize_all _); [|discriminate].
    by injection Hup as <-. }
  assert (schema (deps db2) = table_downgraded) as Hs2.
  { destruct d1 as [T1 rs1]. simpl in Hs1. subst T1.
    by eapply downgrade_after_upgrade_schema. }
  split; [done|]. split; [|split].
  - rewrite (downgrade_rows _ _ Hdown), clear_id_triple. simpl.
    rewrite (upgrade_rows _ _ Hup). simpl.
    symmetry. apply Forall2_triple_eq, with_ids_triple.
  - intros r [a Ha] [b Hb]. unfold insert. rewrite Hs2.
    destruct r as [i da de ar]. simpl in Ha, Hb. subst da de. reflexivity.
  - intros r0 r Hin [a Ha] [b Hb] Ha0 Hb0. unfold insert. cbn [schema rows].
    change (assign_id table_before rs r) with r.
    change (null_violation table_before r) with (@None string).
    unfold violated_key.
    change (keys table_before)
      with [("deps_association_table_pkey", ["dependant_id"; "dependee_id"])].
    cbn [List.find snd].
    assert (existsb (collide ["dependant_id"; "dependee_id"] r) rs = true) as ->.
    { apply existsb_exists. exists r0. split; [by apply list_elem_of_In|].
      unfold collide. cbn [forallb].
      rewrite !cell_dependant_id, !cell_dependee_id, <- Ha0, <- Hb0, Ha, Hb.
      simpl. by rewrite !bool_decide_eq_true_2. }
    reflexivity.
Qed.

End MigrationData.

(** ** Reading from the store *)

Lemma quiet_ret {A : Type} (a : A) : quiet (ret a).
Proof. by intros s. Qed.

Lemma quiet_raise {A : Type} (e : Exception) : quiet (raise (A := A) e).
Proof. by intros s. Qed.

Lemma quiet_get_store : quiet get_store.
Proof. by intros s. Qed.

Lemma quiet_bind {A B : Type} (m : M A) (k : A → M B) :
  quiet m → (∀ a, quiet (k a)) → quiet (bind m k).
Proof.
  intros Hm Hk s. destruct (Hm s) as [Hs Hl].
  unfold store_of, log_of, bind in *.
  destruct (m s) as [[[a|e] s1] l1]; simpl in *; subst; [|done].
  destruct (Hk a s) as [Hs' Hl']. unfold store_of, log_of in *.
  destruct (k a s) as [[r s2] l2]; simpl in *. by subst.
Qed.

Lemma quiet_mapM {A B : Type} (f : A → M B) (xs : list A) :
  (∀ x, quiet (f x)) → quiet (mapM f xs).
Proof.
  intros Hf. induction xs as [|x xs IH]; simpl; [apply quiet_ret|].
  apply quiet_bind; [apply Hf|]. intros y.
  apply quiet_bind; [apply IH|]. intros ys. apply quiet_ret.
Qed.

Lemma quiet_find {A B : Type} (o : Store → option A) (f : A → B) (e : Exception) :
  quiet (fun s => match o s with
                  | Some a => (Ok (f a), s, [])
                  | None => (Raise e, s, [])
                  end).
Proof. intros s. unfold store_of, log_of. by destruct (o s). Qed.

Lemma quiet_Template_load (i : Z) : quiet (Template.load i).
Proof.
  unfold Template.load. apply quiet_bind.
  - apply (quiet_find (fun s => List.find _ (template_table s)) (fun t => t)).
  - intros t. apply quiet_bind; [apply quiet_get_store|]. intros s. apply quiet_ret.
Qed.

Lemma quiet_get_db_library_by_id (i : Z) : quiet (table_connection.get_db_library_by_id i).
Proof. apply (quiet_find (fun s => List.find _ (library_table s)) (fun l => l)). Qed.

Lemma quiet_get_db_library_by_name (n : string) :
  quiet (table_connection.get_db_library_by_name n).
Proof. apply (quiet_find (fun s => List.find _ (library_table s)) (fun l => l)). Qed.

Lemma quiet_get_db_template_by_name (n : string) :
  quiet (table_connection.get_db_template_by_name n).
Proof.
  intros s. unfold store_of, log_of.
  destruct (get_db_template_by_name_store n s). done.
Qed.

Lemma quiet_ShapeCollection_load (i : Z) : quiet (ShapeCollection.load i).
Proof.
  apply (quiet_find (fun s => shape_collections s !! i)
           (fun g => {| ShapeCollection.id := Some i; ShapeCollection.graph := g |})).
Qed.

Lemma quiet_get_template_by_name (self : Library.t) (n : string) :
  quiet (Library.get_template_by_name self n).
Proof.
  unfold Library.get_template_by_name.
  apply quiet_bind; [apply quiet_get_db_template_by_name|]. intros dbt.
  destruct (decide _); [apply quiet_raise|apply quiet_Template_load].
Qed.

Lemma quiet_load_by_name (n : string) : quiet (Library.load_by_name n).
Proof.
  unfold Library.load_by_name.
  apply quiet_bind; [apply quiet_get_db_library_by_name|]. intros l. apply quiet_ret.
Qed.

Lemma quiet_run {A : Type} (m : M A) s r s' l :
  quiet m → m s = (r, s', l) → s' = s ∧ l = [].
Proof.
  intros Hm Hr. destruct (Hm s) as [Hs Hl].
  unfold store_of, log_of in *. rewrite Hr in Hs, Hl. done.
Qed.

Lemma quiet_to_template (dep : Library._template_dependency) (id_lookup : gmap string Z) :
  quiet (Library.to_template dep id_lookup).
Proof.
  unfold Library.to_template.
  destruct (Library.template_id dep); [apply quiet_Template_load|].
  destruct (id_lookup !! _); [apply quiet_Template_load|].
  apply quiet_bind; [apply quiet_load_by_name|]. intros l.
  apply quiet_get_template_by_name.
Qed.

Lemma quiet_get_templates (self : Library.t) : quiet (Library.get_templates self).
Proof.
  unfold Library.get_templates.
  apply quiet_bind; [apply quiet_get_db_library_by_id|]. intros l.
  apply quiet_bind; [apply quiet_get_store|]. intros s.
  apply quiet_mapM. intros t. apply quiet_Template_load.
Qed.

Lemma quiet_get_shape_collection (self : Library.t) :
  quiet (Library.get_shape_collection self).
Proof.
  unfold Library.get_shape_collection.
  apply quiet_bind; [apply quiet_get_db_library_by_id|]. intros l.
  apply quiet_ShapeCollection_load.
Qed.

(** X5. The operations that read never write: resolving a dependency,
    listing a library's templates, fetching a template by name, fetching
    the shape collection and loading a library by id or by name leave the
    store exactly as it was and log nothing, whether they return or
    raise. *)
Theorem X5_reads_leave_the_store_alone
    (self : Library.t) (dep : Library._template_dependency)
    (id_lookup : gmap string Z) (n : string) (i : Z) :
  quiet (Library.to_template dep id_lookup) ∧
  quiet (Library.get_templates self) ∧
  quiet (Library.get_template_by_name self n) ∧
  quiet (Library.get_shape_collection self) ∧
  quiet (Library._load_from_db i) ∧
  quiet (Library.load_by_name n).
Proof.
  split; [|split; [|split; [|split; [|split]]]].
  - apply quiet_to_template.
  - apply quiet_get_templates.
  - apply quiet_get_template_by_name.
  - apply quiet_get_shape_collection.
  - unfold Library._load_from_db.
    apply quiet_bind; [apply quiet_get_db_library_by_id|]. intros l. apply quiet_ret.
  - apply quiet_load_by_name.
Qed.

Lemma get_db_library_by_name_Ok (n : string) (s : Store) dbl s' l :
  table_connection.get_db_library_by_name n s = (Ok dbl, s', l) →
  dbl ∈ library_table s ∧ lib_name dbl = n.
Proof.
  unfold table_connection.get_db_library_by_name.
  destruct (List.find _ _) as [d|] eqn:Hf; [|discriminate].
  intros [= <- _ _]. apply List.find_some in Hf as [Hin Hn].
  apply bool_decide_eq_true in Hn. split; [by apply list_elem_of_In|done].
Qed.

(** X6. Late binding stays inside the named library. A dependency entry
    without [template_id], whose name is not in the batch-local table,
    resolves only to a template whose record carries that name and belongs
    to the library the entry names, or to the dependant's own library when
    the entry names none. *)
Theorem X6_late_binding_resolves_in_named_library
    (d : Library.DepDict) (dependent_library_name : string)
    (id_lookup : gmap string Z) (s s' : Store) (t : Template.t) (l : list LogRecord)
    (Hid : Library.d_template_id d = None)
    (Hbatch : id_lookup !! Library.d_template d = None)
    (Hres : Library.to_template (Library.from_dict d dependent_library_name)
              id_lookup s = (Ok t, s', l)) :
  ∃ dbl dbt,
    dbl ∈ library_table s ∧
    lib_name dbl = default dependent_library_name (Library.d_library d) ∧
    dbt ∈ template_table s ∧
    tmpl_name dbt = Library.d_template d ∧
    tmpl_library_id dbt = lib_id dbl ∧
    Template._id t = tmpl_id dbt.
Proof.
  unfold Library.to_template, Library.from_dict in Hres. simpl in Hres.
  rewrite Hid, Hbatch in Hres.
  apply bind_Ok_inv in Hres as (lib & s1 & l1 & l2 & Hlib & Hget & _).
  unfold Library.load_by_name in Hlib.
  apply bind_Ok_inv in Hlib as (dbl & s0 & l0 & l0' & Hdbl & Hret & _).
  destruct (quiet_run _ _ _ _ _ (quiet_get_db_library_by_name _) Hdbl) as [-> ->].
  injection Hret as <- <- _.
  apply get_db_library_by_name_Ok in Hdbl as [Hin Hname].
  unfold Library.get_template_by_name in Hget.
  apply bind_Ok_inv in Hget as (dbt & s2 & l3 & l4 & Hdbt & Hload & _).
  destruct (quiet_run _ _ _ _ _ (quiet_get_db_template_by_name _) Hdbt) as [-> ->].
  simpl in Hload.
  destruct (decide (tmpl_library_id dbt ≠ lib_id dbl)) as [|Heq]; [discriminate|].
  apply dec_stable in Heq. apply Template_load_Ok in Hload as (Hid' & _ & _).
  apply get_db_template_by_name_Ok in Hdbt as [Hn Hint].
  by exists dbl, dbt.
Qed.

(** ** The second pass of the directory loader: the three steps *)






(** ** Creating and finding again *)

Lemma find_app_None {A : Type} (f : A → bool) (l1 l2 : list A) :
  List.find f l1 = None → List.find f (l1 ++ l2) = List.find f l2.
Proof.
  induction l1 as [|x l1 IH]; simpl; [done|].
  destruct (f x); [discriminate|]. apply IH.
Qed.

Lemma find_fmap_pred {A : Type} (p : A → bool) (f : A → A) (l : list A) :
  (∀ x, p (f x) = p x) → List.find p (f <$> l) = f <$> List.find p l.
Proof.
  intros Hp. induction l as [|x l IH]; [done|].
  rewrite fmap_cons. simpl. rewrite Hp. destruct (p x); [done|]. apply IH.
Qed.

Lemma find_none_Forall {A : Type} (p : A → bool) (l : list A) :
  Forall (fun x => p x = false) l → List.find p l = None.
Proof. induction 1 as [|x l Hx _ IH]; simpl; [done|]. by rewrite Hx. Qed.

Lemma filter_none {A : Type} (P : A → Prop) `{∀ x, Decision (P x)} (l : list A) :
  Forall (fun x => ¬ P x) l → filter P l = [].
Proof.
  induction 1 as [|x l Hx _ IH]; [done|].
  rewrite filter_cons. by destruct (decide (P x)).
Qed.

Lemma create_template_Ok (self : Library.t) (name : string) (body : option Graph)
    (optional_args : option (list string)) (s s' : Store) (t : Template.t)
    (l : list LogRecord) :
  fresh_template_id s →
  Library.create_template self name body optional_args s = (Ok t, s', l) →
  Template.load (Template._id t) s' = (Ok t, s', []) ∧
  Template._name t = name ∧
  Template.body t = default ∅ body ∧
  Template.optional_args t = default [] optional_args ∧
  ∃ tbl dbt, template_table s' = tbl ++ [dbt] ∧
             tmpl_name <$> tbl = tmpl_name <$> template_table s ∧
             tmpl_id dbt = Template._id t ∧
             tmpl_name dbt = name ∧
             tmpl_library_id dbt = Library._id self.
Proof.
  intros Hfresh Hcreate.
  revert Hcreate.
  unfold Library.create_template, bind, table_connection.create_db_template,
    graph_connection.create_graph,
    table_connection.update_db_template_optional_args, ret.
  destruct (existsb _ (template_table s)); [discriminate|]. simpl.
  match goal with
  | |- context [List.find ?f (?l ++ [?x])] =>
      destruct (find_app_last f l x) as [t0 Hfind];
        [by apply bool_decide_eq_true|rewrite Hfind]
  end.
  simpl. intros [= <- <- <-]. simpl.
  set (upd := fun t0 : DBTemplate =>
                if decide (tmpl_id t0 = next_id s)
                then {| tmpl_id := tmpl_id t0; tmpl_name := tmpl_name t0;
                        tmpl_body_id := tmpl_body_id t0;
                        tmpl_optional_args := default [] optional_args;
                        tmpl_library_id := tmpl_library_id t0 |}
                else t0).
  set (new := {| tmpl_id := next_id s; tmpl_name := name;
                 tmpl_body_id := next_id s + 1; tmpl_optional_args := [];
                 tmpl_library_id := Library._id self |}).
  assert (List.find (fun t0 => bool_decide (tmpl_id t0 = next_id s))
            (upd <$> (template_table s ++ [new])) = Some (upd new)) as Hf.
  { rewrite find_fmap_pred.
    - rewrite find_app_None.
      + simpl. by rewrite bool_decide_eq_true_2.
      + apply find_none_Forall. eapply Forall_impl; [exact Hfresh|].
        intros x Hx. by apply bool_decide_eq_false.
    - intros x. unfold upd. by destruct (decide _). }
  split; [|split; [done|split; [done|split; [done|]]]].
  - unfold Template.load, bind, table_connection.get_db_template_by_id, get_store, ret.
    simpl. fold upd new. rewrite Hf. simpl.
    unfold upd, new. simpl. rewrite decide_True by done. simpl.
    by rewrite lookup_insert_eq.
  - exists (upd <$> template_table s), (upd new). split.
    + simpl. fold upd new. by rewrite fmap_app.
    + split.
      * rewrite <- list_fmap_compose. apply list_fmap_ext. intros i x _.
        simpl. unfold upd. by destruct (decide _).
      * unfold upd, new. simpl. by rewrite decide_True.
Qed.

(** X8. A template can be loaded back as it was created. When the next
    identifier is not in use, the template [create_template] returns is
    the one [Template.load] gives for its id afterwards: the given name,
    the given body (the empty graph when none is given) and the given
    optional arguments (none when not given); its record belongs to this
    library. *)
Theorem X8_created_template_loads_back
    (self : Library.t) (name : string) (body : option Graph)
    (optional_args : option (list string)) (s s' : Store) (t : Template.t)
    (l : list LogRecord)
    (Hfresh : fresh_template_id s)
    (Hcreate : Library.create_template self name body optional_args s = (Ok t, s', l)) :
  Template.load (Template._id t) s' = (Ok t, s', []) ∧
  Template._name t = name ∧
  Template.body t = default ∅ body ∧
  Template.optional_args t = default [] optional_args ∧
  ∃ dbt, dbt ∈ template_table s' ∧
         tmpl_id dbt = Template._id t ∧
         tmpl_name dbt = name ∧
         tmpl_library_id dbt = Library._id self.
Proof.
  destruct (create_template_Ok _ _ _ _ _ _ _ _ Hfresh Hcreate)
    as (Hload & Hn & Hb & Ho & tbl & dbt & Htbl & _ & Hid & Hname & Hlib).
  split; [done|]. split; [done|]. split; [done|]. split; [done|].
  exists dbt. rewrite Htbl. split; [|done].
  apply elem_of_app. right. by apply list_elem_of_singleton.
Qed.

Lemma Template_load_exists (i : Z) (s : Store) :
  (∃ t, t ∈ template_table s ∧ tmpl_id t = i) →
  ∃ t', Template.load i s = (Ok t', s, []) ∧ Template._id t' = i.
Proof.
  intros (t & Hin & Hid).
  unfold Template.load, bind, table_connection.get_db_template_by_id, get_store, ret.
  destruct (List.find _ (template_table s)) as [d|] eqn:Hf.
  - simpl. eexists. split; [reflexivity|]. simpl.
    apply find_some_pred in Hf. by apply bool_decide_eq_true in Hf.
  - exfalso. apply list_elem_of_In in Hin.
    apply (List.find_none _ _ Hf) in Hin. apply bool_decide_eq_false in Hin. done.
Qed.

Lemma mapM_Template_load (s : Store) (ts0 : list DBTemplate) :
  (∀ t, t ∈ ts0 → t ∈ template_table s) →
  ∃ ts, mapM (fun t => Template.load (tmpl_id t)) ts0 s = (Ok ts, s, []) ∧
        Template._id <$> ts = tmpl_id <$> ts0.
Proof.
  induction ts0 as [|t ts0 IH]; intros Hsub; simpl.
  - by exists [].
  - destruct (Template_load_exists (tmpl_id t) s) as (t' & Ht' & Hid).
    { exists t. split; [apply Hsub; by left|done]. }
    destruct IH as (ts & Hts & Hids).
    { intros x Hx. apply Hsub. by right. }
    exists (t' :: ts). unfold bind. rewrite Ht', Hts. simpl.
    split; [done|]. csimpl. by f_equal.
Qed.

(** X9. [get_templates] returns when the library's record exists, with one
    template per record of the template table that belongs to the library,
    in table order and with the records' ids; without the record it raises
    the lookup's exception. *)
Theorem X9_get_templates_lists_the_library (self : Library.t) (s : Store) :
  (∀ dbl,
      List.find (fun l => bool_decide (lib_id l = Library._id self)) (library_table s)
        = Some dbl →
      ∃ ts, Library.get_templates self s = (Ok ts, s, []) ∧
            Template._id <$> ts =
              tmpl_id <$> filter (fun t => tmpl_library_id t = Library._id self)
                                 (template_table s)) ∧
  (List.find (fun l => bool_decide (lib_id l = Library._id self)) (library_table s)
     = None →
   Library.get_templates self s = (Raise NoResultFound, s, [])).
Proof.
  split.
  - intros dbl Hf.
    unfold Library.get_templates, bind at 1, table_connection.get_db_library_by_id.
    rewrite Hf. unfold bind at 1, get_store.
    assert (lib_id dbl = Library._id self) as Hid.
    { apply find_some_pred in Hf. by apply bool_decide_eq_true in Hf. }
    unfold table_connection.templates. rewrite Hid.
    destruct (mapM_Template_load s
                (filter (fun t => tmpl_library_id t = Library._id self)
                        (template_table s))) as (ts & Hts & Hids).
    { intros t Ht. by apply list_elem_of_filter in Ht as [_ ?]. }
    exists ts. rewrite Hts. done.
  - intros Hf. unfold Library.get_templates, bind, table_connection.get_db_library_by_id.
    by rewrite Hf.
Qed.

(** ** An instance and its record *)

Lemma mirrors_same_table (self : Library.t) (s s' : Store) :
  library_table s' = library_table s → mirrors self s → mirrors self s'.
Proof. unfold mirrors. by intros ->. Qed.

Lemma run_op_mirrors (self : Library.t) (op : Op) (s : Store) :
  mirrors self s → mirrors (run_op self op s).1 (run_op self op s).2.
Proof.
  intros Hm. destruct op; simpl; try done.
  - unfold assign, Library.name_setter, bind, table_connection.update_db_library_name.
    destruct (List.find _ (library_table s)) as [dbl|] eqn:Hf; [|done].
    destruct (existsb _ _); [done|]. simpl.
    unfold mirrors. simpl. rewrite find_fmap_pred.
    + rewrite Hf. simpl. eexists. split; [reflexivity|].
      apply find_some_pred in Hf. apply bool_decide_eq_true in Hf.
      by rewrite decide_True.
    + intros x. by destruct (decide _).
  - unfold after. simpl. eapply mirrors_same_table; [|done].
    apply (preserves_create_template library_table self name body optional_args
             (fun _ _ _ H => H) s).
  - unfold after. simpl.
    destruct (quiet_get_templates self s) as [Hs _]. unfold store_of in Hs.
    by rewrite Hs.
  - unfold after. simpl.
    destruct (quiet_get_shape_collection self s) as [Hs _]. unfold store_of in Hs.
    by rewrite Hs.
  - unfold after. simpl.
    destruct (quiet_get_template_by_name self name s) as [Hs _]. unfold store_of in Hs.
    by rewrite Hs.
Qed.

Lemma run_ops_mirrors (ops : list Op) :
  ∀ (self : Library.t) (s : Store),
    mirrors self s → mirrors (run_ops self ops s).1 (run_ops self ops s).2.
Proof.
  induction ops as [|op ops IH]; intros self s Hm; simpl; [done|].
  apply IH. by apply run_op_mirrors.
Qed.

(** X10. A library instance keeps mirroring its record. An instance
    loaded by id carries the name of the record found under its id, and
    this stays so after any sequence of public operations: a rename
    changes the record and the instance together, and a rename that raises
    changes neither. *)
Theorem X10_instance_mirrors_its_record
    (i : Z) (s s0 : Store) (lib : Library.t) (l : list LogRecord)
    (Hload : Library._load_from_db i s = (Ok lib, s0, l)) (ops : list Op) :
  Library._id lib = i ∧
  mirrors (run_ops lib ops s0).1 (run_ops lib ops s0).2.
Proof.
  unfold Library._load_from_db, bind, table_connection.get_db_library_by_id, ret
    in Hload.
  destruct (List.find _ (library_table s)) as [dbl|] eqn:Hf; [|discriminate].
  simpl in Hload. injection Hload as <- <- _.
  pose proof (find_some_pred _ _ _ Hf) as Hid. apply bool_decide_eq_true in Hid.
  split; [done|]. apply run_ops_mirrors.
  exists dbl. simpl. by rewrite Hid.
Qed.

(** X11. A library that has just been created can be loaded back by its
    name, and [load] then gives the very instance [create] returned,
    without touching the store; the same holds for loading by its id when
    that id was not in use. *)
Theorem X11_created_library_loads_back
    (pyshacl_validate : Graph → Graph)
    (get_template_parts_from_shape : Node → Graph → Result (Graph * list Library.DepDict))
    (compile_template_spec : Library.TemplSpec → Result Library.TemplSpec)
    (iteration_order : gset Node → list Node)
    (n : string) (s s' : Store) (lib : Library.t) (l : list LogRecord)
    (Hcreate : Library.create (Some n) s = (Ok lib, s', l)) :
  Library.load pyshacl_validate get_template_parts_from_shape compile_template_spec
     iteration_order
    None None None (Some n) s' = (Ok lib, s', []) ∧
  (fresh_library_id s →
   Library.load pyshacl_validate get_template_parts_from_shape compile_template_spec
     iteration_order
     (Some (Library._id lib)) None None None s' = (Ok lib, s', []) ∧
   mirrors lib s').
Proof.
  revert Hcreate.
  unfold Library.create, bind, table_connection.create_db_library, ret.
  destruct (bool_decide (n ∈ lib_name <$> library_table s)) eqn:Hn; [discriminate|].
  simpl. intros [= <- <- <-]. apply bool_decide_eq_false in Hn.
  set (new := {| lib_id := next_id s; lib_name := n;
                 lib_shape_collection_id := next_id s + 1 |}).
  split.
  - unfold Library.load, Library.load_by_name, bind,
      table_connection.get_db_library_by_name, ret. simpl. fold new.
    rewrite find_app_None.
    + simpl. by rewrite bool_decide_eq_true_2.
    + apply find_none_Forall, Forall_forall. intros x Hx.
      apply bool_decide_eq_false. intros Hxn. apply Hn.
      apply list_elem_of_fmap. by exists x.
  - intros Hfresh.
    assert (List.find (fun l0 => bool_decide (lib_id l0 = next_id s))
              (library_table s ++ [new]) = Some new) as Hf.
    { rewrite find_app_None.
      - simpl. by rewrite bool_decide_eq_true_2.
      - apply find_none_Forall. eapply Forall_impl; [exact Hfresh|].
        intros x Hx. by apply bool_decide_eq_false. }
    split.
    + unfold Library.load, Library._load_from_db, bind,
        table_connection.get_db_library_by_id, ret. simpl. fold new.
      by rewrite Hf.
    + exists new. simpl. fold new. by rewrite Hf.
Qed.

(** ** The shape collection of a library *)

Lemma get_shape_collection_Ok (self : Library.t) (s s1 : Store)
    (sc : ShapeCollection.t) (l1 : list LogRecord) :
  Library.get_shape_collection self s = (Ok sc, s1, l1) →
  ∃ dbl G,
    List.find (fun l => bool_decide (lib_id l = Library._id self)) (library_table s)
      = Some dbl ∧
    shape_collections s !! lib_shape_collection_id dbl = Some G ∧
    sc = {| ShapeCollection.id := Some (lib_shape_collection_id dbl);
            ShapeCollection.graph := G |} ∧
    s1 = s ∧ l1 = [].
Proof.
  unfold Library.get_shape_collection, bind, table_connection.get_db_library_by_id,
    ShapeCollection.load.
  destruct (List.find _ (library_table s)) as [dbl|] eqn:Hf; [|discriminate].
  destruct (shape_collections s !! _) as [G|] eqn:HG; [|discriminate].
  simpl. intros [= <- <- <-]. by exists dbl, G.
Qed.

Lemma get_shape_collection_found (self : Library.t) (s : Store) (dbl : DBLibrary)
    (G : Graph) :
  List.find (fun l => bool_decide (lib_id l = Library._id self)) (library_table s)
    = Some dbl →
  shape_collections s !! lib_shape_collection_id dbl = Some G →
  Library.get_shape_collection self s
    = (Ok {| ShapeCollection.id := Some (lib_shape_collection_id dbl);
             ShapeCollection.graph := G |}, s, []).
Proof.
  intros Hf HG.
  unfold Library.get_shape_collection, bind, table_connection.get_db_library_by_id,
    ShapeCollection.load.
  by rewrite Hf, HG.
Qed.

Lemma ShapeCollection_load_Ok (i : Z) (s s1 : Store) (col : ShapeCollection.t) l1 :
  ShapeCollection.load i s = (Ok col, s1, l1) →
  ShapeCollection.id col = Some i ∧ s1 = s ∧ l1 = [].
Proof.
  unfold ShapeCollection.load. destruct (_ !! _); [|discriminate].
  by intros [= <- <- <-].
Qed.

Lemma forM__add_graph (col : ShapeCollection.t) (i : Z) (gs : list Graph) :
  ShapeCollection.id col = Some i →
  ∀ s, ∃ s',
    forM_ gs (ShapeCollection.add_graph col) s = (Ok tt, s', []) ∧
    library_table s' = library_table s ∧
    template_table s' = template_table s ∧
    deps_association_table s' = deps_association_table s ∧
    ∀ G0, shape_collections s !! i = Some G0 →
          ∃ G, shape_collections s' !! i = Some G ∧ G0 ⊆ G ∧ ∀ g, g ∈ gs → g ⊆ G.
Proof.
  intros Hid. induction gs as [|g gs IH]; intros s; simpl.
  - exists s. repeat split; try done. intros G0 HG0. exists G0.
    repeat split; [done..|]. intros g Hg. by apply elem_of_nil in Hg.
  - unfold bind, ShapeCollection.add_graph at 1. rewrite Hid.
    match goal with
    | |- context [forM_ gs _ ?s1] => destruct (IH s1) as (s' & Hrun & Hl & Ht & Hd & HG)
    end.
    exists s'. rewrite Hrun. repeat split; try done.
    intros G0 HG0. simpl in HG. rewrite HG0 in HG. simpl in HG.
    destruct (HG (G0 ∪ g)) as (G & HGs & Hsub & Hall); [by rewrite lookup_insert_eq|].
    exists G. split; [done|]. split; [set_solver|].
    intros g' Hg'. apply elem_of_cons in Hg' as [->|Hg']; [set_solver|by apply Hall].
Qed.

Lemma load_shapes_inv (self : Library.t) (directory : Library.Directory)
    (s s' : Store) (l : list LogRecord) :
  Library._load_shapes_from_directory self directory s = (Ok tt, s', l) →
  ∃ dbl G G',
    List.find (fun l => bool_decide (lib_id l = Library._id self)) (library_table s)
      = Some dbl ∧
    shape_collections s !! lib_shape_collection_id dbl = Some G ∧
    shape_collections s' !! lib_shape_collection_id dbl = Some G' ∧
    G ⊆ G' ∧
    (∀ g, g ∈ Library.dir_ontology_files directory → g ⊆ G') ∧
    library_table s' = library_table s ∧
    template_table s' = template_table s ∧
    deps_association_table s' = deps_association_table s.
Proof.
  intros Hok. unfold Library._load_shapes_from_directory in Hok.
  apply bind_Ok_inv in Hok as (sc & s1 & l1 & l1' & Hsc & Hok & _).
  destruct (get_shape_collection_Ok _ _ _ _ _ Hsc) as (dbl & G & Hf & HG & -> & -> & ->).
  simpl in Hok.
  apply bind_Ok_inv in Hok as (i & s2 & l2 & l2' & Hi & Hok & _).
  injection Hi as <- <- _.
  apply bind_Ok_inv in Hok as (col & s3 & l3 & l3' & Hcol & Hok & _).
  apply ShapeCollection_load_Ok in Hcol as (Hid & -> & ->).
  destruct (forM__add_graph col _ (Library.dir_ontology_files directory) Hid s)
    as (s'' & Hrun & Hl & Ht & Hd & Hshape).
  rewrite Hrun in Hok. injection Hok as <- _.
  destruct (Hshape G HG) as (G' & HG' & Hsub & Hall).
  by exists dbl, G, G'.
Qed.

(** X12. [_load_shapes_from_directory], when it returns, has put every
    ontology file of the directory into the library's shape collection:
    the collection fetched afterwards contains each file's graph and
    everything it held before, and libraries, templates and dependencies
    are as they were. *)
Theorem X12_shapes_of_directory_are_stored
    (self : Library.t) (directory : Library.Directory) (s s' : Store)
    (l : list LogRecord)
    (Hok : Library._load_shapes_from_directory self directory s = (Ok tt, s', l)) :
  ∃ before now,
    Library.get_shape_collection self s = (Ok before, s, []) ∧
    Library.get_shape_collection self s' = (Ok now, s', []) ∧
    ShapeCollection.graph before ⊆ ShapeCollection.graph now ∧
    (∀ g, g ∈ Library.dir_ontology_files directory → g ⊆ ShapeCollection.graph now) ∧
    library_table s' = library_table s ∧
    template_table s' = template_table s ∧
    deps_association_table s' = deps_association_table s.
Proof.
  destruct (load_shapes_inv _ _ _ _ _ Hok)
    as (dbl & G & G' & Hf & HG & HG' & Hsub & Hall & Hl & Ht & Hd).
  eexists _, _. split; [by apply get_shape_collection_found|].
  split; [apply get_shape_collection_found; [by rewrite Hl|exact HG']|].
  done.
Qed.

(** ** What a successful load leaves in the store *)

Section Loaded.

Variable pyshacl_validate : Graph → Graph.
Variable get_template_parts_from_shape :
  Node → Graph → Result (Graph * list Library.DepDict).
Variable iteration_order : gset Node → list Node.
Variable compile_template_spec : Library.TemplSpec → Result Library.TemplSpec.

(** X13. A directory load that returns has created the library under the
    directory's name and, in the order of the files and of their entries,
    one template per entry, named as the entry and owned by the library;
    and the library's shape collection contains the graph of every
    ontology file of the directory. *)
Theorem X13_directory_load_result
    (directory : Library.Directory) (s s' : Store) (lib : Library.t)
    (l : list LogRecord)
    (Hload : Library._load_from_directory compile_template_spec directory s
               = (Ok lib, s', l)) :
  Library._name lib = Library.dir_name directory ∧
  template_names s' =
    template_names s ++
    ((fun en : string * Library.TemplSpec => (en.1, Library._id lib))
       <$> entries directory) ∧
  ∃ now,
    Library.get_shape_collection lib s' = (Ok now, s', []) ∧
    ∀ g, g ∈ Library.dir_ontology_files directory → g ⊆ ShapeCollection.graph now.
Proof.
  unfold Library._load_from_directory in Hload.
  apply bind_Ok_inv in Hload as (lib0 & s1 & l1 & l1' & Hcreate & Hload & _).
  apply bind_Ok_inv in Hload as (tables & s2 & l2 & l2' & Hpass1 & Hload & _).
  cbv zeta in Hload.
  apply bind_Ok_inv in Hload as ([] & s3 & l3 & l3' & Hpass2 & Hload & _).
  apply bind_Ok_inv in Hload as ([] & s4 & l4 & l4' & Hshapes & Hret & _).
  injection Hret as <- <-.
  destruct (create_cases (Some (Library.dir_name directory)) s)
    as [(e & He)|(n & lib1 & s1' & Hn & Hc & Hname & _ & Ht1 & _)].
  { rewrite He in Hcreate. discriminate. }
  rewrite Hc in Hcreate. injection Hcreate as <- <- _. injection Hn as <-.
  pose proof (directory_pass1_creates compile_template_spec lib1 directory s1') as H12.
  rewrite Hpass1 in H12.
  pose proof (preserves_run _ _ _ _ _ _
                (preserves_directory_pass2 template_names (fun _ _ => eq_refl)
                   lib1 tables.1 tables.2) Hpass2) as H23.
  destruct (load_shapes_inv _ _ _ _ _ Hshapes)
    as (dbl & G & G' & Hf & HG & HG' & Hsub & Hall & Hl & Ht & Hd).
  split; [done|]. split.
  - unfold same_on in H23. unfold template_names at 1. rewrite Ht.
    fold (template_names s3). rewrite H23, H12.
    unfold template_names. by rewrite Ht1.
  - eexists. split; [apply get_shape_collection_found; [by rewrite Hl|exact HG']|].
    done.
Qed.

(** X14. An ontology load that returns has stored the graph it read, as
    expanded, in the new library's shape collection: the collection fetched
    afterwards contains every triple of that graph. *)
Theorem X14_ontology_graph_is_stored
    (ontology : Graph) (s s' : Store) (lib : Library.t) (l : list LogRecord)
    (Hload : Library._load_from_ontology_graph pyshacl_validate
               get_template_parts_from_shape iteration_order ontology s
             = (Ok lib, s', l)) :
  ∃ now,
    Library.get_shape_collection lib s' = (Ok now, s', []) ∧
    pyshacl_validate ontology ⊆ ShapeCollection.graph now.
Proof.
  unfold Library._load_from_ontology_graph in Hload.
  apply bind_Ok_inv in Hload as (name & s0 & l0 & l0' & Hname & Hload & _).
  apply bind_Ok_inv in Hload as (lib0 & s1 & l1 & l1' & Hcreate & Hload & _).
  apply bind_Ok_inv in Hload as (tables & s2 & l2 & l2' & Hpass1 & Hload & _).
  cbv zeta in Hload.
  apply bind_Ok_inv in Hload as ([] & s3 & l3 & l3' & Hpass2 & Hload & _).
  apply bind_Ok_inv in Hload as (sc & s4 & l4 & l4' & Hsc & Hload & _).
  destruct (get_shape_collection_Ok _ _ _ _ _ Hsc) as (dbl & G & Hf & HG & -> & -> & ->).
  simpl in Hload.
  apply bind_Ok_inv in Hload as (i & s5 & l5 & l5' & Hi & Hload & _).
  injection Hi as <- <- _.
  apply bind_Ok_inv in Hload as (col & s6 & l6 & l6' & Hcol & Hload & _).
  apply ShapeCollection_load_Ok in Hcol as (Hid & -> & ->).
  apply bind_Ok_inv in Hload as ([] & s7 & l7 & l7' & Hadd & Hret & _).
  injection Hret as <- <-.
  unfold ShapeCollection.add_graph in Hadd. rewrite Hid in Hadd.
  injection Hadd as <- _.
  eexists. split.
  - apply get_shape_collection_found; [exact Hf|]. simpl. apply lookup_insert_eq.
  - simpl. set_solver.
Qed.

End Loaded.

(** ** The mock library of the tests *)

Lemma get_template_by_name_run (self : Library.t) (name : string) (s : Store) :
  ∃ r, Library.get_template_by_name self name s = (r, s, []).
Proof.
  destruct (Library.get_template_by_name self name s) as [[r s1] l1] eqn:Hr.
  destruct (quiet_run _ _ _ _ _ (quiet_get_template_by_name self name) Hr) as [-> ->].
  by exists r.
Qed.

(** X15. The mock library gets or creates. Where the library's own lookup
    returns a template, the mock returns the same and changes nothing;
    where the lookup raises, the mock's outcome is that of creating a
    template of that name with the made-up body, so it returns a template
    of the requested name or raises what the creation raises. In
    particular, for a name no template carries and an unused next
    identifier, it returns a new template of this library, and the
    library's own lookup finds that template afterwards. *)
Theorem X15_mock_gets_or_creates (self : Library.t) (name : string) (s : Store) :
  (∀ t, result_of (Library.get_template_by_name self name s) = Ok t →
        MockLibrary.get_template_by_name self name s = (Ok t, s, [])) ∧
  (∀ e, result_of (Library.get_template_by_name self name s) = Raise e →
        MockLibrary.get_template_by_name self name s
          = Library.create_template self name (Some MockLibrary.template_body) None s) ∧
  (fresh_template_id s →
   Forall (fun t => tmpl_name t ≠ name) (template_table s) →
   ∃ t s',
     MockLibrary.get_template_by_name self name s = (Ok t, s', []) ∧
     Template._name t = name ∧
     Template.body t = MockLibrary.template_body ∧
     Library.get_template_by_name self name s' = (Ok t, s', [])).
Proof.
  destruct (get_template_by_name_run self name s) as (r & Hr).
  unfold MockLibrary.get_template_by_name, try_except. rewrite Hr.
  unfold result_of. simpl.
  split; [|split].
  - by intros t ->.
  - intros e ->.
    by destruct (Library.create_template self name _ None s) as [[r' s'] l'].
  - intros Hfresh Hname.
    assert (∃ e, r = Raise e) as (e & ->).
    { destruct r as [t|e]; [|by exists e]. exfalso.
      unfold Library.get_template_by_name in Hr.
      apply bind_Ok_inv in Hr as (dbt & s1 & l1 & l2 & Hdbt & _).
      apply get_db_template_by_name_Ok in Hdbt as [Hn Hin].
      rewrite Forall_forall in Hname. by apply (Hname dbt). }
    destruct (Library.create_template self name (Some MockLibrary.template_body) None s)
      as [[[t|e'] s'] l'] eqn:Hc.
    2: { exfalso. revert Hc.
         unfold Library.create_template, bind, table_connection.create_db_template.
         destruct (existsb _ (template_table s)) eqn:Hex.
         - apply existsb_exists in Hex as (x & Hx & Hb).
           apply bool_decide_eq_true in Hb as [Hb _].
           rewrite Forall_forall in Hname. apply list_elem_of_In in Hx.
           by destruct (Hname x Hx).
         - simpl. unfold table_connection.update_db_template_optional_args.
           simpl.
           match goal with
           | |- context [List.find ?f (?l ++ [?x])] =>
               destruct (find_app_last f l x) as [t0 Hfind];
                 [by apply bool_decide_eq_true|rewrite Hfind]
           end.
           discriminate. }
    destruct (create_template_cases self name (Some MockLibrary.template_body) None s)
      as [(e' & He)|(t' & s'' & Hc' & _)]; rewrite Hc in *; [discriminate|].
    injection Hc' as _ _ ->.
    destruct (create_template_Ok _ _ _ _ _ _ _ _ Hfresh Hc)
      as (Hload & Hn & Hb & _ & tbl & dbt & Htbl & Hnames & Hid & Hdn & Hlib).
    exists t, s'. split; [done|]. split; [done|]. split; [done|].
    unfold Library.get_template_by_name, bind,
      table_connection.get_db_template_by_name.
    rewrite Htbl, filter_app, filter_none.
    2: { apply Forall_forall. intros x Hx Hxn.
         assert (name ∈ tmpl_name <$> template_table s) as Hin.
         { rewrite <- Hnames, <- Hxn. by apply list_elem_of_fmap_2. }
         apply list_elem_of_fmap in Hin as (y & Hy & Hin).
         rewrite Forall_forall in Hname. by apply (Hname y). }
    rewrite filter_cons, decide_True by done. rewrite filter_nil. simpl.
    rewrite decide_False by (intros Hne; by apply Hne).
    rewrite Hid, Hload. done.
Qed.

(** ** Instances *)

Lemma X1_witness :
  ∃ d', Migration.upgrade {| Migration.schema := Migration.table_before;
                             Migration.rows := [row_5_on_3] |} = Ok d' ∧
        triple <$> Migration.rows d' = [triple row_5_on_3] ∧
        Migration.id <$> Migration.rows d' = [Some 1].
Proof.
  eexists. split; [vm_compute; reflexivity|].
  destruct (X1_upgrade_keeps_rows
              {| Migration.schema := Migration.table_before;
                 Migration.rows := [row_5_on_3] |} _ eq_refl) as (Ht & _ & Hid).
  split; [exact Ht|]. vm_compute. reflexivity.
Defined.

Lemma X2_witness :
  (∃ c, Migration.upgrade
          {| Migration.schema := Migration.table_before;
             Migration.rows := [{| Migration.id := None; Migration.dependant_id := None;
                                   Migration.dependee_id := Some 3;
                                   Migration.args := None |}] |}
        = Raise (IntegrityError c)) ∧
  Migration.upgrade
    {| Migration.schema := Migration.table_before;
       Migration.rows := [{| Migration.id := None; Migration.dependant_id := Some 5;
                             Migration.dependee_id := Some 3;
                             Migration.args := None |}] |}
    = Raise (AttributeError "'NoneType' object has no attribute 'copy'").
Proof.
  split.
  - refine (proj1 (proj2 (X2_upgrade_succeeds_iff
                            [{| Migration.id := None; Migration.dependant_id := None;
                                Migration.dependee_id := Some 3;
                                Migration.args := None |}])) _).
    intros [Hids _]. apply Forall_inv in Hids as [[x Hx] _]. discriminate.
  - refine (proj2 (proj2 (X2_upgrade_succeeds_iff
                            [{| Migration.id := None; Migration.dependant_id := Some 5;
                                Migration.dependee_id := Some 3;
                                Migration.args := None |}])) _ _ _).
    + repeat constructor; simpl; by eexists.
    + reflexivity.
    + intros Hargs. apply Forall_inv in Hargs as [x Hx]. discriminate.
Defined.

Lemma X3_witness :
  ∃ db', MigrationDown.downgrade
           {| MigrationDown.template_indexes := [];
              MigrationDown.deps :=
                {| Migration.schema := Migration.schema deps_table_after;
                   Migration.rows :=
                     [{| Migration.id := Some 1; Migration.dependant_id := Some 5;
                         Migration.dependee_id := Some 3;
                         Migration.args := Some [("name", "name")] |}] |} |} = Ok db' ∧
         triple <$> Migration.rows (MigrationDown.deps db') = [triple row_5_on_3] ∧
         Forall (fun r => Migration.id r = None) (Migration.rows (MigrationDown.deps db')).
Proof.
  eexists. split; [vm_compute; reflexivity|].
  destruct (X3_downgrade_effect
              {| MigrationDown.template_indexes := [];
                 MigrationDown.deps :=
                   {| Migration.schema := Migration.schema deps_table_after;
                      Migration.rows :=
                        [{| Migration.id := Some 1; Migration.dependant_id := Some 5;
                            Migration.dependee_id := Some 3;
                            Migration.args := Some [("name", "name")] |}] |} |}
              _ eq_refl) as (_ & _ & _ & _ & _ & Ht & Hid).
  split; [exact Ht|exact Hid].
Defined.

Lemma X4_witness :
  Migration.insert (MigrationDown.deps db_down_5_on_3) row_5_on_3
    = Ok {| Migration.schema := MigrationDown.table_downgraded;
            Migration.rows :=
              Migration.rows (MigrationDown.deps db_down_5_on_3) ++ [row_5_on_3] |} ∧
  Migration.insert {| Migration.schema := Migration.table_before;
                      Migration.rows := [row_5_on_3] |} row_5_on_3
    = Raise (IntegrityError "deps_association_table_pkey").
Proof.
  assert (Migration.upgrade {| Migration.schema := Migration.table_before;
                               Migration.rows := [row_5_on_3] |} = Ok table_up_5_on_3)
    as Hup by (vm_compute; reflexivity).
  assert (MigrationDown.downgrade {| MigrationDown.template_indexes := [];
                                     MigrationDown.deps := table_up_5_on_3 |}
          = Ok db_down_5_on_3) as Hdown by (vm_compute; reflexivity).
  destruct (X4_downgrade_does_not_restore_the_key [] [row_5_on_3] _ _ Hup Hdown)
    as (_ & _ & Hnew & Hold).
  assert (is_Some (Migration.dependant_id row_5_on_3)) as H5 by (by exists 5).
  assert (is_Some (Migration.dependee_id row_5_on_3)) as H3 by (by exists 3).
  split.
  - exact (Hnew row_5_on_3 H5 H3).
  - refine (Hold row_5_on_3 row_5_on_3 _ H5 H3 eq_refl eq_refl).
    apply list_elem_of_singleton. reflexivity.
Defined.

Lemma X6_witness :
  ∃ dbl dbt,
    dbl ∈ library_table store_L_T ∧ lib_name dbl = "L" ∧
    dbt ∈ template_table store_L_T ∧ tmpl_name dbt = "T" ∧
    tmpl_library_id dbt = lib_id dbl ∧ tmpl_id dbt = 3.
Proof.
  assert (result_of (Library.to_template (Library.from_dict dep_T_in_L "M") ∅ store_L_T)
          = Ok {| Template._id := 3; Template._name := "T";
                  Template.body := ∅; Template.optional_args := [] |}) as Hres
    by (vm_compute; reflexivity).
  destruct (X6_late_binding_resolves_in_named_library dep_T_in_L "M" ∅ store_L_T
              _ _ _ eq_refl (lookup_empty _) (run_Ok _ _ Hres))
    as (dbl & dbt & H1 & H2 & H3 & H4 & H5 & H6).
  exists dbl, dbt. repeat split; try assumption. symmetry. exact H6.
Defined.

Lemma fresh_store_L_T : fresh_template_id store_L_T.
Proof. vm_compute. repeat (constructor; [discriminate|]). constructor. Qed.

Lemma X8_witness :
  result_of (Template.load 7
               (store_of (Library.create_template lib_L "U" None (Some ["x"]) store_L_T)))
    = Ok {| Template._id := 7; Template._name := "U";
            Template.body := ∅; Template.optional_args := ["x"] |}.
Proof.
  assert (result_of (Library.create_template lib_L "U" None (Some ["x"]) store_L_T)
          = Ok {| Template._id := 7; Template._name := "U";
                  Template.body := ∅; Template.optional_args := ["x"] |})
    as Hcreate by (vm_compute; reflexivity).
  exact (f_equal result_of
           (proj1 (X8_created_template_loads_back lib_L "U" None
                     (Some ["x"]) store_L_T _ _ _ fresh_store_L_T
                     (run_Ok _ _ Hcreate)))).
Defined.

Lemma X9_witness :
  ∃ ts, result_of (Library.get_templates lib_L store_two_T) = Ok ts ∧
        Template._id <$> ts = [3].
Proof.
  assert (List.find (fun l => bool_decide (lib_id l = Library._id lib_L))
            (library_table store_two_T)
          = Some {| lib_id := 1; lib_name := "L"; lib_shape_collection_id := 2 |})
    as Hfind by (vm_compute; reflexivity).
  destruct (proj1 (X9_get_templates_lists_the_library lib_L store_two_T) _ Hfind)
    as (ts & Hts & Hids).
  exists ts. split; [by rewrite Hts|].
  rewrite Hids. vm_compute. reflexivity.
Defined.

Lemma X10_witness :
  let ops := [SetName "N"; CreateTemplate "U" None None; GetTemplates; SetId 9] in
  let s0 := store_of (Library._load_from_db 1 store_L_T) in
  mirrors (run_ops lib_L ops s0).1 (run_ops lib_L ops s0).2.
Proof.
  assert (result_of (Library._load_from_db 1 store_L_T) = Ok lib_L) as Hload
    by (vm_compute; reflexivity).
  cbv zeta.
  exact (proj2 (X10_instance_mirrors_its_record 1 store_L_T _ lib_L _
                  (run_Ok _ _ Hload)
                  [SetName "N"; CreateTemplate "U" None None; GetTemplates; SetId 9])).
Defined.

Lemma X11_witness :
  result_of (Library.load (fun g => g) parts_plain Ok elements None None None (Some "L")
               (store_of (Library.create (Some "L") empty_store)))
    = Ok lib_L.
Proof.
  assert (result_of (Library.create (Some "L") empty_store) = Ok lib_L) as Hcreate
    by (vm_compute; reflexivity).
  exact (f_equal result_of
           (proj1 (X11_created_library_loads_back (fun g => g) parts_plain Ok elements "L"
                     empty_store _ lib_L _ (run_Ok _ _ Hcreate)))).
Defined.

Lemma X12_witness :
  ∃ now,
    result_of (Library.get_shape_collection lib_L
                 (store_of (Library._load_shapes_from_directory lib_L dir_plain store_L_T)))
      = Ok now ∧
    g_one_shape ⊆ ShapeCollection.graph now.
Proof.
  assert (result_of (Library._load_shapes_from_directory lib_L dir_plain store_L_T)
          = Ok tt) as Hok by (vm_compute; reflexivity).
  destruct (X12_shapes_of_directory_are_stored lib_L dir_plain store_L_T _ _
              (run_Ok _ _ Hok))
    as (before & now & _ & Hnow & _ & Hall & _).
  exists now. split; [by rewrite Hnow|].
  apply Hall. unfold dir_plain. cbn [Library.dir_ontology_files].
  apply list_elem_of_singleton. reflexivity.
Defined.

Lemma X13_witness :
  template_names (store_of (Library._load_from_directory Ok dir_plain empty_store))
    = [("A", 1); ("B", 1)].
Proof.
  assert (result_of (Library._load_from_directory Ok dir_plain empty_store)
          = Ok {| Library._id := 1; Library._name := "lib" |}) as Hload
    by (vm_compute; reflexivity).
  refine (eq_trans
            (proj1 (proj2 (X13_directory_load_result Ok dir_plain empty_store _ _ _
                             (run_Ok _ _ Hload)))) _).
  vm_compute. reflexivity.
Defined.

Lemma X14_witness :
  ∃ now,
    result_of (Library.get_shape_collection
                 {| Library._id := 1; Library._name := "urn:ont" |}
                 (store_of (Library._load_from_ontology_graph (fun g => g) parts_plain elements
                              g_one_shape empty_store)))
      = Ok now ∧
    g_one_shape ⊆ ShapeCollection.graph now.
Proof.
  assert (result_of (Library._load_from_ontology_graph (fun g => g) parts_plain elements
                       g_one_shape empty_store)
          = Ok {| Library._id := 1; Library._name := "urn:ont" |}) as Hload
    by (vm_compute; reflexivity).
  destruct (X14_ontology_graph_is_stored (fun g => g) parts_plain elements g_one_shape
              empty_store _ _ _ (run_Ok _ _ Hload))
    as (now & Hnow & Hsub).
  exists now. split; [by rewrite Hnow|exact Hsub].
Defined.

Lemma X15_witness :
  ∃ t, result_of (MockLibrary.get_template_by_name lib_L "U" store_L_T) = Ok t ∧
       Template._name t = "U" ∧
       Template.body t = MockLibrary.template_body.
Proof.
  assert (Forall (fun t => tmpl_name t ≠ "U") (template_table store_L_T)) as Hname
    by (vm_compute; repeat (constructor; [discriminate|]); constructor).
  destruct (proj2 (proj2 (X15_mock_gets_or_creates lib_L "U" store_L_T))
              fresh_store_L_T Hname)
    as (t & s' & Hget & Hn & Hb & _).
  exists t. split; [by rewrite Hget|]. split; [exact Hn|exact Hb].
Defined.
